(** * STEPBible TAGNT Textus Receptus importer: reference resolution,
      gematria and verse aggregation

    A shallow embedding of the pure core of the repository:

    - [parseReference] and [isTrWord]  (scripts/import.ts),
    - [normalizeGreek] and [computeGreek]  (tests/import.test.ts, the oracle
      copy of the function that scripts/import.ts imports from
      [@metaxia/scriptures-core]),
    - the sorting, numbering and totalling done by [saveVerse]
      (scripts/import.ts),
    - [loadVerse] and [loadChapter]  (src/source.ts).

    A JavaScript string is modelled as the list of its Unicode code points
    (a well-formed surrogate pair counts as one code point, a lone surrogate
    as itself).  Every operation the embedded code applies to strings treats
    the two code units of a pair as a unit or leaves them alone, so nothing
    is lost: the regular expressions used only name code points of the Basic
    Multilingual Plane outside the surrogate range, [for ... of] iterates by
    code point, and normalisation and case conversion are defined on code
    points.

    JavaScript numbers are modelled as [Z].  All numbers the code computes
    are integers; the model is exact as long as they stay below 2^53, which
    is where IEEE doubles stop being exact (a digit field of a reference
    token would need sixteen digits to get there). *)

From Stdlib Require Import ZArith List Lia Ascii String DecimalString DecimalPos Permutation Sorted.
From stdpp Require Import gmap list strings.

Local Open Scope Z_scope.

(** ** JavaScript strings *)

Abbreviation jsstring := (list Z) (only parsing).

(** Decoding of a UTF-8 byte sequence, used only to write string literals of
    the source in this file as they appear there. *)
Fixpoint utf8_decode (bs : list Z) : list Z :=
  match bs with
  | [] => []
  | b :: r =>
      if b <? 0x80 then b :: utf8_decode r
      else if b <? 0xE0 then
        match r with
        | b1 :: r1 => ((b mod 0x20) * 0x40 + b1 mod 0x40) :: utf8_decode r1
        | _ => []
        end
      else if b <? 0xF0 then
        match r with
        | b1 :: b2 :: r2 =>
            ((b mod 0x10) * 0x1000 + (b1 mod 0x40) * 0x40 + b2 mod 0x40) :: utf8_decode r2
        | _ => []
        end
      else
        match r with
        | b1 :: b2 :: b3 :: r3 =>
            ((b mod 0x8) * 0x40000 + (b1 mod 0x40) * 0x1000 + (b2 mod 0x40) * 0x40 + b3 mod 0x40)
              :: utf8_decode r3
        | _ => []
        end
  end.

(** [js "..."] is the JavaScript string written as the literal ["..."]. *)
Definition js (s : string) : list Z :=
  utf8_decode (map (fun a => Z.of_N (N_of_ascii a)) (list_ascii_of_string s)).

(** [String.prototype.includes]: [needle] occurs in [hay] as a contiguous
    substring. *)
Fixpoint starts_with (needle hay : list Z) : bool :=
  match needle, hay with
  | [], _ => true
  | _ :: _, [] => false
  | n :: needle', h :: hay' => (n =? h) && starts_with needle' hay'
  end.

Fixpoint includes (needle hay : list Z) : bool :=
  starts_with needle hay ||
  match hay with
  | [] => false
  | _ :: hay' => includes needle hay'
  end.

(** ** The Unicode data behind [normalize('NFD')] and [toLowerCase]

    The tables below are those of the Unicode Character Database, version
    14.0.  Later versions only add entries for newly assigned code points. *)

Definition canonical_decomposition_table_1 : list (Z * list Z) :=
  [
   (0xC0, [0x41; 0x300]); (0xC1, [0x41; 0x301]); (0xC2, [0x41; 0x302]); (0xC3, [0x41; 0x303]);
   (0xC4, [0x41; 0x308]); (0xC5, [0x41; 0x30A]); (0xC7, [0x43; 0x327]); (0xC8, [0x45; 0x300]);
   (0xC9, [0x45; 0x301]); (0xCA, [0x45; 0x302]); (0xCB, [0x45; 0x308]); (0xCC, [0x49; 0x300]);
   (0xCD, [0x49; 0x301]); (0xCE, [0x49; 0x302]); (0xCF, [0x49; 0x308]); (0xD1, [0x4E; 0x303]);
   (0xD2, [0x4F; 0x300]); (0xD3, [0x4F; 0x301]); (0xD4, [0x4F; 0x302]); (0xD5, [0x4F; 0x303]);
   (0xD6, [0x4F; 0x308]); (0xD9, [0x55; 0x300]); (0xDA, [0x55; 0x301]); (0xDB, [0x55; 0x302]);
   (0xDC, [0x55; 0x308]); (0xDD, [0x59; 0x301]); (0xE0, [0x61; 0x300]); (0xE1, [0x61; 0x301]);
   (0xE2, [0x61; 0x302]); (0xE3, [0x61; 0x303]); (0xE4, [0x61; 0x308]); (0xE5, [0x61; 0x30A]);
   (0xE7, [0x63; 0x327]); (0xE8, [0x65; 0x300]); (0xE9, [0x65; 0x301]); (0xEA, [0x65; 0x302]);
   (0xEB, [0x65; 0x308]); (0xEC, [0x69; 0x300]); (0xED, [0x69; 0x301]); (0xEE, [0x69; 0x302]);
   (0xEF, [0x69; 0x308]); (0xF1, [0x6E; 0x303]); (0xF2, [0x6F; 0x300]); (0xF3, [0x6F; 0x301]);
   (0xF4, [0x6F; 0x302]); (0xF5, [0x6F; 0x303]); (0xF6, [0x6F; 0x308]); (0xF9, [0x75; 0x300]);
   (0xFA, [0x75; 0x301]); (0xFB, [0x75; 0x302]); (0xFC, [0x75; 0x308]); (0xFD, [0x79; 0x301]);
   (0xFF, [0x79; 0x308]); (0x100, [0x41; 0x304]); (0x101, [0x61; 0x304]); (0x102, [0x41; 0x306]);
   (0x103, [0x61; 0x306]); (0x104, [0x41; 0x328]); (0x105, [0x61; 0x328]); (0x106, [0x43; 0x301]);
   (0x107, [0x63; 0x301]); (0x108, [0x43; 0x302]); (0x109, [0x63; 0x302]); (0x10A, [0x43; 0x307]);
   (0x10B, [0x63; 0x307]); (0x10C, [0x43; 0x30C]); (0x10D, [0x63; 0x30C]); (0x10E, [0x44; 0x30C]);
   (0x10F, [0x64; 0x30C]); (0x112, [0x45; 0x304]); (0x113, [0x65; 0x304]); (0x114, [0x45; 0x306]);
   (0x115, [0x65; 0x306]); (0x116, [0x45; 0x307]); (0x117, [0x65; 0x307]); (0x118, [0x45; 0x328]);
   (0x119, [0x65; 0x328]); (0x11A, [0x45; 0x30C]); (0x11B, [0x65; 0x30C]); (0x11C, [0x47; 0x302]);
   (0x11D, [0x67; 0x302]); (0x11E, [0x47; 0x306]); (0x11F, [0x67; 0x306]); (0x120, [0x47; 0x307]);
   (0x121, [0x67; 0x307]); (0x122, [0x47; 0x327]); (0x123, [0x67; 0x327]); (0x124, [0x48; 0x302]);
   (0x125, [0x68; 0x302]); (0x128, [0x49; 0x303]); (0x129, [0x69; 0x303]); (0x12A, [0x49; 0x304]);
   (0x12B, [0x69; 0x304]); (0x12C, [0x49; 0x306]); (0x12D, [0x69; 0x306]); (0x12E, [0x49; 0x328]);
   (0x12F, [0x69; 0x328]); (0x130, [0x49; 0x307]); (0x134, [0x4A; 0x302]); (0x135, [0x6A; 0x302]);
   (0x136, [0x4B; 0x327]); (0x137, [0x6B; 0x327]); (0x139, [0x4C; 0x301]); (0x13A, [0x6C; 0x301]);
   (0x13B, [0x4C; 0x327]); (0x13C, [0x6C; 0x327]); (0x13D, [0x4C; 0x30C]); (0x13E, [0x6C; 0x30C]);
   (0x143, [0x4E; 0x301]); (0x144, [0x6E; 0x301]); (0x145, [0x4E; 0x327]); (0x146, [0x6E; 0x327]);
   (0x147, [0x4E; 0x30C]); (0x148, [0x6E; 0x30C]); (0x14C, [0x4F; 0x304]); (0x14D, [0x6F; 0x304]);
   (0x14E, [0x4F; 0x306]); (0x14F, [0x6F; 0x306]); (0x150, [0x4F; 0x30B]); (0x151, [0x6F; 0x30B]);
   (0x154, [0x52; 0x301]); (0x155, [0x72; 0x301]); (0x156, [0x52; 0x327]); (0x157, [0x72; 0x327]);
   (0x158, [0x52; 0x30C]); (0x159, [0x72; 0x30C]); (0x15A, [0x53; 0x301]); (0x15B, [0x73; 0x301]);
   (0x15C, [0x53; 0x302]); (0x15D, [0x73; 0x302]); (0x15E, [0x53; 0x327]); (0x15F, [0x73; 0x327]);
   (0x160, [0x53; 0x30C]); (0x161, [0x73; 0x30C]); (0x162, [0x54; 0x327]); (0x163, [0x74; 0x327]);
   (0x164, [0x54; 0x30C]); (0x165, [0x74; 0x30C]); (0x168, [0x55; 0x303]); (0x169, [0x75; 0x303]);
   (0x16A, [0x55; 0x304]); (0x16B, [0x75; 0x304]); (0x16C, [0x55; 0x306]); (0x16D, [0x75; 0x306]);
   (0x16E, [0x55; 0x30A]); (0x16F, [0x75; 0x30A]); (0x170, [0x55; 0x30B]); (0x171, [0x75; 0x30B]);
   (0x172, [0x55; 0x328]); (0x173, [0x75; 0x328]); (0x174, [0x57; 0x302]); (0x175, [0x77; 0x302]);
   (0x176, [0x59; 0x302]); (0x177, [0x79; 0x302]); (0x178, [0x59; 0x308]); (0x179, [0x5A; 0x301]);
   (0x17A, [0x7A; 0x301]); (0x17B, [0x5A; 0x307]); (0x17C, [0x7A; 0x307]); (0x17D, [0x5A; 0x30C]);
   (0x17E, [0x7A; 0x30C]); (0x1A0, [0x4F; 0x31B]); (0x1A1, [0x6F; 0x31B]); (0x1AF, [0x55; 0x31B]);
   (0x1B0, [0x75; 0x31B]); (0x1CD, [0x41; 0x30C]); (0x1CE, [0x61; 0x30C]); (0x1CF, [0x49; 0x30C]);
   (0x1D0, [0x69; 0x30C]); (0x1D1, [0x4F; 0x30C]); (0x1D2, [0x6F; 0x30C]); (0x1D3, [0x55; 0x30C]);
   (0x1D4, [0x75; 0x30C]); (0x1D5, [0x55; 0x308; 0x304]); (0x1D6, [0x75; 0x308; 0x304]); (0x1D7, [0x55; 0x308; 0x301]);
   (0x1D8, [0x75; 0x308; 0x301]); (0x1D9, [0x55; 0x308; 0x30C]); (0x1DA, [0x75; 0x308; 0x30C]); (0x1DB, [0x55; 0x308; 0x300]);
   (0x1DC, [0x75; 0x308; 0x300]); (0x1DE, [0x41; 0x308; 0x304]); (0x1DF, [0x61; 0x308; 0x304]); (0x1E0, [0x41; 0x307; 0x304]);
   (0x1E1, [0x61; 0x307; 0x304]); (0x1E2, [0xC6; 0x304]); (0x1E3, [0xE6; 0x304]); (0x1E6, [0x47; 0x30C]);
   (0x1E7, [0x67; 0x30C]); (0x1E8, [0x4B; 0x30C]); (0x1E9, [0x6B; 0x30C]); (0x1EA, [0x4F; 0x328]);
   (0x1EB, [0x6F; 0x328]); (0x1EC, [0x4F; 0x328; 0x304]); (0x1ED, [0x6F; 0x328; 0x304]); (0x1EE, [0x1B7; 0x30C]);
   (0x1EF, [0x292; 0x30C]); (0x1F0, [0x6A; 0x30C]); (0x1F4, [0x47; 0x301]); (0x1F5, [0x67; 0x301]);
   (0x1F8, [0x4E; 0x300]); (0x1F9, [0x6E; 0x300]); (0x1FA, [0x41; 0x30A; 0x301]); (0x1FB, [0x61; 0x30A; 0x301]);
   (0x1FC, [0xC6; 0x301]); (0x1FD, [0xE6; 0x301]); (0x1FE, [0xD8; 0x301]); (0x1FF, [0xF8; 0x301]);
   (0x200, [0x41; 0x30F]); (0x201, [0x61; 0x30F]); (0x202, [0x41; 0x311]); (0x203, [0x61; 0x311]);
   (0x204, [0x45; 0x30F]); (0x205, [0x65; 0x30F]); (0x206, [0x45; 0x311]); (0x207, [0x65; 0x311]);
   (0x208, [0x49; 0x30F]); (0x209, [0x69; 0x30F]); (0x20A, [0x49; 0x311]); (0x20B, [0x69; 0x311]);
   (0x20C, [0x4F; 0x30F]); (0x20D, [0x6F; 0x30F]); (0x20E, [0x4F; 0x311]); (0x20F, [0x6F; 0x311]);
   (0x210, [0x52; 0x30F]); (0x211, [0x72; 0x30F]); (0x212, [0x52; 0x311]); (0x213, [0x72; 0x311]);
   (0x214, [0x55; 0x30F]); (0x215, [0x75; 0x30F]); (0x216, [0x55; 0x311]); (0x217, [0x75; 0x311]);
   (0x218, [0x53; 0x326]); (0x219, [0x73; 0x326]); (0x21A, [0x54; 0x326]); (0x21B, [0x74; 0x326]);
   (0x21E, [0x48; 0x30C]); (0x21F, [0x68; 0x30C]); (0x226, [0x41; 0x307]); (0x227, [0x61; 0x307]);
   (0x228, [0x45; 0x327]); (0x229, [0x65; 0x327]); (0x22A, [0x4F; 0x308; 0x304]); (0x22B, [0x6F; 0x308; 0x304]);
   (0x22C, [0x4F; 0x303; 0x304]); (0x22D, [0x6F; 0x303; 0x304]); (0x22E, [0x4F; 0x307]); (0x22F, [0x6F; 0x307]);
   (0x230, [0x4F; 0x307; 0x304]); (0x231, [0x6F; 0x307; 0x304]); (0x232, [0x59; 0x304]); (0x233, [0x79; 0x304]);
   (0x340, [0x300]); (0x341, [0x301]); (0x343, [0x313]); (0x344, [0x308; 0x301])
  ].

Definition canonical_decomposition_table_2 : list (Z * list Z) :=
  [
   (0x374, [0x2B9]); (0x37E, [0x3B]); (0x385, [0xA8; 0x301]); (0x386, [0x391; 0x301]);
   (0x387, [0xB7]); (0x388, [0x395; 0x301]); (0x389, [0x397; 0x301]); (0x38A, [0x399; 0x301]);
   (0x38C, [0x39F; 0x301]); (0x38E, [0x3A5; 0x301]); (0x38F, [0x3A9; 0x301]); (0x390, [0x3B9; 0x308; 0x301]);
   (0x3AA, [0x399; 0x308]); (0x3AB, [0x3A5; 0x308]); (0x3AC, [0x3B1; 0x301]); (0x3AD, [0x3B5; 0x301]);
   (0x3AE, [0x3B7; 0x301]); (0x3AF, [0x3B9; 0x301]); (0x3B0, [0x3C5; 0x308; 0x301]); (0x3CA, [0x3B9; 0x308]);
   (0x3CB, [0x3C5; 0x308]); (0x3CC, [0x3BF; 0x301]); (0x3CD, [0x3C5; 0x301]); (0x3CE, [0x3C9; 0x301]);
   (0x3D3, [0x3D2; 0x301]); (0x3D4, [0x3D2; 0x308]); (0x400, [0x415; 0x300]); (0x401, [0x415; 0x308]);
   (0x403, [0x413; 0x301]); (0x407, [0x406; 0x308]); (0x40C, [0x41A; 0x301]); (0x40D, [0x418; 0x300]);
   (0x40E, [0x423; 0x306]); (0x419, [0x418; 0x306]); (0x439, [0x438; 0x306]); (0x450, [0x435; 0x300]);
   (0x451, [0x435; 0x308]); (0x453, [0x433; 0x301]); (0x457, [0x456; 0x308]); (0x45C, [0x43A; 0x301]);
   (0x45D, [0x438; 0x300]); (0x45E, [0x443; 0x306]); (0x476, [0x474; 0x30F]); (0x477, [0x475; 0x30F]);
   (0x4C1, [0x416; 0x306]); (0x4C2, [0x436; 0x306]); (0x4D0, [0x410; 0x306]); (0x4D1, [0x430; 0x306]);
   (0x4D2, [0x410; 0x308]); (0x4D3, [0x430; 0x308]); (0x4D6, [0x415; 0x306]); (0x4D7, [0x435; 0x306]);
   (0x4DA, [0x4D8; 0x308]); (0x4DB, [0x4D9; 0x308]); (0x4DC, [0x416; 0x308]); (0x4DD, [0x436; 0x308]);
   (0x4DE, [0x417; 0x308]); (0x4DF, [0x437; 0x308]); (0x4E2, [0x418; 0x304]); (0x4E3, [0x438; 0x304]);
   (0x4E4, [0x418; 0x308]); (0x4E5, [0x438; 0x308]); (0x4E6, [0x41E; 0x308]); (0x4E7, [0x43E; 0x308]);
   (0x4EA, [0x4E8; 0x308]); (0x4EB, [0x4E9; 0x308]); (0x4EC, [0x42D; 0x308]); (0x4ED, [0x44D; 0x308]);
   (0x4EE, [0x423; 0x304]); (0x4EF, [0x443; 0x304]); (0x4F0, [0x423; 0x308]); (0x4F1, [0x443; 0x308]);
   (0x4F2, [0x423; 0x30B]); (0x4F3, [0x443; 0x30B]); (0x4F4, [0x427; 0x308]); (0x4F5, [0x447; 0x308]);
   (0x4F8, [0x42B; 0x308]); (0x4F9, [0x44B; 0x308]); (0x622, [0x627; 0x653]); (0x623, [0x627; 0x654]);
   (0x624, [0x648; 0x654]); (0x625, [0x627; 0x655]); (0x626, [0x64A; 0x654]); (0x6C0, [0x6D5; 0x654]);
   (0x6C2, [0x6C1; 0x654]); (0x6D3, [0x6D2; 0x654]); (0x929, [0x928; 0x93C]); (0x931, [0x930; 0x93C]);
   (0x934, [0x933; 0x93C]); (0x958, [0x915; 0x93C]); (0x959, [0x916; 0x93C]); (0x95A, [0x917; 0x93C]);
   (0x95B, [0x91C; 0x93C]); (0x95C, [0x921; 0x93C]); (0x95D, [0x922; 0x93C]); (0x95E, [0x92B; 0x93C]);
   (0x95F, [0x92F; 0x93C]); (0x9CB, [0x9C7; 0x9BE]); (0x9CC, [0x9C7; 0x9D7]); (0x9DC, [0x9A1; 0x9BC]);
   (0x9DD, [0x9A2; 0x9BC]); (0x9DF, [0x9AF; 0x9BC]); (0xA33, [0xA32; 0xA3C]); (0xA36, [0xA38; 0xA3C]);
   (0xA59, [0xA16; 0xA3C]); (0xA5A, [0xA17; 0xA3C]); (0xA5B, [0xA1C; 0xA3C]); (0xA5E, [0xA2B; 0xA3C]);
   (0xB48, [0xB47; 0xB56]); (0xB4B, [0xB47; 0xB3E]); (0xB4C, [0xB47; 0xB57]); (0xB5C, [0xB21; 0xB3C]);
   (0xB5D, [0xB22; 0xB3C]); (0xB94, [0xB92; 0xBD7]); (0xBCA, [0xBC6; 0xBBE]); (0xBCB, [0xBC7; 0xBBE]);
   (0xBCC, [0xBC6; 0xBD7]); (0xC48, [0xC46; 0xC56]); (0xCC0, [0xCBF; 0xCD5]); (0xCC7, [0xCC6; 0xCD5]);
   (0xCC8, [0xCC6; 0xCD6]); (0xCCA, [0xCC6; 0xCC2]); (0xCCB, [0xCC6; 0xCC2; 0xCD5]); (0xD4A, [0xD46; 0xD3E]);
   (0xD4B, [0xD47; 0xD3E]); (0xD4C, [0xD46; 0xD57]); (0xDDA, [0xDD9; 0xDCA]); (0xDDC, [0xDD9; 0xDCF]);
   (0xDDD, [0xDD9; 0xDCF; 0xDCA]); (0xDDE, [0xDD9; 0xDDF]); (0xF43, [0xF42; 0xFB7]); (0xF4D, [0xF4C; 0xFB7]);
   (0xF52, [0xF51; 0xFB7]); (0xF57, [0xF56; 0xFB7]); (0xF5C, [0xF5B; 0xFB7]); (0xF69, [0xF40; 0xFB5]);
   (0xF73, [0xF71; 0xF72]); (0xF75, [0xF71; 0xF74]); (0xF76, [0xFB2; 0xF80]); (0xF78, [0xFB3; 0xF80]);
   (0xF81, [0xF71; 0xF80]); (0xF93, [0xF92; 0xFB7]); (0xF9D, [0xF9C; 0xFB7]); (0xFA2, [0xFA1; 0xFB7]);
   (0xFA7, [0xFA6; 0xFB7]); (0xFAC, [0xFAB; 0xFB7]); (0xFB9, [0xF90; 0xFB5]); (0x1026, [0x1025; 0x102E]);
   (0x1B06, [0x1B05; 0x1B35]); (0x1B08, [0x1B07; 0x1B35]); (0x1B0A, [0x1B09; 0x1B35]); (0x1B0C, [0x1B0B; 0x1B35]);
   (0x1B0E, [0x1B0D; 0x1B35]); (0x1B12, [0x1B11; 0x1B35]); (0x1B3B, [0x1B3A; 0x1B35]); (0x1B3D, [0x1B3C; 0x1B35]);
   (0x1B40, [0x1B3E; 0x1B35]); (0x1B41, [0x1B3F; 0x1B35]); (0x1B43, [0x1B42; 0x1B35]); (0x1E00, [0x41; 0x325]);
   (0x1E01, [0x61; 0x325]); (0x1E02, [0x42; 0x307]); (0x1E03, [0x62; 0x307]); (0x1E04, [0x42; 0x323]);
   (0x1E05, [0x62; 0x323]); (0x1E06, [0x42; 0x331]); (0x1E07, [0x62; 0x331]); (0x1E08, [0x43; 0x327; 0x301]);
   (0x1E09, [0x63; 0x327; 0x301]); (0x1E0A, [0x44; 0x307]); (0x1E0B, [0x64; 0x307]); (0x1E0C, [0x44; 0x323]);
   (0x1E0D, [0x64; 0x323]); (0x1E0E, [0x44; 0x331]); (0x1E0F, [0x64; 0x331]); (0x1E10, [0x44; 0x327]);
   (0x1E11, [0x64; 0x327]); (0x1E12, [0x44; 0x32D]); (0x1E13, [0x64; 0x32D]); (0x1E14, [0x45; 0x304; 0x300]);
   (0x1E15, [0x65; 0x304; 0x300]); (0x1E16, [0x45; 0x304; 0x301]); (0x1E17, [0x65; 0x304; 0x301]); (0x1E18, [0x45; 0x32D]);
   (0x1E19, [0x65; 0x32D]); (0x1E1A, [0x45; 0x330]); (0x1E1B, [0x65; 0x330]); (0x1E1C, [0x45; 0x327; 0x306]);
   (0x1E1D, [0x65; 0x327; 0x306]); (0x1E1E, [0x46; 0x307]); (0x1E1F, [0x66; 0x307]); (0x1E20, [0x47; 0x304]);
   (0x1E21, [0x67; 0x304]); (0x1E22, [0x48; 0x307]); (0x1E23, [0x68; 0x307]); (0x1E24, [0x48; 0x323]);
   (0x1E25, [0x68; 0x323]); (0x1E26, [0x48; 0x308]); (0x1E27, [0x68; 0x308]); (0x1E28, [0x48; 0x327]);
   (0x1E29, [0x68; 0x327]); (0x1E2A, [0x48; 0x32E]); (0x1E2B, [0x68; 0x32E]); (0x1E2C, [0x49; 0x330]);
   (0x1E2D, [0x69; 0x330]); (0x1E2E, [0x49; 0x308; 0x301]); (0x1E2F, [0x69; 0x308; 0x301]); (0x1E30, [0x4B; 0x301]);
   (0x1E31, [0x6B; 0x301]); (0x1E32, [0x4B; 0x323]); (0x1E33, [0x6B; 0x323]); (0x1E34, [0x4B; 0x331]);
   (0x1E35, [0x6B; 0x331]); (0x1E36, [0x4C; 0x323]); (0x1E37, [0x6C; 0x323]); (0x1E38, [0x4C; 0x323; 0x304]);
   (0x1E39, [0x6C; 0x323; 0x304]); (0x1E3A, [0x4C; 0x331]); (0x1E3B, [0x6C; 0x331]); (0x1E3C, [0x4C; 0x32D]);
   (0x1E3D, [0x6C; 0x32D]); (0x1E3E, [0x4D; 0x301]); (0x1E3F, [0x6D; 0x301]); (0x1E40, [0x4D; 0x307]);
   (0x1E41, [0x6D; 0x307]); (0x1E42, [0x4D; 0x323]); (0x1E43, [0x6D; 0x323]); (0x1E44, [0x4E; 0x307]);
   (0x1E45, [0x6E; 0x307]); (0x1E46, [0x4E; 0x323]); (0x1E47, [0x6E; 0x323]); (0x1E48, [0x4E; 0x331]);
   (0x1E49, [0x6E; 0x331]); (0x1E4A, [0x4E; 0x32D]); (0x1E4B, [0x6E; 0x32D]); (0x1E4C, [0x4F; 0x303; 0x301]);
   (0x1E4D, [0x6F; 0x303; 0x301]); (0x1E4E, [0x4F; 0x303; 0x308]); (0x1E4F, [0x6F; 0x303; 0x308]); (0x1E50, [0x4F; 0x304; 0x300]);
   (0x1E51, [0x6F; 0x304; 0x300]); (0x1E52, [0x4F; 0x304; 0x301]); (0x1E53, [0x6F; 0x304; 0x301]); (0x1E54, [0x50; 0x301]);
   (0x1E55, [0x70; 0x301]); (0x1E56, [0x50; 0x307]); (0x1E57, [0x70; 0x307]); (0x1E58, [0x52; 0x307]);
   (0x1E59, [0x72; 0x307]); (0x1E5A, [0x52; 0x323]); (0x1E5B, [0x72; 0x323]); (0x1E5C, [0x52; 0x323; 0x304]);
   (0x1E5D, [0x72; 0x323; 0x304]); (0x1E5E, [0x52; 0x331]); (0x1E5F, [0x72; 0x331]); (0x1E60, [0x53; 0x307])
  ].

Definition canonical_decomposition_table_3 : list (Z * list Z) :=
  [
   (0x1E61, [0x73; 0x307]); (0x1E62, [0x53; 0x323]); (0x1E63, [0x73; 0x323]); (0x1E64, [0x53; 0x301; 0x307]);
   (0x1E65, [0x73; 0x301; 0x307]); (0x1E66, [0x53; 0x30C; 0x307]); (0x1E67, [0x73; 0x30C; 0x307]); (0x1E68, [0x53; 0x323; 0x307]);
   (0x1E69, [0x73; 0x323; 0x307]); (0x1E6A, [0x54; 0x307]); (0x1E6B, [0x74; 0x307]); (0x1E6C, [0x54; 0x323]);
   (0x1E6D, [0x74; 0x323]); (0x1E6E, [0x54; 0x331]); (0x1E6F, [0x74; 0x331]); (0x1E70, [0x54; 0x32D]);
   (0x1E71, [0x74; 0x32D]); (0x1E72, [0x55; 0x324]); (0x1E73, [0x75; 0x324]); (0x1E74, [0x55; 0x330]);
   (0x1E75, [0x75; 0x330]); (0x1E76, [0x55; 0x32D]); (0x1E77, [0x75; 0x32D]); (0x1E78, [0x55; 0x303; 0x301]);
   (0x1E79, [0x75; 0x303; 0x301]); (0x1E7A, [0x55; 0x304; 0x308]); (0x1E7B, [0x75; 0x304; 0x308]); (0x1E7C, [0x56; 0x303]);
   (0x1E7D, [0x76; 0x303]); (0x1E7E, [0x56; 0x323]); (0x1E7F, [0x76; 0x323]); (0x1E80, [0x57; 0x300]);
   (0x1E81, [0x77; 0x300]); (0x1E82, [0x57; 0x301]); (0x1E83, [0x77; 0x301]); (0x1E84, [0x57; 0x308]);
   (0x1E85, [0x77; 0x308]); (0x1E86, [0x57; 0x307]); (0x1E87, [0x77; 0x307]); (0x1E88, [0x57; 0x323]);
   (0x1E89, [0x77; 0x323]); (0x1E8A, [0x58; 0x307]); (0x1E8B, [0x78; 0x307]); (0x1E8C, [0x58; 0x308]);
   (0x1E8D, [0x78; 0x308]); (0x1E8E, [0x59; 0x307]); (0x1E8F, [0x79; 0x307]); (0x1E90, [0x5A; 0x302]);
   (0x1E91, [0x7A; 0x302]); (0x1E92, [0x5A; 0x323]); (0x1E93, [0x7A; 0x323]); (0x1E94, [0x5A; 0x331]);
   (0x1E95, [0x7A; 0x331]); (0x1E96, [0x68; 0x331]); (0x1E97, [0x74; 0x308]); (0x1E98, [0x77; 0x30A]);
   (0x1E99, [0x79; 0x30A]); (0x1E9B, [0x17F; 0x307]); (0x1EA0, [0x41; 0x323]); (0x1EA1, [0x61; 0x323]);
   (0x1EA2, [0x41; 0x309]); (0x1EA3, [0x61; 0x309]); (0x1EA4, [0x41; 0x302; 0x301]); (0x1EA5, [0x61; 0x302; 0x301]);
   (0x1EA6, [0x41; 0x302; 0x300]); (0x1EA7, [0x61; 0x302; 0x300]); (0x1EA8, [0x41; 0x302; 0x309]); (0x1EA9, [0x61; 0x302; 0x309]);
   (0x1EAA, [0x41; 0x302; 0x303]); (0x1EAB, [0x61; 0x302; 0x303]); (0x1EAC, [0x41; 0x323; 0x302]); (0x1EAD, [0x61; 0x323; 0x302]);
   (0x1EAE, [0x41; 0x306; 0x301]); (0x1EAF, [0x61; 0x306; 0x301]); (0x1EB0, [0x41; 0x306; 0x300]); (0x1EB1, [0x61; 0x306; 0x300]);
   (0x1EB2, [0x41; 0x306; 0x309]); (0x1EB3, [0x61; 0x306; 0x309]); (0x1EB4, [0x41; 0x306; 0x303]); (0x1EB5, [0x61; 0x306; 0x303]);
   (0x1EB6, [0x41; 0x323; 0x306]); (0x1EB7, [0x61; 0x323; 0x306]); (0x1EB8, [0x45; 0x323]); (0x1EB9, [0x65; 0x323]);
   (0x1EBA, [0x45; 0x309]); (0x1EBB, [0x65; 0x309]); (0x1EBC, [0x45; 0x303]); (0x1EBD, [0x65; 0x303]);
   (0x1EBE, [0x45; 0x302; 0x301]); (0x1EBF, [0x65; 0x302; 0x301]); (0x1EC0, [0x45; 0x302; 0x300]); (0x1EC1, [0x65; 0x302; 0x300]);
   (0x1EC2, [0x45; 0x302; 0x309]); (0x1EC3, [0x65; 0x302; 0x309]); (0x1EC4, [0x45; 0x302; 0x303]); (0x1EC5, [0x65; 0x302; 0x303]);
   (0x1EC6, [0x45; 0x323; 0x302]); (0x1EC7, [0x65; 0x323; 0x302]); (0x1EC8, [0x49; 0x309]); (0x1EC9, [0x69; 0x309]);
   (0x1ECA, [0x49; 0x323]); (0x1ECB, [0x69; 0x323]); (0x1ECC, [0x4F; 0x323]); (0x1ECD, [0x6F; 0x323]);
   (0x1ECE, [0x4F; 0x309]); (0x1ECF, [0x6F; 0x309]); (0x1ED0, [0x4F; 0x302; 0x301]); (0x1ED1, [0x6F; 0x302; 0x301]);
   (0x1ED2, [0x4F; 0x302; 0x300]); (0x1ED3, [0x6F; 0x302; 0x300]); (0x1ED4, [0x4F; 0x302; 0x309]); (0x1ED5, [0x6F; 0x302; 0x309]);
   (0x1ED6, [0x4F; 0x302; 0x303]); (0x1ED7, [0x6F; 0x302; 0x303]); (0x1ED8, [0x4F; 0x323; 0x302]); (0x1ED9, [0x6F; 0x323; 0x302]);
   (0x1EDA, [0x4F; 0x31B; 0x301]); (0x1EDB, [0x6F; 0x31B; 0x301]); (0x1EDC, [0x4F; 0x31B; 0x300]); (0x1EDD, [0x6F; 0x31B; 0x300]);
   (0x1EDE, [0x4F; 0x31B; 0x309]); (0x1EDF, [0x6F; 0x31B; 0x309]); (0x1EE0, [0x4F; 0x31B; 0x303]); (0x1EE1, [0x6F; 0x31B; 0x303]);
   (0x1EE2, [0x4F; 0x31B; 0x323]); (0x1EE3, [0x6F; 0x31B; 0x323]); (0x1EE4, [0x55; 0x323]); (0x1EE5, [0x75; 0x323]);
   (0x1EE6, [0x55; 0x309]); (0x1EE7, [0x75; 0x309]); (0x1EE8, [0x55; 0x31B; 0x301]); (0x1EE9, [0x75; 0x31B; 0x301]);
   (0x1EEA, [0x55; 0x31B; 0x300]); (0x1EEB, [0x75; 0x31B; 0x300]); (0x1EEC, [0x55; 0x31B; 0x309]); (0x1EED, [0x75; 0x31B; 0x309]);
   (0x1EEE, [0x55; 0x31B; 0x303]); (0x1EEF, [0x75; 0x31B; 0x303]); (0x1EF0, [0x55; 0x31B; 0x323]); (0x1EF1, [0x75; 0x31B; 0x323]);
   (0x1EF2, [0x59; 0x300]); (0x1EF3, [0x79; 0x300]); (0x1EF4, [0x59; 0x323]); (0x1EF5, [0x79; 0x323]);
   (0x1EF6, [0x59; 0x309]); (0x1EF7, [0x79; 0x309]); (0x1EF8, [0x59; 0x303]); (0x1EF9, [0x79; 0x303]);
   (0x1F00, [0x3B1; 0x313]); (0x1F01, [0x3B1; 0x314]); (0x1F02, [0x3B1; 0x313; 0x300]); (0x1F03, [0x3B1; 0x314; 0x300]);
   (0x1F04, [0x3B1; 0x313; 0x301]); (0x1F05, [0x3B1; 0x314; 0x301]); (0x1F06, [0x3B1; 0x313; 0x342]); (0x1F07, [0x3B1; 0x314; 0x342]);
   (0x1F08, [0x391; 0x313]); (0x1F09, [0x391; 0x314]); (0x1F0A, [0x391; 0x313; 0x300]); (0x1F0B, [0x391; 0x314; 0x300]);
   (0x1F0C, [0x391; 0x313; 0x301]); (0x1F0D, [0x391; 0x314; 0x301]); (0x1F0E, [0x391; 0x313; 0x342]); (0x1F0F, [0x391; 0x314; 0x342]);
   (0x1F10, [0x3B5; 0x313]); (0x1F11, [0x3B5; 0x314]); (0x1F12, [0x3B5; 0x313; 0x300]); (0x1F13, [0x3B5; 0x314; 0x300]);
   (0x1F14, [0x3B5; 0x313; 0x301]); (0x1F15, [0x3B5; 0x314; 0x301]); (0x1F18, [0x395; 0x313]); (0x1F19, [0x395; 0x314]);
   (0x1F1A, [0x395; 0x313; 0x300]); (0x1F1B, [0x395; 0x314; 0x300]); (0x1F1C, [0x395; 0x313; 0x301]); (0x1F1D, [0x395; 0x314; 0x301]);
   (0x1F20, [0x3B7; 0x313]); (0x1F21, [0x3B7; 0x314]); (0x1F22, [0x3B7; 0x313; 0x300]); (0x1F23, [0x3B7; 0x314; 0x300]);
   (0x1F24, [0x3B7; 0x313; 0x301]); (0x1F25, [0x3B7; 0x314; 0x301]); (0x1F26, [0x3B7; 0x313; 0x342]); (0x1F27, [0x3B7; 0x314; 0x342]);
   (0x1F28, [0x397; 0x313]); (0x1F29, [0x397; 0x314]); (0x1F2A, [0x397; 0x313; 0x300]); (0x1F2B, [0x397; 0x314; 0x300]);
   (0x1F2C, [0x397; 0x313; 0x301]); (0x1F2D, [0x397; 0x314; 0x301]); (0x1F2E, [0x397; 0x313; 0x342]); (0x1F2F, [0x397; 0x314; 0x342]);
   (0x1F30, [0x3B9; 0x313]); (0x1F31, [0x3B9; 0x314]); (0x1F32, [0x3B9; 0x313; 0x300]); (0x1F33, [0x3B9; 0x314; 0x300]);
   (0x1F34, [0x3B9; 0x313; 0x301]); (0x1F35, [0x3B9; 0x314; 0x301]); (0x1F36, [0x3B9; 0x313; 0x342]); (0x1F37, [0x3B9; 0x314; 0x342]);
   (0x1F38, [0x399; 0x313]); (0x1F39, [0x399; 0x314]); (0x1F3A, [0x399; 0x313; 0x300]); (0x1F3B, [0x399; 0x314; 0x300]);
   (0x1F3C, [0x399; 0x313; 0x301]); (0x1F3D, [0x399; 0x314; 0x301]); (0x1F3E, [0x399; 0x313; 0x342]); (0x1F3F, [0x399; 0x314; 0x342]);
   (0x1F40, [0x3BF; 0x313]); (0x1F41, [0x3BF; 0x314]); (0x1F42, [0x3BF; 0x313; 0x300]); (0x1F43, [0x3BF; 0x314; 0x300]);
   (0x1F44, [0x3BF; 0x313; 0x301]); (0x1F45, [0x3BF; 0x314; 0x301]); (0x1F48, [0x39F; 0x313]); (0x1F49, [0x39F; 0x314]);
   (0x1F4A, [0x39F; 0x313; 0x300]); (0x1F4B, [0x39F; 0x314; 0x300]); (0x1F4C, [0x39F; 0x313; 0x301]); (0x1F4D, [0x39F; 0x314; 0x301]);
   (0x1F50, [0x3C5; 0x313]); (0x1F51, [0x3C5; 0x314]); (0x1F52, [0x3C5; 0x313; 0x300]); (0x1F53, [0x3C5; 0x314; 0x300]);
   (0x1F54, [0x3C5; 0x313; 0x301]); (0x1F55, [0x3C5; 0x314; 0x301]); (0x1F56, [0x3C5; 0x313; 0x342]); (0x1F57, [0x3C5; 0x314; 0x342]);
   (0x1F59, [0x3A5; 0x314]); (0x1F5B, [0x3A5; 0x314; 0x300]); (0x1F5D, [0x3A5; 0x314; 0x301]); (0x1F5F, [0x3A5; 0x314; 0x342]);
   (0x1F60, [0x3C9; 0x313]); (0x1F61, [0x3C9; 0x314]); (0x1F62, [0x3C9; 0x313; 0x300]); (0x1F63, [0x3C9; 0x314; 0x300]);
   (0x1F64, [0x3C9; 0x313; 0x301]); (0x1F65, [0x3C9; 0x314; 0x301]); (0x1F66, [0x3C9; 0x313; 0x342]); (0x1F67, [0x3C9; 0x314; 0x342]);
   (0x1F68, [0x3A9; 0x313]); (0x1F69, [0x3A9; 0x314]); (0x1F6A, [0x3A9; 0x313; 0x300]); (0x1F6B, [0x3A9; 0x314; 0x300]);
   (0x1F6C, [0x3A9; 0x313; 0x301]); (0x1F6D, [0x3A9; 0x314; 0x301]); (0x1F6E, [0x3A9; 0x313; 0x342]); (0x1F6F, [0x3A9; 0x314; 0x342]);
   (0x1F70, [0x3B1; 0x300]); (0x1F71, [0x3B1; 0x301]); (0x1F72, [0x3B5; 0x300]); (0x1F73, [0x3B5; 0x301]);
   (0x1F74, [0x3B7; 0x300]); (0x1F75, [0x3B7; 0x301]); (0x1F76, [0x3B9; 0x300]); (0x1F77, [0x3B9; 0x301])
  ].

Definition canonical_decomposition_table_4 : list (Z * list Z) :=
  [
   (0x1F78, [0x3BF; 0x300]); (0x1F79, [0x3BF; 0x301]); (0x1F7A, [0x3C5; 0x300]); (0x1F7B, [0x3C5; 0x301]);
   (0x1F7C, [0x3C9; 0x300]); (0x1F7D, [0x3C9; 0x301]); (0x1F80, [0x3B1; 0x313; 0x345]); (0x1F81, [0x3B1; 0x314; 0x345]);
   (0x1F82, [0x3B1; 0x313; 0x300; 0x345]); (0x1F83, [0x3B1; 0x314; 0x300; 0x345]); (0x1F84, [0x3B1; 0x313; 0x301; 0x345]); (0x1F85, [0x3B1; 0x314; 0x301; 0x345]);
   (0x1F86, [0x3B1; 0x313; 0x342; 0x345]); (0x1F87, [0x3B1; 0x314; 0x342; 0x345]); (0x1F88, [0x391; 0x313; 0x345]); (0x1F89, [0x391; 0x314; 0x345]);
   (0x1F8A, [0x391; 0x313; 0x300; 0x345]); (0x1F8B, [0x391; 0x314; 0x300; 0x345]); (0x1F8C, [0x391; 0x313; 0x301; 0x345]); (0x1F8D, [0x391; 0x314; 0x301; 0x345]);
   (0x1F8E, [0x391; 0x313; 0x342; 0x345]); (0x1F8F, [0x391; 0x314; 0x342; 0x345]); (0x1F90, [0x3B7; 0x313; 0x345]); (0x1F91, [0x3B7; 0x314; 0x345]);
   (0x1F92, [0x3B7; 0x313; 0x300; 0x345]); (0x1F93, [0x3B7; 0x314; 0x300; 0x345]); (0x1F94, [0x3B7; 0x313; 0x301; 0x345]); (0x1F95, [0x3B7; 0x314; 0x301; 0x345]);
   (0x1F96, [0x3B7; 0x313; 0x342; 0x345]); (0x1F97, [0x3B7; 0x314; 0x342; 0x345]); (0x1F98, [0x397; 0x313; 0x345]); (0x1F99, [0x397; 0x314; 0x345]);
   (0x1F9A, [0x397; 0x313; 0x300; 0x345]); (0x1F9B, [0x397; 0x314; 0x300; 0x345]); (0x1F9C, [0x397; 0x313; 0x301; 0x345]); (0x1F9D, [0x397; 0x314; 0x301; 0x345]);
   (0x1F9E, [0x397; 0x313; 0x342; 0x345]); (0x1F9F, [0x397; 0x314; 0x342; 0x345]); (0x1FA0, [0x3C9; 0x313; 0x345]); (0x1FA1, [0x3C9; 0x314; 0x345]);
   (0x1FA2, [0x3C9; 0x313; 0x300; 0x345]); (0x1FA3, [0x3C9; 0x314; 0x300; 0x345]); (0x1FA4, [0x3C9; 0x313; 0x301; 0x345]); (0x1FA5, [0x3C9; 0x314; 0x301; 0x345]);
   (0x1FA6, [0x3C9; 0x313; 0x342; 0x345]); (0x1FA7, [0x3C9; 0x314; 0x342; 0x345]); (0x1FA8, [0x3A9; 0x313; 0x345]); (0x1FA9, [0x3A9; 0x314; 0x345]);
   (0x1FAA, [0x3A9; 0x313; 0x300; 0x345]); (0x1FAB, [0x3A9; 0x314; 0x300; 0x345]); (0x1FAC, [0x3A9; 0x313; 0x301; 0x345]); (0x1FAD, [0x3A9; 0x314; 0x301; 0x345]);
   (0x1FAE, [0x3A9; 0x313; 0x342; 0x345]); (0x1FAF, [0x3A9; 0x314; 0x342; 0x345]); (0x1FB0, [0x3B1; 0x306]); (0x1FB1, [0x3B1; 0x304]);
   (0x1FB2, [0x3B1; 0x300; 0x345]); (0x1FB3, [0x3B1; 0x345]); (0x1FB4, [0x3B1; 0x301; 0x345]); (0x1FB6, [0x3B1; 0x342]);
   (0x1FB7, [0x3B1; 0x342; 0x345]); (0x1FB8, [0x391; 0x306]); (0x1FB9, [0x391; 0x304]); (0x1FBA, [0x391; 0x300]);
   (0x1FBB, [0x391; 0x301]); (0x1FBC, [0x391; 0x345]); (0x1FBE, [0x3B9]); (0x1FC1, [0xA8; 0x342]);
   (0x1FC2, [0x3B7; 0x300; 0x345]); (0x1FC3, [0x3B7; 0x345]); (0x1FC4, [0x3B7; 0x301; 0x345]); (0x1FC6, [0x3B7; 0x342]);
   (0x1FC7, [0x3B7; 0x342; 0x345]); (0x1FC8, [0x395; 0x300]); (0x1FC9, [0x395; 0x301]); (0x1FCA, [0x397; 0x300]);
   (0x1FCB, [0x397; 0x301]); (0x1FCC, [0x397; 0x345]); (0x1FCD, [0x1FBF; 0x300]); (0x1FCE, [0x1FBF; 0x301]);
   (0x1FCF, [0x1FBF; 0x342]); (0x1FD0, [0x3B9; 0x306]); (0x1FD1, [0x3B9; 0x304]); (0x1FD2, [0x3B9; 0x308; 0x300]);
   (0x1FD3, [0x3B9; 0x308; 0x301]); (0x1FD6, [0x3B9; 0x342]); (0x1FD7, [0x3B9; 0x308; 0x342]); (0x1FD8, [0x399; 0x306]);
   (0x1FD9, [0x399; 0x304]); (0x1FDA, [0x399; 0x300]); (0x1FDB, [0x399; 0x301]); (0x1FDD, [0x1FFE; 0x300]);
   (0x1FDE, [0x1FFE; 0x301]); (0x1FDF, [0x1FFE; 0x342]); (0x1FE0, [0x3C5; 0x306]); (0x1FE1, [0x3C5; 0x304]);
   (0x1FE2, [0x3C5; 0x308; 0x300]); (0x1FE3, [0x3C5; 0x308; 0x301]); (0x1FE4, [0x3C1; 0x313]); (0x1FE5, [0x3C1; 0x314]);
   (0x1FE6, [0x3C5; 0x342]); (0x1FE7, [0x3C5; 0x308; 0x342]); (0x1FE8, [0x3A5; 0x306]); (0x1FE9, [0x3A5; 0x304]);
   (0x1FEA, [0x3A5; 0x300]); (0x1FEB, [0x3A5; 0x301]); (0x1FEC, [0x3A1; 0x314]); (0x1FED, [0xA8; 0x300]);
   (0x1FEE, [0xA8; 0x301]); (0x1FEF, [0x60]); (0x1FF2, [0x3C9; 0x300; 0x345]); (0x1FF3, [0x3C9; 0x345]);
   (0x1FF4, [0x3C9; 0x301; 0x345]); (0x1FF6, [0x3C9; 0x342]); (0x1FF7, [0x3C9; 0x342; 0x345]); (0x1FF8, [0x39F; 0x300]);
   (0x1FF9, [0x39F; 0x301]); (0x1FFA, [0x3A9; 0x300]); (0x1FFB, [0x3A9; 0x301]); (0x1FFC, [0x3A9; 0x345]);
   (0x1FFD, [0xB4]); (0x2000, [0x2002]); (0x2001, [0x2003]); (0x2126, [0x3A9]);
   (0x212A, [0x4B]); (0x212B, [0x41; 0x30A]); (0x219A, [0x2190; 0x338]); (0x219B, [0x2192; 0x338]);
   (0x21AE, [0x2194; 0x338]); (0x21CD, [0x21D0; 0x338]); (0x21CE, [0x21D4; 0x338]); (0x21CF, [0x21D2; 0x338]);
   (0x2204, [0x2203; 0x338]); (0x2209, [0x2208; 0x338]); (0x220C, [0x220B; 0x338]); (0x2224, [0x2223; 0x338]);
   (0x2226, [0x2225; 0x338]); (0x2241, [0x223C; 0x338]); (0x2244, [0x2243; 0x338]); (0x2247, [0x2245; 0x338]);
   (0x2249, [0x2248; 0x338]); (0x2260, [0x3D; 0x338]); (0x2262, [0x2261; 0x338]); (0x226D, [0x224D; 0x338]);
   (0x226E, [0x3C; 0x338]); (0x226F, [0x3E; 0x338]); (0x2270, [0x2264; 0x338]); (0x2271, [0x2265; 0x338]);
   (0x2274, [0x2272; 0x338]); (0x2275, [0x2273; 0x338]); (0x2278, [0x2276; 0x338]); (0x2279, [0x2277; 0x338]);
   (0x2280, [0x227A; 0x338]); (0x2281, [0x227B; 0x338]); (0x2284, [0x2282; 0x338]); (0x2285, [0x2283; 0x338]);
   (0x2288, [0x2286; 0x338]); (0x2289, [0x2287; 0x338]); (0x22AC, [0x22A2; 0x338]); (0x22AD, [0x22A8; 0x338]);
   (0x22AE, [0x22A9; 0x338]); (0x22AF, [0x22AB; 0x338]); (0x22E0, [0x227C; 0x338]); (0x22E1, [0x227D; 0x338]);
   (0x22E2, [0x2291; 0x338]); (0x22E3, [0x2292; 0x338]); (0x22EA, [0x22B2; 0x338]); (0x22EB, [0x22B3; 0x338]);
   (0x22EC, [0x22B4; 0x338]); (0x22ED, [0x22B5; 0x338]); (0x2329, [0x3008]); (0x232A, [0x3009]);
   (0x2ADC, [0x2ADD; 0x338]); (0x304C, [0x304B; 0x3099]); (0x304E, [0x304D; 0x3099]); (0x3050, [0x304F; 0x3099]);
   (0x3052, [0x3051; 0x3099]); (0x3054, [0x3053; 0x3099]); (0x3056, [0x3055; 0x3099]); (0x3058, [0x3057; 0x3099]);
   (0x305A, [0x3059; 0x3099]); (0x305C, [0x305B; 0x3099]); (0x305E, [0x305D; 0x3099]); (0x3060, [0x305F; 0x3099]);
   (0x3062, [0x3061; 0x3099]); (0x3065, [0x3064; 0x3099]); (0x3067, [0x3066; 0x3099]); (0x3069, [0x3068; 0x3099]);
   (0x3070, [0x306F; 0x3099]); (0x3071, [0x306F; 0x309A]); (0x3073, [0x3072; 0x3099]); (0x3074, [0x3072; 0x309A]);
   (0x3076, [0x3075; 0x3099]); (0x3077, [0x3075; 0x309A]); (0x3079, [0x3078; 0x3099]); (0x307A, [0x3078; 0x309A]);
   (0x307C, [0x307B; 0x3099]); (0x307D, [0x307B; 0x309A]); (0x3094, [0x3046; 0x3099]); (0x309E, [0x309D; 0x3099]);
   (0x30AC, [0x30AB; 0x3099]); (0x30AE, [0x30AD; 0x3099]); (0x30B0, [0x30AF; 0x3099]); (0x30B2, [0x30B1; 0x3099]);
   (0x30B4, [0x30B3; 0x3099]); (0x30B6, [0x30B5; 0x3099]); (0x30B8, [0x30B7; 0x3099]); (0x30BA, [0x30B9; 0x3099]);
   (0x30BC, [0x30BB; 0x3099]); (0x30BE, [0x30BD; 0x3099]); (0x30C0, [0x30BF; 0x3099]); (0x30C2, [0x30C1; 0x3099]);
   (0x30C5, [0x30C4; 0x3099]); (0x30C7, [0x30C6; 0x3099]); (0x30C9, [0x30C8; 0x3099]); (0x30D0, [0x30CF; 0x3099]);
   (0x30D1, [0x30CF; 0x309A]); (0x30D3, [0x30D2; 0x3099]); (0x30D4, [0x30D2; 0x309A]); (0x30D6, [0x30D5; 0x3099]);
   (0x30D7, [0x30D5; 0x309A]); (0x30D9, [0x30D8; 0x3099]); (0x30DA, [0x30D8; 0x309A]); (0x30DC, [0x30DB; 0x3099]);
   (0x30DD, [0x30DB; 0x309A]); (0x30F4, [0x30A6; 0x3099]); (0x30F7, [0x30EF; 0x3099]); (0x30F8, [0x30F0; 0x3099]);
   (0x30F9, [0x30F1; 0x3099]); (0x30FA, [0x30F2; 0x3099]); (0x30FE, [0x30FD; 0x3099]); (0xF900, [0x8C48]);
   (0xF901, [0x66F4]); (0xF902, [0x8ECA]); (0xF903, [0x8CC8]); (0xF904, [0x6ED1]);
   (0xF905, [0x4E32]); (0xF906, [0x53E5]); (0xF907, [0x9F9C]); (0xF908, [0x9F9C]);
   (0xF909, [0x5951]); (0xF90A, [0x91D1]); (0xF90B, [0x5587]); (0xF90C, [0x5948]);
   (0xF90D, [0x61F6]); (0xF90E, [0x7669]); (0xF90F, [0x7F85]); (0xF910, [0x863F]);
   (0xF911, [0x87BA]); (0xF912, [0x88F8]); (0xF913, [0x908F]); (0xF914, [0x6A02]);
   (0xF915, [0x6D1B]); (0xF916, [0x70D9]); (0xF917, [0x73DE]); (0xF918, [0x843D])
  ].

Definition canonical_decomposition_table_5 : list (Z * list Z) :=
  [
   (0xF919, [0x916A]); (0xF91A, [0x99F1]); (0xF91B, [0x4E82]); (0xF91C, [0x5375]);
   (0xF91D, [0x6B04]); (0xF91E, [0x721B]); (0xF91F, [0x862D]); (0xF920, [0x9E1E]);
   (0xF921, [0x5D50]); (0xF922, [0x6FEB]); (0xF923, [0x85CD]); (0xF924, [0x8964]);
   (0xF925, [0x62C9]); (0xF926, [0x81D8]); (0xF927, [0x881F]); (0xF928, [0x5ECA]);
   (0xF929, [0x6717]); (0xF92A, [0x6D6A]); (0xF92B, [0x72FC]); (0xF92C, [0x90CE]);
   (0xF92D, [0x4F86]); (0xF92E, [0x51B7]); (0xF92F, [0x52DE]); (0xF930, [0x64C4]);
   (0xF931, [0x6AD3]); (0xF932, [0x7210]); (0xF933, [0x76E7]); (0xF934, [0x8001]);
   (0xF935, [0x8606]); (0xF936, [0x865C]); (0xF937, [0x8DEF]); (0xF938, [0x9732]);
   (0xF939, [0x9B6F]); (0xF93A, [0x9DFA]); (0xF93B, [0x788C]); (0xF93C, [0x797F]);
   (0xF93D, [0x7DA0]); (0xF93E, [0x83C9]); (0xF93F, [0x9304]); (0xF940, [0x9E7F]);
   (0xF941, [0x8AD6]); (0xF942, [0x58DF]); (0xF943, [0x5F04]); (0xF944, [0x7C60]);
   (0xF945, [0x807E]); (0xF946, [0x7262]); (0xF947, [0x78CA]); (0xF948, [0x8CC2]);
   (0xF949, [0x96F7]); (0xF94A, [0x58D8]); (0xF94B, [0x5C62]); (0xF94C, [0x6A13]);
   (0xF94D, [0x6DDA]); (0xF94E, [0x6F0F]); (0xF94F, [0x7D2F]); (0xF950, [0x7E37]);
   (0xF951, [0x964B]); (0xF952, [0x52D2]); (0xF953, [0x808B]); (0xF954, [0x51DC]);
   (0xF955, [0x51CC]); (0xF956, [0x7A1C]); (0xF957, [0x7DBE]); (0xF958, [0x83F1]);
   (0xF959, [0x9675]); (0xF95A, [0x8B80]); (0xF95B, [0x62CF]); (0xF95C, [0x6A02]);
   (0xF95D, [0x8AFE]); (0xF95E, [0x4E39]); (0xF95F, [0x5BE7]); (0xF960, [0x6012]);
   (0xF961, [0x7387]); (0xF962, [0x7570]); (0xF963, [0x5317]); (0xF964, [0x78FB]);
   (0xF965, [0x4FBF]); (0xF966, [0x5FA9]); (0xF967, [0x4E0D]); (0xF968, [0x6CCC]);
   (0xF969, [0x6578]); (0xF96A, [0x7D22]); (0xF96B, [0x53C3]); (0xF96C, [0x585E]);
   (0xF96D, [0x7701]); (0xF96E, [0x8449]); (0xF96F, [0x8AAA]); (0xF970, [0x6BBA]);
   (0xF971, [0x8FB0]); (0xF972, [0x6C88]); (0xF973, [0x62FE]); (0xF974, [0x82E5]);
   (0xF975, [0x63A0]); (0xF976, [0x7565]); (0xF977, [0x4EAE]); (0xF978, [0x5169]);
   (0xF979, [0x51C9]); (0xF97A, [0x6881]); (0xF97B, [0x7CE7]); (0xF97C, [0x826F]);
   (0xF97D, [0x8AD2]); (0xF97E, [0x91CF]); (0xF97F, [0x52F5]); (0xF980, [0x5442]);
   (0xF981, [0x5973]); (0xF982, [0x5EEC]); (0xF983, [0x65C5]); (0xF984, [0x6FFE]);
   (0xF985, [0x792A]); (0xF986, [0x95AD]); (0xF987, [0x9A6A]); (0xF988, [0x9E97]);
   (0xF989, [0x9ECE]); (0xF98A, [0x529B]); (0xF98B, [0x66C6]); (0xF98C, [0x6B77]);
   (0xF98D, [0x8F62]); (0xF98E, [0x5E74]); (0xF98F, [0x6190]); (0xF990, [0x6200]);
   (0xF991, [0x649A]); (0xF992, [0x6F23]); (0xF993, [0x7149]); (0xF994, [0x7489]);
   (0xF995, [0x79CA]); (0xF996, [0x7DF4]); (0xF997, [0x806F]); (0xF998, [0x8F26]);
   (0xF999, [0x84EE]); (0xF99A, [0x9023]); (0xF99B, [0x934A]); (0xF99C, [0x5217]);
   (0xF99D, [0x52A3]); (0xF99E, [0x54BD]); (0xF99F, [0x70C8]); (0xF9A0, [0x88C2]);
   (0xF9A1, [0x8AAA]); (0xF9A2, [0x5EC9]); (0xF9A3, [0x5FF5]); (0xF9A4, [0x637B]);
   (0xF9A5, [0x6BAE]); (0xF9A6, [0x7C3E]); (0xF9A7, [0x7375]); (0xF9A8, [0x4EE4]);
   (0xF9A9, [0x56F9]); (0xF9AA, [0x5BE7]); (0xF9AB, [0x5DBA]); (0xF9AC, [0x601C]);
   (0xF9AD, [0x73B2]); (0xF9AE, [0x7469]); (0xF9AF, [0x7F9A]); (0xF9B0, [0x8046]);
   (0xF9B1, [0x9234]); (0xF9B2, [0x96F6]); (0xF9B3, [0x9748]); (0xF9B4, [0x9818]);
   (0xF9B5, [0x4F8B]); (0xF9B6, [0x79AE]); (0xF9B7, [0x91B4]); (0xF9B8, [0x96B8]);
   (0xF9B9, [0x60E1]); (0xF9BA, [0x4E86]); (0xF9BB, [0x50DA]); (0xF9BC, [0x5BEE]);
   (0xF9BD, [0x5C3F]); (0xF9BE, [0x6599]); (0xF9BF, [0x6A02]); (0xF9C0, [0x71CE]);
   (0xF9C1, [0x7642]); (0xF9C2, [0x84FC]); (0xF9C3, [0x907C]); (0xF9C4, [0x9F8D]);
   (0xF9C5, [0x6688]); (0xF9C6, [0x962E]); (0xF9C7, [0x5289]); (0xF9C8, [0x677B]);
   (0xF9C9, [0x67F3]); (0xF9CA, [0x6D41]); (0xF9CB, [0x6E9C]); (0xF9CC, [0x7409]);
   (0xF9CD, [0x7559]); (0xF9CE, [0x786B]); (0xF9CF, [0x7D10]); (0xF9D0, [0x985E]);
   (0xF9D1, [0x516D]); (0xF9D2, [0x622E]); (0xF9D3, [0x9678]); (0xF9D4, [0x502B]);
   (0xF9D5, [0x5D19]); (0xF9D6, [0x6DEA]); (0xF9D7, [0x8F2A]); (0xF9D8, [0x5F8B]);
   (0xF9D9, [0x6144]); (0xF9DA, [0x6817]); (0xF9DB, [0x7387]); (0xF9DC, [0x9686]);
   (0xF9DD, [0x5229]); (0xF9DE, [0x540F]); (0xF9DF, [0x5C65]); (0xF9E0, [0x6613]);
   (0xF9E1, [0x674E]); (0xF9E2, [0x68A8]); (0xF9E3, [0x6CE5]); (0xF9E4, [0x7406]);
   (0xF9E5, [0x75E2]); (0xF9E6, [0x7F79]); (0xF9E7, [0x88CF]); (0xF9E8, [0x88E1]);
   (0xF9E9, [0x91CC]); (0xF9EA, [0x96E2]); (0xF9EB, [0x533F]); (0xF9EC, [0x6EBA]);
   (0xF9ED, [0x541D]); (0xF9EE, [0x71D0]); (0xF9EF, [0x7498]); (0xF9F0, [0x85FA]);
   (0xF9F1, [0x96A3]); (0xF9F2, [0x9C57]); (0xF9F3, [0x9E9F]); (0xF9F4, [0x6797]);
   (0xF9F5, [0x6DCB]); (0xF9F6, [0x81E8]); (0xF9F7, [0x7ACB]); (0xF9F8, [0x7B20]);
   (0xF9F9, [0x7C92]); (0xF9FA, [0x72C0]); (0xF9FB, [0x7099]); (0xF9FC, [0x8B58]);
   (0xF9FD, [0x4EC0]); (0xF9FE, [0x8336]); (0xF9FF, [0x523A]); (0xFA00, [0x5207]);
   (0xFA01, [0x5EA6]); (0xFA02, [0x62D3]); (0xFA03, [0x7CD6]); (0xFA04, [0x5B85]);
   (0xFA05, [0x6D1E]); (0xFA06, [0x66B4]); (0xFA07, [0x8F3B]); (0xFA08, [0x884C]);
   (0xFA09, [0x964D]); (0xFA0A, [0x898B]); (0xFA0B, [0x5ED3]); (0xFA0C, [0x5140]);
   (0xFA0D, [0x55C0]); (0xFA10, [0x585A]); (0xFA12, [0x6674]); (0xFA15, [0x51DE]);
   (0xFA16, [0x732A]); (0xFA17, [0x76CA]); (0xFA18, [0x793C]); (0xFA19, [0x795E]);
   (0xFA1A, [0x7965]); (0xFA1B, [0x798F]); (0xFA1C, [0x9756]); (0xFA1D, [0x7CBE])
  ].

Definition canonical_decomposition_table_6 : list (Z * list Z) :=
  [
   (0xFA1E, [0x7FBD]); (0xFA20, [0x8612]); (0xFA22, [0x8AF8]); (0xFA25, [0x9038]);
   (0xFA26, [0x90FD]); (0xFA2A, [0x98EF]); (0xFA2B, [0x98FC]); (0xFA2C, [0x9928]);
   (0xFA2D, [0x9DB4]); (0xFA2E, [0x90DE]); (0xFA2F, [0x96B7]); (0xFA30, [0x4FAE]);
   (0xFA31, [0x50E7]); (0xFA32, [0x514D]); (0xFA33, [0x52C9]); (0xFA34, [0x52E4]);
   (0xFA35, [0x5351]); (0xFA36, [0x559D]); (0xFA37, [0x5606]); (0xFA38, [0x5668]);
   (0xFA39, [0x5840]); (0xFA3A, [0x58A8]); (0xFA3B, [0x5C64]); (0xFA3C, [0x5C6E]);
   (0xFA3D, [0x6094]); (0xFA3E, [0x6168]); (0xFA3F, [0x618E]); (0xFA40, [0x61F2]);
   (0xFA41, [0x654F]); (0xFA42, [0x65E2]); (0xFA43, [0x6691]); (0xFA44, [0x6885]);
   (0xFA45, [0x6D77]); (0xFA46, [0x6E1A]); (0xFA47, [0x6F22]); (0xFA48, [0x716E]);
   (0xFA49, [0x722B]); (0xFA4A, [0x7422]); (0xFA4B, [0x7891]); (0xFA4C, [0x793E]);
   (0xFA4D, [0x7949]); (0xFA4E, [0x7948]); (0xFA4F, [0x7950]); (0xFA50, [0x7956]);
   (0xFA51, [0x795D]); (0xFA52, [0x798D]); (0xFA53, [0x798E]); (0xFA54, [0x7A40]);
   (0xFA55, [0x7A81]); (0xFA56, [0x7BC0]); (0xFA57, [0x7DF4]); (0xFA58, [0x7E09]);
   (0xFA59, [0x7E41]); (0xFA5A, [0x7F72]); (0xFA5B, [0x8005]); (0xFA5C, [0x81ED]);
   (0xFA5D, [0x8279]); (0xFA5E, [0x8279]); (0xFA5F, [0x8457]); (0xFA60, [0x8910]);
   (0xFA61, [0x8996]); (0xFA62, [0x8B01]); (0xFA63, [0x8B39]); (0xFA64, [0x8CD3]);
   (0xFA65, [0x8D08]); (0xFA66, [0x8FB6]); (0xFA67, [0x9038]); (0xFA68, [0x96E3]);
   (0xFA69, [0x97FF]); (0xFA6A, [0x983B]); (0xFA6B, [0x6075]); (0xFA6C, [0x242EE]);
   (0xFA6D, [0x8218]); (0xFA70, [0x4E26]); (0xFA71, [0x51B5]); (0xFA72, [0x5168]);
   (0xFA73, [0x4F80]); (0xFA74, [0x5145]); (0xFA75, [0x5180]); (0xFA76, [0x52C7]);
   (0xFA77, [0x52FA]); (0xFA78, [0x559D]); (0xFA79, [0x5555]); (0xFA7A, [0x5599]);
   (0xFA7B, [0x55E2]); (0xFA7C, [0x585A]); (0xFA7D, [0x58B3]); (0xFA7E, [0x5944]);
   (0xFA7F, [0x5954]); (0xFA80, [0x5A62]); (0xFA81, [0x5B28]); (0xFA82, [0x5ED2]);
   (0xFA83, [0x5ED9]); (0xFA84, [0x5F69]); (0xFA85, [0x5FAD]); (0xFA86, [0x60D8]);
   (0xFA87, [0x614E]); (0xFA88, [0x6108]); (0xFA89, [0x618E]); (0xFA8A, [0x6160]);
   (0xFA8B, [0x61F2]); (0xFA8C, [0x6234]); (0xFA8D, [0x63C4]); (0xFA8E, [0x641C]);
   (0xFA8F, [0x6452]); (0xFA90, [0x6556]); (0xFA91, [0x6674]); (0xFA92, [0x6717]);
   (0xFA93, [0x671B]); (0xFA94, [0x6756]); (0xFA95, [0x6B79]); (0xFA96, [0x6BBA]);
   (0xFA97, [0x6D41]); (0xFA98, [0x6EDB]); (0xFA99, [0x6ECB]); (0xFA9A, [0x6F22]);
   (0xFA9B, [0x701E]); (0xFA9C, [0x716E]); (0xFA9D, [0x77A7]); (0xFA9E, [0x7235]);
   (0xFA9F, [0x72AF]); (0xFAA0, [0x732A]); (0xFAA1, [0x7471]); (0xFAA2, [0x7506]);
   (0xFAA3, [0x753B]); (0xFAA4, [0x761D]); (0xFAA5, [0x761F]); (0xFAA6, [0x76CA]);
   (0xFAA7, [0x76DB]); (0xFAA8, [0x76F4]); (0xFAA9, [0x774A]); (0xFAAA, [0x7740]);
   (0xFAAB, [0x78CC]); (0xFAAC, [0x7AB1]); (0xFAAD, [0x7BC0]); (0xFAAE, [0x7C7B]);
   (0xFAAF, [0x7D5B]); (0xFAB0, [0x7DF4]); (0xFAB1, [0x7F3E]); (0xFAB2, [0x8005]);
   (0xFAB3, [0x8352]); (0xFAB4, [0x83EF]); (0xFAB5, [0x8779]); (0xFAB6, [0x8941]);
   (0xFAB7, [0x8986]); (0xFAB8, [0x8996]); (0xFAB9, [0x8ABF]); (0xFABA, [0x8AF8]);
   (0xFABB, [0x8ACB]); (0xFABC, [0x8B01]); (0xFABD, [0x8AFE]); (0xFABE, [0x8AED]);
   (0xFABF, [0x8B39]); (0xFAC0, [0x8B8A]); (0xFAC1, [0x8D08]); (0xFAC2, [0x8F38]);
   (0xFAC3, [0x9072]); (0xFAC4, [0x9199]); (0xFAC5, [0x9276]); (0xFAC6, [0x967C]);
   (0xFAC7, [0x96E3]); (0xFAC8, [0x9756]); (0xFAC9, [0x97DB]); (0xFACA, [0x97FF]);
   (0xFACB, [0x980B]); (0xFACC, [0x983B]); (0xFACD, [0x9B12]); (0xFACE, [0x9F9C]);
   (0xFACF, [0x2284A]); (0xFAD0, [0x22844]); (0xFAD1, [0x233D5]); (0xFAD2, [0x3B9D]);
   (0xFAD3, [0x4018]); (0xFAD4, [0x4039]); (0xFAD5, [0x25249]); (0xFAD6, [0x25CD0]);
   (0xFAD7, [0x27ED3]); (0xFAD8, [0x9F43]); (0xFAD9, [0x9F8E]); (0xFB1D, [0x5D9; 0x5B4]);
   (0xFB1F, [0x5F2; 0x5B7]); (0xFB2A, [0x5E9; 0x5C1]); (0xFB2B, [0x5E9; 0x5C2]); (0xFB2C, [0x5E9; 0x5BC; 0x5C1]);
   (0xFB2D, [0x5E9; 0x5BC; 0x5C2]); (0xFB2E, [0x5D0; 0x5B7]); (0xFB2F, [0x5D0; 0x5B8]); (0xFB30, [0x5D0; 0x5BC]);
   (0xFB31, [0x5D1; 0x5BC]); (0xFB32, [0x5D2; 0x5BC]); (0xFB33, [0x5D3; 0x5BC]); (0xFB34, [0x5D4; 0x5BC]);
   (0xFB35, [0x5D5; 0x5BC]); (0xFB36, [0x5D6; 0x5BC]); (0xFB38, [0x5D8; 0x5BC]); (0xFB39, [0x5D9; 0x5BC]);
   (0xFB3A, [0x5DA; 0x5BC]); (0xFB3B, [0x5DB; 0x5BC]); (0xFB3C, [0x5DC; 0x5BC]); (0xFB3E, [0x5DE; 0x5BC]);
   (0xFB40, [0x5E0; 0x5BC]); (0xFB41, [0x5E1; 0x5BC]); (0xFB43, [0x5E3; 0x5BC]); (0xFB44, [0x5E4; 0x5BC]);
   (0xFB46, [0x5E6; 0x5BC]); (0xFB47, [0x5E7; 0x5BC]); (0xFB48, [0x5E8; 0x5BC]); (0xFB49, [0x5E9; 0x5BC]);
   (0xFB4A, [0x5EA; 0x5BC]); (0xFB4B, [0x5D5; 0x5B9]); (0xFB4C, [0x5D1; 0x5BF]); (0xFB4D, [0x5DB; 0x5BF]);
   (0xFB4E, [0x5E4; 0x5BF]); (0x1109A, [0x11099; 0x110BA]); (0x1109C, [0x1109B; 0x110BA]); (0x110AB, [0x110A5; 0x110BA]);
   (0x1112E, [0x11131; 0x11127]); (0x1112F, [0x11132; 0x11127]); (0x1134B, [0x11347; 0x1133E]); (0x1134C, [0x11347; 0x11357]);
   (0x114BB, [0x114B9; 0x114BA]); (0x114BC, [0x114B9; 0x114B0]); (0x114BE, [0x114B9; 0x114BD]); (0x115BA, [0x115B8; 0x115AF]);
   (0x115BB, [0x115B9; 0x115AF]); (0x11938, [0x11935; 0x11930]); (0x1D15E, [0x1D157; 0x1D165]); (0x1D15F, [0x1D158; 0x1D165]);
   (0x1D160, [0x1D158; 0x1D165; 0x1D16E]); (0x1D161, [0x1D158; 0x1D165; 0x1D16F]); (0x1D162, [0x1D158; 0x1D165; 0x1D170]); (0x1D163, [0x1D158; 0x1D165; 0x1D171]);
   (0x1D164, [0x1D158; 0x1D165; 0x1D172]); (0x1D1BB, [0x1D1B9; 0x1D165]); (0x1D1BC, [0x1D1BA; 0x1D165]); (0x1D1BD, [0x1D1B9; 0x1D165; 0x1D16E]);
   (0x1D1BE, [0x1D1BA; 0x1D165; 0x1D16E]); (0x1D1BF, [0x1D1B9; 0x1D165; 0x1D16F]); (0x1D1C0, [0x1D1BA; 0x1D165; 0x1D16F]); (0x2F800, [0x4E3D]);
   (0x2F801, [0x4E38]); (0x2F802, [0x4E41]); (0x2F803, [0x20122]); (0x2F804, [0x4F60]);
   (0x2F805, [0x4FAE]); (0x2F806, [0x4FBB]); (0x2F807, [0x5002]); (0x2F808, [0x507A]);
   (0x2F809, [0x5099]); (0x2F80A, [0x50E7]); (0x2F80B, [0x50CF]); (0x2F80C, [0x349E]);
   (0x2F80D, [0x2063A]); (0x2F80E, [0x514D]); (0x2F80F, [0x5154]); (0x2F810, [0x5164])
  ].

Definition canonical_decomposition_table_7 : list (Z * list Z) :=
  [
   (0x2F811, [0x5177]); (0x2F812, [0x2051C]); (0x2F813, [0x34B9]); (0x2F814, [0x5167]);
   (0x2F815, [0x518D]); (0x2F816, [0x2054B]); (0x2F817, [0x5197]); (0x2F818, [0x51A4]);
   (0x2F819, [0x4ECC]); (0x2F81A, [0x51AC]); (0x2F81B, [0x51B5]); (0x2F81C, [0x291DF]);
   (0x2F81D, [0x51F5]); (0x2F81E, [0x5203]); (0x2F81F, [0x34DF]); (0x2F820, [0x523B]);
   (0x2F821, [0x5246]); (0x2F822, [0x5272]); (0x2F823, [0x5277]); (0x2F824, [0x3515]);
   (0x2F825, [0x52C7]); (0x2F826, [0x52C9]); (0x2F827, [0x52E4]); (0x2F828, [0x52FA]);
   (0x2F829, [0x5305]); (0x2F82A, [0x5306]); (0x2F82B, [0x5317]); (0x2F82C, [0x5349]);
   (0x2F82D, [0x5351]); (0x2F82E, [0x535A]); (0x2F82F, [0x5373]); (0x2F830, [0x537D]);
   (0x2F831, [0x537F]); (0x2F832, [0x537F]); (0x2F833, [0x537F]); (0x2F834, [0x20A2C]);
   (0x2F835, [0x7070]); (0x2F836, [0x53CA]); (0x2F837, [0x53DF]); (0x2F838, [0x20B63]);
   (0x2F839, [0x53EB]); (0x2F83A, [0x53F1]); (0x2F83B, [0x5406]); (0x2F83C, [0x549E]);
   (0x2F83D, [0x5438]); (0x2F83E, [0x5448]); (0x2F83F, [0x5468]); (0x2F840, [0x54A2]);
   (0x2F841, [0x54F6]); (0x2F842, [0x5510]); (0x2F843, [0x5553]); (0x2F844, [0x5563]);
   (0x2F845, [0x5584]); (0x2F846, [0x5584]); (0x2F847, [0x5599]); (0x2F848, [0x55AB]);
   (0x2F849, [0x55B3]); (0x2F84A, [0x55C2]); (0x2F84B, [0x5716]); (0x2F84C, [0x5606]);
   (0x2F84D, [0x5717]); (0x2F84E, [0x5651]); (0x2F84F, [0x5674]); (0x2F850, [0x5207]);
   (0x2F851, [0x58EE]); (0x2F852, [0x57CE]); (0x2F853, [0x57F4]); (0x2F854, [0x580D]);
   (0x2F855, [0x578B]); (0x2F856, [0x5832]); (0x2F857, [0x5831]); (0x2F858, [0x58AC]);
   (0x2F859, [0x214E4]); (0x2F85A, [0x58F2]); (0x2F85B, [0x58F7]); (0x2F85C, [0x5906]);
   (0x2F85D, [0x591A]); (0x2F85E, [0x5922]); (0x2F85F, [0x5962]); (0x2F860, [0x216A8]);
   (0x2F861, [0x216EA]); (0x2F862, [0x59EC]); (0x2F863, [0x5A1B]); (0x2F864, [0x5A27]);
   (0x2F865, [0x59D8]); (0x2F866, [0x5A66]); (0x2F867, [0x36EE]); (0x2F868, [0x36FC]);
   (0x2F869, [0x5B08]); (0x2F86A, [0x5B3E]); (0x2F86B, [0x5B3E]); (0x2F86C, [0x219C8]);
   (0x2F86D, [0x5BC3]); (0x2F86E, [0x5BD8]); (0x2F86F, [0x5BE7]); (0x2F870, [0x5BF3]);
   (0x2F871, [0x21B18]); (0x2F872, [0x5BFF]); (0x2F873, [0x5C06]); (0x2F874, [0x5F53]);
   (0x2F875, [0x5C22]); (0x2F876, [0x3781]); (0x2F877, [0x5C60]); (0x2F878, [0x5C6E]);
   (0x2F879, [0x5CC0]); (0x2F87A, [0x5C8D]); (0x2F87B, [0x21DE4]); (0x2F87C, [0x5D43]);
   (0x2F87D, [0x21DE6]); (0x2F87E, [0x5D6E]); (0x2F87F, [0x5D6B]); (0x2F880, [0x5D7C]);
   (0x2F881, [0x5DE1]); (0x2F882, [0x5DE2]); (0x2F883, [0x382F]); (0x2F884, [0x5DFD]);
   (0x2F885, [0x5E28]); (0x2F886, [0x5E3D]); (0x2F887, [0x5E69]); (0x2F888, [0x3862]);
   (0x2F889, [0x22183]); (0x2F88A, [0x387C]); (0x2F88B, [0x5EB0]); (0x2F88C, [0x5EB3]);
   (0x2F88D, [0x5EB6]); (0x2F88E, [0x5ECA]); (0x2F88F, [0x2A392]); (0x2F890, [0x5EFE]);
   (0x2F891, [0x22331]); (0x2F892, [0x22331]); (0x2F893, [0x8201]); (0x2F894, [0x5F22]);
   (0x2F895, [0x5F22]); (0x2F896, [0x38C7]); (0x2F897, [0x232B8]); (0x2F898, [0x261DA]);
   (0x2F899, [0x5F62]); (0x2F89A, [0x5F6B]); (0x2F89B, [0x38E3]); (0x2F89C, [0x5F9A]);
   (0x2F89D, [0x5FCD]); (0x2F89E, [0x5FD7]); (0x2F89F, [0x5FF9]); (0x2F8A0, [0x6081]);
   (0x2F8A1, [0x393A]); (0x2F8A2, [0x391C]); (0x2F8A3, [0x6094]); (0x2F8A4, [0x226D4]);
   (0x2F8A5, [0x60C7]); (0x2F8A6, [0x6148]); (0x2F8A7, [0x614C]); (0x2F8A8, [0x614E]);
   (0x2F8A9, [0x614C]); (0x2F8AA, [0x617A]); (0x2F8AB, [0x618E]); (0x2F8AC, [0x61B2]);
   (0x2F8AD, [0x61A4]); (0x2F8AE, [0x61AF]); (0x2F8AF, [0x61DE]); (0x2F8B0, [0x61F2]);
   (0x2F8B1, [0x61F6]); (0x2F8B2, [0x6210]); (0x2F8B3, [0x621B]); (0x2F8B4, [0x625D]);
   (0x2F8B5, [0x62B1]); (0x2F8B6, [0x62D4]); (0x2F8B7, [0x6350]); (0x2F8B8, [0x22B0C]);
   (0x2F8B9, [0x633D]); (0x2F8BA, [0x62FC]); (0x2F8BB, [0x6368]); (0x2F8BC, [0x6383]);
   (0x2F8BD, [0x63E4]); (0x2F8BE, [0x22BF1]); (0x2F8BF, [0x6422]); (0x2F8C0, [0x63C5]);
   (0x2F8C1, [0x63A9]); (0x2F8C2, [0x3A2E]); (0x2F8C3, [0x6469]); (0x2F8C4, [0x647E]);
   (0x2F8C5, [0x649D]); (0x2F8C6, [0x6477]); (0x2F8C7, [0x3A6C]); (0x2F8C8, [0x654F]);
   (0x2F8C9, [0x656C]); (0x2F8CA, [0x2300A]); (0x2F8CB, [0x65E3]); (0x2F8CC, [0x66F8]);
   (0x2F8CD, [0x6649]); (0x2F8CE, [0x3B19]); (0x2F8CF, [0x6691]); (0x2F8D0, [0x3B08]);
   (0x2F8D1, [0x3AE4]); (0x2F8D2, [0x5192]); (0x2F8D3, [0x5195]); (0x2F8D4, [0x6700]);
   (0x2F8D5, [0x669C]); (0x2F8D6, [0x80AD]); (0x2F8D7, [0x43D9]); (0x2F8D8, [0x6717]);
   (0x2F8D9, [0x671B]); (0x2F8DA, [0x6721]); (0x2F8DB, [0x675E]); (0x2F8DC, [0x6753]);
   (0x2F8DD, [0x233C3]); (0x2F8DE, [0x3B49]); (0x2F8DF, [0x67FA]); (0x2F8E0, [0x6785]);
   (0x2F8E1, [0x6852]); (0x2F8E2, [0x6885]); (0x2F8E3, [0x2346D]); (0x2F8E4, [0x688E]);
   (0x2F8E5, [0x681F]); (0x2F8E6, [0x6914]); (0x2F8E7, [0x3B9D]); (0x2F8E8, [0x6942]);
   (0x2F8E9, [0x69A3]); (0x2F8EA, [0x69EA]); (0x2F8EB, [0x6AA8]); (0x2F8EC, [0x236A3]);
   (0x2F8ED, [0x6ADB]); (0x2F8EE, [0x3C18]); (0x2F8EF, [0x6B21]); (0x2F8F0, [0x238A7]);
   (0x2F8F1, [0x6B54]); (0x2F8F2, [0x3C4E]); (0x2F8F3, [0x6B72]); (0x2F8F4, [0x6B9F]);
   (0x2F8F5, [0x6BBA]); (0x2F8F6, [0x6BBB]); (0x2F8F7, [0x23A8D]); (0x2F8F8, [0x21D0B]);
   (0x2F8F9, [0x23AFA]); (0x2F8FA, [0x6C4E]); (0x2F8FB, [0x23CBC]); (0x2F8FC, [0x6CBF]);
   (0x2F8FD, [0x6CCD]); (0x2F8FE, [0x6C67]); (0x2F8FF, [0x6D16]); (0x2F900, [0x6D3E]);
   (0x2F901, [0x6D77]); (0x2F902, [0x6D41]); (0x2F903, [0x6D69]); (0x2F904, [0x6D78]);
   (0x2F905, [0x6D85]); (0x2F906, [0x23D1E]); (0x2F907, [0x6D34]); (0x2F908, [0x6E2F]);
   (0x2F909, [0x6E6E]); (0x2F90A, [0x3D33]); (0x2F90B, [0x6ECB]); (0x2F90C, [0x6EC7]);
   (0x2F90D, [0x23ED1]); (0x2F90E, [0x6DF9]); (0x2F90F, [0x6F6E]); (0x2F910, [0x23F5E])
  ].

Definition canonical_decomposition_table_8 : list (Z * list Z) :=
  [
   (0x2F911, [0x23F8E]); (0x2F912, [0x6FC6]); (0x2F913, [0x7039]); (0x2F914, [0x701E]);
   (0x2F915, [0x701B]); (0x2F916, [0x3D96]); (0x2F917, [0x704A]); (0x2F918, [0x707D]);
   (0x2F919, [0x7077]); (0x2F91A, [0x70AD]); (0x2F91B, [0x20525]); (0x2F91C, [0x7145]);
   (0x2F91D, [0x24263]); (0x2F91E, [0x719C]); (0x2F91F, [0x243AB]); (0x2F920, [0x7228]);
   (0x2F921, [0x7235]); (0x2F922, [0x7250]); (0x2F923, [0x24608]); (0x2F924, [0x7280]);
   (0x2F925, [0x7295]); (0x2F926, [0x24735]); (0x2F927, [0x24814]); (0x2F928, [0x737A]);
   (0x2F929, [0x738B]); (0x2F92A, [0x3EAC]); (0x2F92B, [0x73A5]); (0x2F92C, [0x3EB8]);
   (0x2F92D, [0x3EB8]); (0x2F92E, [0x7447]); (0x2F92F, [0x745C]); (0x2F930, [0x7471]);
   (0x2F931, [0x7485]); (0x2F932, [0x74CA]); (0x2F933, [0x3F1B]); (0x2F934, [0x7524]);
   (0x2F935, [0x24C36]); (0x2F936, [0x753E]); (0x2F937, [0x24C92]); (0x2F938, [0x7570]);
   (0x2F939, [0x2219F]); (0x2F93A, [0x7610]); (0x2F93B, [0x24FA1]); (0x2F93C, [0x24FB8]);
   (0x2F93D, [0x25044]); (0x2F93E, [0x3FFC]); (0x2F93F, [0x4008]); (0x2F940, [0x76F4]);
   (0x2F941, [0x250F3]); (0x2F942, [0x250F2]); (0x2F943, [0x25119]); (0x2F944, [0x25133]);
   (0x2F945, [0x771E]); (0x2F946, [0x771F]); (0x2F947, [0x771F]); (0x2F948, [0x774A]);
   (0x2F949, [0x4039]); (0x2F94A, [0x778B]); (0x2F94B, [0x4046]); (0x2F94C, [0x4096]);
   (0x2F94D, [0x2541D]); (0x2F94E, [0x784E]); (0x2F94F, [0x788C]); (0x2F950, [0x78CC]);
   (0x2F951, [0x40E3]); (0x2F952, [0x25626]); (0x2F953, [0x7956]); (0x2F954, [0x2569A]);
   (0x2F955, [0x256C5]); (0x2F956, [0x798F]); (0x2F957, [0x79EB]); (0x2F958, [0x412F]);
   (0x2F959, [0x7A40]); (0x2F95A, [0x7A4A]); (0x2F95B, [0x7A4F]); (0x2F95C, [0x2597C]);
   (0x2F95D, [0x25AA7]); (0x2F95E, [0x25AA7]); (0x2F95F, [0x7AEE]); (0x2F960, [0x4202]);
   (0x2F961, [0x25BAB]); (0x2F962, [0x7BC6]); (0x2F963, [0x7BC9]); (0x2F964, [0x4227]);
   (0x2F965, [0x25C80]); (0x2F966, [0x7CD2]); (0x2F967, [0x42A0]); (0x2F968, [0x7CE8]);
   (0x2F969, [0x7CE3]); (0x2F96A, [0x7D00]); (0x2F96B, [0x25F86]); (0x2F96C, [0x7D63]);
   (0x2F96D, [0x4301]); (0x2F96E, [0x7DC7]); (0x2F96F, [0x7E02]); (0x2F970, [0x7E45]);
   (0x2F971, [0x4334]); (0x2F972, [0x26228]); (0x2F973, [0x26247]); (0x2F974, [0x4359]);
   (0x2F975, [0x262D9]); (0x2F976, [0x7F7A]); (0x2F977, [0x2633E]); (0x2F978, [0x7F95]);
   (0x2F979, [0x7FFA]); (0x2F97A, [0x8005]); (0x2F97B, [0x264DA]); (0x2F97C, [0x26523]);
   (0x2F97D, [0x8060]); (0x2F97E, [0x265A8]); (0x2F97F, [0x8070]); (0x2F980, [0x2335F]);
   (0x2F981, [0x43D5]); (0x2F982, [0x80B2]); (0x2F983, [0x8103]); (0x2F984, [0x440B]);
   (0x2F985, [0x813E]); (0x2F986, [0x5AB5]); (0x2F987, [0x267A7]); (0x2F988, [0x267B5]);
   (0x2F989, [0x23393]); (0x2F98A, [0x2339C]); (0x2F98B, [0x8201]); (0x2F98C, [0x8204]);
   (0x2F98D, [0x8F9E]); (0x2F98E, [0x446B]); (0x2F98F, [0x8291]); (0x2F990, [0x828B]);
   (0x2F991, [0x829D]); (0x2F992, [0x52B3]); (0x2F993, [0x82B1]); (0x2F994, [0x82B3]);
   (0x2F995, [0x82BD]); (0x2F996, [0x82E6]); (0x2F997, [0x26B3C]); (0x2F998, [0x82E5]);
   (0x2F999, [0x831D]); (0x2F99A, [0x8363]); (0x2F99B, [0x83AD]); (0x2F99C, [0x8323]);
   (0x2F99D, [0x83BD]); (0x2F99E, [0x83E7]); (0x2F99F, [0x8457]); (0x2F9A0, [0x8353]);
   (0x2F9A1, [0x83CA]); (0x2F9A2, [0x83CC]); (0x2F9A3, [0x83DC]); (0x2F9A4, [0x26C36]);
   (0x2F9A5, [0x26D6B]); (0x2F9A6, [0x26CD5]); (0x2F9A7, [0x452B]); (0x2F9A8, [0x84F1]);
   (0x2F9A9, [0x84F3]); (0x2F9AA, [0x8516]); (0x2F9AB, [0x273CA]); (0x2F9AC, [0x8564]);
   (0x2F9AD, [0x26F2C]); (0x2F9AE, [0x455D]); (0x2F9AF, [0x4561]); (0x2F9B0, [0x26FB1]);
   (0x2F9B1, [0x270D2]); (0x2F9B2, [0x456B]); (0x2F9B3, [0x8650]); (0x2F9B4, [0x865C]);
   (0x2F9B5, [0x8667]); (0x2F9B6, [0x8669]); (0x2F9B7, [0x86A9]); (0x2F9B8, [0x8688]);
   (0x2F9B9, [0x870E]); (0x2F9BA, [0x86E2]); (0x2F9BB, [0x8779]); (0x2F9BC, [0x8728]);
   (0x2F9BD, [0x876B]); (0x2F9BE, [0x8786]); (0x2F9BF, [0x45D7]); (0x2F9C0, [0x87E1]);
   (0x2F9C1, [0x8801]); (0x2F9C2, [0x45F9]); (0x2F9C3, [0x8860]); (0x2F9C4, [0x8863]);
   (0x2F9C5, [0x27667]); (0x2F9C6, [0x88D7]); (0x2F9C7, [0x88DE]); (0x2F9C8, [0x4635]);
   (0x2F9C9, [0x88FA]); (0x2F9CA, [0x34BB]); (0x2F9CB, [0x278AE]); (0x2F9CC, [0x27966]);
   (0x2F9CD, [0x46BE]); (0x2F9CE, [0x46C7]); (0x2F9CF, [0x8AA0]); (0x2F9D0, [0x8AED]);
   (0x2F9D1, [0x8B8A]); (0x2F9D2, [0x8C55]); (0x2F9D3, [0x27CA8]); (0x2F9D4, [0x8CAB]);
   (0x2F9D5, [0x8CC1]); (0x2F9D6, [0x8D1B]); (0x2F9D7, [0x8D77]); (0x2F9D8, [0x27F2F]);
   (0x2F9D9, [0x20804]); (0x2F9DA, [0x8DCB]); (0x2F9DB, [0x8DBC]); (0x2F9DC, [0x8DF0]);
   (0x2F9DD, [0x208DE]); (0x2F9DE, [0x8ED4]); (0x2F9DF, [0x8F38]); (0x2F9E0, [0x285D2]);
   (0x2F9E1, [0x285ED]); (0x2F9E2, [0x9094]); (0x2F9E3, [0x90F1]); (0x2F9E4, [0x9111]);
   (0x2F9E5, [0x2872E]); (0x2F9E6, [0x911B]); (0x2F9E7, [0x9238]); (0x2F9E8, [0x92D7]);
   (0x2F9E9, [0x92D8]); (0x2F9EA, [0x927C]); (0x2F9EB, [0x93F9]); (0x2F9EC, [0x9415]);
   (0x2F9ED, [0x28BFA]); (0x2F9EE, [0x958B]); (0x2F9EF, [0x4995]); (0x2F9F0, [0x95B7]);
   (0x2F9F1, [0x28D77]); (0x2F9F2, [0x49E6]); (0x2F9F3, [0x96C3]); (0x2F9F4, [0x5DB2]);
   (0x2F9F5, [0x9723]); (0x2F9F6, [0x29145]); (0x2F9F7, [0x2921A]); (0x2F9F8, [0x4A6E]);
   (0x2F9F9, [0x4A76]); (0x2F9FA, [0x97E0]); (0x2F9FB, [0x2940A]); (0x2F9FC, [0x4AB2]);
   (0x2F9FD, [0x29496]); (0x2F9FE, [0x980B]); (0x2F9FF, [0x980B]); (0x2FA00, [0x9829]);
   (0x2FA01, [0x295B6]); (0x2FA02, [0x98E2]); (0x2FA03, [0x4B33]); (0x2FA04, [0x9929]);
   (0x2FA05, [0x99A7]); (0x2FA06, [0x99C2]); (0x2FA07, [0x99FE]); (0x2FA08, [0x4BCE]);
   (0x2FA09, [0x29B30]); (0x2FA0A, [0x9B12]); (0x2FA0B, [0x9C40]); (0x2FA0C, [0x9CFD]);
   (0x2FA0D, [0x4CCE]); (0x2FA0E, [0x4CED]); (0x2FA0F, [0x9D67]); (0x2FA10, [0x2A0CE])
  ].

Definition canonical_decomposition_table_9 : list (Z * list Z) :=
  [
   (0x2FA11, [0x4CF8]); (0x2FA12, [0x2A105]); (0x2FA13, [0x2A20E]); (0x2FA14, [0x2A291]);
   (0x2FA15, [0x9EBB]); (0x2FA16, [0x4D56]); (0x2FA17, [0x9EF9]); (0x2FA18, [0x9EFE]);
   (0x2FA19, [0x9F05]); (0x2FA1A, [0x9F0F]); (0x2FA1B, [0x9F16]); (0x2FA1C, [0x9F3B]);
   (0x2FA1D, [0x2A600])
  ].

(** The canonical decomposition mappings of the Unicode Character Database (version 14.0), each expanded to its full decomposition; Hangul syllables, which decompose by formula, are not listed. *)
Definition canonical_decomposition_table : list (Z * list Z) :=
  canonical_decomposition_table_1 ++
  canonical_decomposition_table_2 ++
  canonical_decomposition_table_3 ++
  canonical_decomposition_table_4 ++
  canonical_decomposition_table_5 ++
  canonical_decomposition_table_6 ++
  canonical_decomposition_table_7 ++
  canonical_decomposition_table_8 ++
  canonical_decomposition_table_9.
Definition lowercase_table_1 : list (Z * Z) :=
  [
   (0x41, 0x61); (0x42, 0x62); (0x43, 0x63); (0x44, 0x64); (0x45, 0x65); (0x46, 0x66);
   (0x47, 0x67); (0x48, 0x68); (0x49, 0x69); (0x4A, 0x6A); (0x4B, 0x6B); (0x4C, 0x6C);
   (0x4D, 0x6D); (0x4E, 0x6E); (0x4F, 0x6F); (0x50, 0x70); (0x51, 0x71); (0x52, 0x72);
   (0x53, 0x73); (0x54, 0x74); (0x55, 0x75); (0x56, 0x76); (0x57, 0x77); (0x58, 0x78);
   (0x59, 0x79); (0x5A, 0x7A); (0xC0, 0xE0); (0xC1, 0xE1); (0xC2, 0xE2); (0xC3, 0xE3);
   (0xC4, 0xE4); (0xC5, 0xE5); (0xC6, 0xE6); (0xC7, 0xE7); (0xC8, 0xE8); (0xC9, 0xE9);
   (0xCA, 0xEA); (0xCB, 0xEB); (0xCC, 0xEC); (0xCD, 0xED); (0xCE, 0xEE); (0xCF, 0xEF);
   (0xD0, 0xF0); (0xD1, 0xF1); (0xD2, 0xF2); (0xD3, 0xF3); (0xD4, 0xF4); (0xD5, 0xF5);
   (0xD6, 0xF6); (0xD8, 0xF8); (0xD9, 0xF9); (0xDA, 0xFA); (0xDB, 0xFB); (0xDC, 0xFC);
   (0xDD, 0xFD); (0xDE, 0xFE); (0x100, 0x101); (0x102, 0x103); (0x104, 0x105); (0x106, 0x107);
   (0x108, 0x109); (0x10A, 0x10B); (0x10C, 0x10D); (0x10E, 0x10F); (0x110, 0x111); (0x112, 0x113);
   (0x114, 0x115); (0x116, 0x117); (0x118, 0x119); (0x11A, 0x11B); (0x11C, 0x11D); (0x11E, 0x11F);
   (0x120, 0x121); (0x122, 0x123); (0x124, 0x125); (0x126, 0x127); (0x128, 0x129); (0x12A, 0x12B);
   (0x12C, 0x12D); (0x12E, 0x12F); (0x132, 0x133); (0x134, 0x135); (0x136, 0x137); (0x139, 0x13A);
   (0x13B, 0x13C); (0x13D, 0x13E); (0x13F, 0x140); (0x141, 0x142); (0x143, 0x144); (0x145, 0x146);
   (0x147, 0x148); (0x14A, 0x14B); (0x14C, 0x14D); (0x14E, 0x14F); (0x150, 0x151); (0x152, 0x153);
   (0x154, 0x155); (0x156, 0x157); (0x158, 0x159); (0x15A, 0x15B); (0x15C, 0x15D); (0x15E, 0x15F);
   (0x160, 0x161); (0x162, 0x163); (0x164, 0x165); (0x166, 0x167); (0x168, 0x169); (0x16A, 0x16B);
   (0x16C, 0x16D); (0x16E, 0x16F); (0x170, 0x171); (0x172, 0x173); (0x174, 0x175); (0x176, 0x177);
   (0x178, 0xFF); (0x179, 0x17A); (0x17B, 0x17C); (0x17D, 0x17E); (0x181, 0x253); (0x182, 0x183);
   (0x184, 0x185); (0x186, 0x254); (0x187, 0x188); (0x189, 0x256); (0x18A, 0x257); (0x18B, 0x18C);
   (0x18E, 0x1DD); (0x18F, 0x259); (0x190, 0x25B); (0x191, 0x192); (0x193, 0x260); (0x194, 0x263);
   (0x196, 0x269); (0x197, 0x268); (0x198, 0x199); (0x19C, 0x26F); (0x19D, 0x272); (0x19F, 0x275);
   (0x1A0, 0x1A1); (0x1A2, 0x1A3); (0x1A4, 0x1A5); (0x1A6, 0x280); (0x1A7, 0x1A8); (0x1A9, 0x283);
   (0x1AC, 0x1AD); (0x1AE, 0x288); (0x1AF, 0x1B0); (0x1B1, 0x28A); (0x1B2, 0x28B); (0x1B3, 0x1B4);
   (0x1B5, 0x1B6); (0x1B7, 0x292); (0x1B8, 0x1B9); (0x1BC, 0x1BD); (0x1C4, 0x1C6); (0x1C5, 0x1C6);
   (0x1C7, 0x1C9); (0x1C8, 0x1C9); (0x1CA, 0x1CC); (0x1CB, 0x1CC); (0x1CD, 0x1CE); (0x1CF, 0x1D0);
   (0x1D1, 0x1D2); (0x1D3, 0x1D4); (0x1D5, 0x1D6); (0x1D7, 0x1D8); (0x1D9, 0x1DA); (0x1DB, 0x1DC);
   (0x1DE, 0x1DF); (0x1E0, 0x1E1); (0x1E2, 0x1E3); (0x1E4, 0x1E5); (0x1E6, 0x1E7); (0x1E8, 0x1E9);
   (0x1EA, 0x1EB); (0x1EC, 0x1ED); (0x1EE, 0x1EF); (0x1F1, 0x1F3); (0x1F2, 0x1F3); (0x1F4, 0x1F5);
   (0x1F6, 0x195); (0x1F7, 0x1BF); (0x1F8, 0x1F9); (0x1FA, 0x1FB); (0x1FC, 0x1FD); (0x1FE, 0x1FF);
   (0x200, 0x201); (0x202, 0x203); (0x204, 0x205); (0x206, 0x207); (0x208, 0x209); (0x20A, 0x20B);
   (0x20C, 0x20D); (0x20E, 0x20F); (0x210, 0x211); (0x212, 0x213); (0x214, 0x215); (0x216, 0x217);
   (0x218, 0x219); (0x21A, 0x21B); (0x21C, 0x21D); (0x21E, 0x21F); (0x220, 0x19E); (0x222, 0x223);
   (0x224, 0x225); (0x226, 0x227); (0x228, 0x229); (0x22A, 0x22B); (0x22C, 0x22D); (0x22E, 0x22F);
   (0x230, 0x231); (0x232, 0x233); (0x23A, 0x2C65); (0x23B, 0x23C); (0x23D, 0x19A); (0x23E, 0x2C66);
   (0x241, 0x242); (0x243, 0x180); (0x244, 0x289); (0x245, 0x28C); (0x246, 0x247); (0x248, 0x249);
   (0x24A, 0x24B); (0x24C, 0x24D); (0x24E, 0x24F); (0x370, 0x371); (0x372, 0x373); (0x376, 0x377);
   (0x37F, 0x3F3); (0x386, 0x3AC); (0x388, 0x3AD); (0x389, 0x3AE); (0x38A, 0x3AF); (0x38C, 0x3CC);
   (0x38E, 0x3CD); (0x38F, 0x3CE); (0x391, 0x3B1); (0x392, 0x3B2); (0x393, 0x3B3); (0x394, 0x3B4);
   (0x395, 0x3B5); (0x396, 0x3B6); (0x397, 0x3B7); (0x398, 0x3B8); (0x399, 0x3B9); (0x39A, 0x3BA);
   (0x39B, 0x3BB); (0x39C, 0x3BC); (0x39D, 0x3BD); (0x39E, 0x3BE); (0x39F, 0x3BF); (0x3A0, 0x3C0);
   (0x3A1, 0x3C1); (0x3A4, 0x3C4); (0x3A5, 0x3C5); (0x3A6, 0x3C6); (0x3A7, 0x3C7); (0x3A8, 0x3C8);
   (0x3A9, 0x3C9); (0x3AA, 0x3CA); (0x3AB, 0x3CB); (0x3CF, 0x3D7); (0x3D8, 0x3D9); (0x3DA, 0x3DB);
   (0x3DC, 0x3DD); (0x3DE, 0x3DF); (0x3E0, 0x3E1); (0x3E2, 0x3E3); (0x3E4, 0x3E5); (0x3E6, 0x3E7);
   (0x3E8, 0x3E9); (0x3EA, 0x3EB); (0x3EC, 0x3ED); (0x3EE, 0x3EF); (0x3F4, 0x3B8); (0x3F7, 0x3F8);
   (0x3F9, 0x3F2); (0x3FA, 0x3FB); (0x3FD, 0x37B); (0x3FE, 0x37C); (0x3FF, 0x37D); (0x400, 0x450);
   (0x401, 0x451); (0x402, 0x452); (0x403, 0x453); (0x404, 0x454); (0x405, 0x455); (0x406, 0x456);
   (0x407, 0x457); (0x408, 0x458); (0x409, 0x459); (0x40A, 0x45A); (0x40B, 0x45B); (0x40C, 0x45C);
   (0x40D, 0x45D); (0x40E, 0x45E); (0x40F, 0x45F); (0x410, 0x430); (0x411, 0x431); (0x412, 0x432);
   (0x413, 0x433); (0x414, 0x434); (0x415, 0x435); (0x416, 0x436); (0x417, 0x437); (0x418, 0x438);
   (0x419, 0x439); (0x41A, 0x43A); (0x41B, 0x43B); (0x41C, 0x43C); (0x41D, 0x43D); (0x41E, 0x43E);
   (0x41F, 0x43F); (0x420, 0x440); (0x421, 0x441); (0x422, 0x442); (0x423, 0x443); (0x424, 0x444);
   (0x425, 0x445); (0x426, 0x446); (0x427, 0x447); (0x428, 0x448); (0x429, 0x449); (0x42A, 0x44A);
   (0x42B, 0x44B); (0x42C, 0x44C); (0x42D, 0x44D); (0x42E, 0x44E); (0x42F, 0x44F); (0x460, 0x461);
   (0x462, 0x463); (0x464, 0x465); (0x466, 0x467); (0x468, 0x469); (0x46A, 0x46B); (0x46C, 0x46D);
   (0x46E, 0x46F); (0x470, 0x471); (0x472, 0x473); (0x474, 0x475); (0x476, 0x477); (0x478, 0x479);
   (0x47A, 0x47B); (0x47C, 0x47D); (0x47E, 0x47F); (0x480, 0x481); (0x48A, 0x48B); (0x48C, 0x48D);
   (0x48E, 0x48F); (0x490, 0x491); (0x492, 0x493); (0x494, 0x495); (0x496, 0x497); (0x498, 0x499);
   (0x49A, 0x49B); (0x49C, 0x49D); (0x49E, 0x49F); (0x4A0, 0x4A1); (0x4A2, 0x4A3); (0x4A4, 0x4A5)
  ].

Definition lowercase_table_2 : list (Z * Z) :=
  [
   (0x4A6, 0x4A7); (0x4A8, 0x4A9); (0x4AA, 0x4AB); (0x4AC, 0x4AD); (0x4AE, 0x4AF); (0x4B0, 0x4B1);
   (0x4B2, 0x4B3); (0x4B4, 0x4B5); (0x4B6, 0x4B7); (0x4B8, 0x4B9); (0x4BA, 0x4BB); (0x4BC, 0x4BD);
   (0x4BE, 0x4BF); (0x4C0, 0x4CF); (0x4C1, 0x4C2); (0x4C3, 0x4C4); (0x4C5, 0x4C6); (0x4C7, 0x4C8);
   (0x4C9, 0x4CA); (0x4CB, 0x4CC); (0x4CD, 0x4CE); (0x4D0, 0x4D1); (0x4D2, 0x4D3); (0x4D4, 0x4D5);
   (0x4D6, 0x4D7); (0x4D8, 0x4D9); (0x4DA, 0x4DB); (0x4DC, 0x4DD); (0x4DE, 0x4DF); (0x4E0, 0x4E1);
   (0x4E2, 0x4E3); (0x4E4, 0x4E5); (0x4E6, 0x4E7); (0x4E8, 0x4E9); (0x4EA, 0x4EB); (0x4EC, 0x4ED);
   (0x4EE, 0x4EF); (0x4F0, 0x4F1); (0x4F2, 0x4F3); (0x4F4, 0x4F5); (0x4F6, 0x4F7); (0x4F8, 0x4F9);
   (0x4FA, 0x4FB); (0x4FC, 0x4FD); (0x4FE, 0x4FF); (0x500, 0x501); (0x502, 0x503); (0x504, 0x505);
   (0x506, 0x507); (0x508, 0x509); (0x50A, 0x50B); (0x50C, 0x50D); (0x50E, 0x50F); (0x510, 0x511);
   (0x512, 0x513); (0x514, 0x515); (0x516, 0x517); (0x518, 0x519); (0x51A, 0x51B); (0x51C, 0x51D);
   (0x51E, 0x51F); (0x520, 0x521); (0x522, 0x523); (0x524, 0x525); (0x526, 0x527); (0x528, 0x529);
   (0x52A, 0x52B); (0x52C, 0x52D); (0x52E, 0x52F); (0x531, 0x561); (0x532, 0x562); (0x533, 0x563);
   (0x534, 0x564); (0x535, 0x565); (0x536, 0x566); (0x537, 0x567); (0x538, 0x568); (0x539, 0x569);
   (0x53A, 0x56A); (0x53B, 0x56B); (0x53C, 0x56C); (0x53D, 0x56D); (0x53E, 0x56E); (0x53F, 0x56F);
   (0x540, 0x570); (0x541, 0x571); (0x542, 0x572); (0x543, 0x573); (0x544, 0x574); (0x545, 0x575);
   (0x546, 0x576); (0x547, 0x577); (0x548, 0x578); (0x549, 0x579); (0x54A, 0x57A); (0x54B, 0x57B);
   (0x54C, 0x57C); (0x54D, 0x57D); (0x54E, 0x57E); (0x54F, 0x57F); (0x550, 0x580); (0x551, 0x581);
   (0x552, 0x582); (0x553, 0x583); (0x554, 0x584); (0x555, 0x585); (0x556, 0x586); (0x10A0, 0x2D00);
   (0x10A1, 0x2D01); (0x10A2, 0x2D02); (0x10A3, 0x2D03); (0x10A4, 0x2D04); (0x10A5, 0x2D05); (0x10A6, 0x2D06);
   (0x10A7, 0x2D07); (0x10A8, 0x2D08); (0x10A9, 0x2D09); (0x10AA, 0x2D0A); (0x10AB, 0x2D0B); (0x10AC, 0x2D0C);
   (0x10AD, 0x2D0D); (0x10AE, 0x2D0E); (0x10AF, 0x2D0F); (0x10B0, 0x2D10); (0x10B1, 0x2D11); (0x10B2, 0x2D12);
   (0x10B3, 0x2D13); (0x10B4, 0x2D14); (0x10B5, 0x2D15); (0x10B6, 0x2D16); (0x10B7, 0x2D17); (0x10B8, 0x2D18);
   (0x10B9, 0x2D19); (0x10BA, 0x2D1A); (0x10BB, 0x2D1B); (0x10BC, 0x2D1C); (0x10BD, 0x2D1D); (0x10BE, 0x2D1E);
   (0x10BF, 0x2D1F); (0x10C0, 0x2D20); (0x10C1, 0x2D21); (0x10C2, 0x2D22); (0x10C3, 0x2D23); (0x10C4, 0x2D24);
   (0x10C5, 0x2D25); (0x10C7, 0x2D27); (0x10CD, 0x2D2D); (0x13A0, 0xAB70); (0x13A1, 0xAB71); (0x13A2, 0xAB72);
   (0x13A3, 0xAB73); (0x13A4, 0xAB74); (0x13A5, 0xAB75); (0x13A6, 0xAB76); (0x13A7, 0xAB77); (0x13A8, 0xAB78);
   (0x13A9, 0xAB79); (0x13AA, 0xAB7A); (0x13AB, 0xAB7B); (0x13AC, 0xAB7C); (0x13AD, 0xAB7D); (0x13AE, 0xAB7E);
   (0x13AF, 0xAB7F); (0x13B0, 0xAB80); (0x13B1, 0xAB81); (0x13B2, 0xAB82); (0x13B3, 0xAB83); (0x13B4, 0xAB84);
   (0x13B5, 0xAB85); (0x13B6, 0xAB86); (0x13B7, 0xAB87); (0x13B8, 0xAB88); (0x13B9, 0xAB89); (0x13BA, 0xAB8A);
   (0x13BB, 0xAB8B); (0x13BC, 0xAB8C); (0x13BD, 0xAB8D); (0x13BE, 0xAB8E); (0x13BF, 0xAB8F); (0x13C0, 0xAB90);
   (0x13C1, 0xAB91); (0x13C2, 0xAB92); (0x13C3, 0xAB93); (0x13C4, 0xAB94); (0x13C5, 0xAB95); (0x13C6, 0xAB96);
   (0x13C7, 0xAB97); (0x13C8, 0xAB98); (0x13C9, 0xAB99); (0x13CA, 0xAB9A); (0x13CB, 0xAB9B); (0x13CC, 0xAB9C);
   (0x13CD, 0xAB9D); (0x13CE, 0xAB9E); (0x13CF, 0xAB9F); (0x13D0, 0xABA0); (0x13D1, 0xABA1); (0x13D2, 0xABA2);
   (0x13D3, 0xABA3); (0x13D4, 0xABA4); (0x13D5, 0xABA5); (0x13D6, 0xABA6); (0x13D7, 0xABA7); (0x13D8, 0xABA8);
   (0x13D9, 0xABA9); (0x13DA, 0xABAA); (0x13DB, 0xABAB); (0x13DC, 0xABAC); (0x13DD, 0xABAD); (0x13DE, 0xABAE);
   (0x13DF, 0xABAF); (0x13E0, 0xABB0); (0x13E1, 0xABB1); (0x13E2, 0xABB2); (0x13E3, 0xABB3); (0x13E4, 0xABB4);
   (0x13E5, 0xABB5); (0x13E6, 0xABB6); (0x13E7, 0xABB7); (0x13E8, 0xABB8); (0x13E9, 0xABB9); (0x13EA, 0xABBA);
   (0x13EB, 0xABBB); (0x13EC, 0xABBC); (0x13ED, 0xABBD); (0x13EE, 0xABBE); (0x13EF, 0xABBF); (0x13F0, 0x13F8);
   (0x13F1, 0x13F9); (0x13F2, 0x13FA); (0x13F3, 0x13FB); (0x13F4, 0x13FC); (0x13F5, 0x13FD); (0x1C90, 0x10D0);
   (0x1C91, 0x10D1); (0x1C92, 0x10D2); (0x1C93, 0x10D3); (0x1C94, 0x10D4); (0x1C95, 0x10D5); (0x1C96, 0x10D6);
   (0x1C97, 0x10D7); (0x1C98, 0x10D8); (0x1C99, 0x10D9); (0x1C9A, 0x10DA); (0x1C9B, 0x10DB); (0x1C9C, 0x10DC);
   (0x1C9D, 0x10DD); (0x1C9E, 0x10DE); (0x1C9F, 0x10DF); (0x1CA0, 0x10E0); (0x1CA1, 0x10E1); (0x1CA2, 0x10E2);
   (0x1CA3, 0x10E3); (0x1CA4, 0x10E4); (0x1CA5, 0x10E5); (0x1CA6, 0x10E6); (0x1CA7, 0x10E7); (0x1CA8, 0x10E8);
   (0x1CA9, 0x10E9); (0x1CAA, 0x10EA); (0x1CAB, 0x10EB); (0x1CAC, 0x10EC); (0x1CAD, 0x10ED); (0x1CAE, 0x10EE);
   (0x1CAF, 0x10EF); (0x1CB0, 0x10F0); (0x1CB1, 0x10F1); (0x1CB2, 0x10F2); (0x1CB3, 0x10F3); (0x1CB4, 0x10F4);
   (0x1CB5, 0x10F5); (0x1CB6, 0x10F6); (0x1CB7, 0x10F7); (0x1CB8, 0x10F8); (0x1CB9, 0x10F9); (0x1CBA, 0x10FA);
   (0x1CBD, 0x10FD); (0x1CBE, 0x10FE); (0x1CBF, 0x10FF); (0x1E00, 0x1E01); (0x1E02, 0x1E03); (0x1E04, 0x1E05);
   (0x1E06, 0x1E07); (0x1E08, 0x1E09); (0x1E0A, 0x1E0B); (0x1E0C, 0x1E0D); (0x1E0E, 0x1E0F); (0x1E10, 0x1E11);
   (0x1E12, 0x1E13); (0x1E14, 0x1E15); (0x1E16, 0x1E17); (0x1E18, 0x1E19); (0x1E1A, 0x1E1B); (0x1E1C, 0x1E1D);
   (0x1E1E, 0x1E1F); (0x1E20, 0x1E21); (0x1E22, 0x1E23); (0x1E24, 0x1E25); (0x1E26, 0x1E27); (0x1E28, 0x1E29);
   (0x1E2A, 0x1E2B); (0x1E2C, 0x1E2D); (0x1E2E, 0x1E2F); (0x1E30, 0x1E31); (0x1E32, 0x1E33); (0x1E34, 0x1E35);
   (0x1E36, 0x1E37); (0x1E38, 0x1E39); (0x1E3A, 0x1E3B); (0x1E3C, 0x1E3D); (0x1E3E, 0x1E3F); (0x1E40, 0x1E41);
   (0x1E42, 0x1E43); (0x1E44, 0x1E45); (0x1E46, 0x1E47); (0x1E48, 0x1E49); (0x1E4A, 0x1E4B); (0x1E4C, 0x1E4D);
   (0x1E4E, 0x1E4F); (0x1E50, 0x1E51); (0x1E52, 0x1E53); (0x1E54, 0x1E55); (0x1E56, 0x1E57); (0x1E58, 0x1E59);
   (0x1E5A, 0x1E5B); (0x1E5C, 0x1E5D); (0x1E5E, 0x1E5F); (0x1E60, 0x1E61); (0x1E62, 0x1E63); (0x1E64, 0x1E65);
   (0x1E66, 0x1E67); (0x1E68, 0x1E69); (0x1E6A, 0x1E6B); (0x1E6C, 0x1E6D); (0x1E6E, 0x1E6F); (0x1E70, 0x1E71);
   (0x1E72, 0x1E73); (0x1E74, 0x1E75); (0x1E76, 0x1E77); (0x1E78, 0x1E79); (0x1E7A, 0x1E7B); (0x1E7C, 0x1E7D);
   (0x1E7E, 0x1E7F); (0x1E80, 0x1E81); (0x1E82, 0x1E83); (0x1E84, 0x1E85); (0x1E86, 0x1E87); (0x1E88, 0x1E89);
   (0x1E8A, 0x1E8B); (0x1E8C, 0x1E8D); (0x1E8E, 0x1E8F); (0x1E90, 0x1E91); (0x1E92, 0x1E93); (0x1E94, 0x1E95);
   (0x1E9E, 0xDF); (0x1EA0, 0x1EA1); (0x1EA2, 0x1EA3); (0x1EA4, 0x1EA5); (0x1EA6, 0x1EA7); (0x1EA8, 0x1EA9)
  ].

Definition lowercase_table_3 : list (Z * Z) :=
  [
   (0x1EAA, 0x1EAB); (0x1EAC, 0x1EAD); (0x1EAE, 0x1EAF); (0x1EB0, 0x1EB1); (0x1EB2, 0x1EB3); (0x1EB4, 0x1EB5);
   (0x1EB6, 0x1EB7); (0x1EB8, 0x1EB9); (0x1EBA, 0x1EBB); (0x1EBC, 0x1EBD); (0x1EBE, 0x1EBF); (0x1EC0, 0x1EC1);
   (0x1EC2, 0x1EC3); (0x1EC4, 0x1EC5); (0x1EC6, 0x1EC7); (0x1EC8, 0x1EC9); (0x1ECA, 0x1ECB); (0x1ECC, 0x1ECD);
   (0x1ECE, 0x1ECF); (0x1ED0, 0x1ED1); (0x1ED2, 0x1ED3); (0x1ED4, 0x1ED5); (0x1ED6, 0x1ED7); (0x1ED8, 0x1ED9);
   (0x1EDA, 0x1EDB); (0x1EDC, 0x1EDD); (0x1EDE, 0x1EDF); (0x1EE0, 0x1EE1); (0x1EE2, 0x1EE3); (0x1EE4, 0x1EE5);
   (0x1EE6, 0x1EE7); (0x1EE8, 0x1EE9); (0x1EEA, 0x1EEB); (0x1EEC, 0x1EED); (0x1EEE, 0x1EEF); (0x1EF0, 0x1EF1);
   (0x1EF2, 0x1EF3); (0x1EF4, 0x1EF5); (0x1EF6, 0x1EF7); (0x1EF8, 0x1EF9); (0x1EFA, 0x1EFB); (0x1EFC, 0x1EFD);
   (0x1EFE, 0x1EFF); (0x1F08, 0x1F00); (0x1F09, 0x1F01); (0x1F0A, 0x1F02); (0x1F0B, 0x1F03); (0x1F0C, 0x1F04);
   (0x1F0D, 0x1F05); (0x1F0E, 0x1F06); (0x1F0F, 0x1F07); (0x1F18, 0x1F10); (0x1F19, 0x1F11); (0x1F1A, 0x1F12);
   (0x1F1B, 0x1F13); (0x1F1C, 0x1F14); (0x1F1D, 0x1F15); (0x1F28, 0x1F20); (0x1F29, 0x1F21); (0x1F2A, 0x1F22);
   (0x1F2B, 0x1F23); (0x1F2C, 0x1F24); (0x1F2D, 0x1F25); (0x1F2E, 0x1F26); (0x1F2F, 0x1F27); (0x1F38, 0x1F30);
   (0x1F39, 0x1F31); (0x1F3A, 0x1F32); (0x1F3B, 0x1F33); (0x1F3C, 0x1F34); (0x1F3D, 0x1F35); (0x1F3E, 0x1F36);
   (0x1F3F, 0x1F37); (0x1F48, 0x1F40); (0x1F49, 0x1F41); (0x1F4A, 0x1F42); (0x1F4B, 0x1F43); (0x1F4C, 0x1F44);
   (0x1F4D, 0x1F45); (0x1F59, 0x1F51); (0x1F5B, 0x1F53); (0x1F5D, 0x1F55); (0x1F5F, 0x1F57); (0x1F68, 0x1F60);
   (0x1F69, 0x1F61); (0x1F6A, 0x1F62); (0x1F6B, 0x1F63); (0x1F6C, 0x1F64); (0x1F6D, 0x1F65); (0x1F6E, 0x1F66);
   (0x1F6F, 0x1F67); (0x1F88, 0x1F80); (0x1F89, 0x1F81); (0x1F8A, 0x1F82); (0x1F8B, 0x1F83); (0x1F8C, 0x1F84);
   (0x1F8D, 0x1F85); (0x1F8E, 0x1F86); (0x1F8F, 0x1F87); (0x1F98, 0x1F90); (0x1F99, 0x1F91); (0x1F9A, 0x1F92);
   (0x1F9B, 0x1F93); (0x1F9C, 0x1F94); (0x1F9D, 0x1F95); (0x1F9E, 0x1F96); (0x1F9F, 0x1F97); (0x1FA8, 0x1FA0);
   (0x1FA9, 0x1FA1); (0x1FAA, 0x1FA2); (0x1FAB, 0x1FA3); (0x1FAC, 0x1FA4); (0x1FAD, 0x1FA5); (0x1FAE, 0x1FA6);
   (0x1FAF, 0x1FA7); (0x1FB8, 0x1FB0); (0x1FB9, 0x1FB1); (0x1FBA, 0x1F70); (0x1FBB, 0x1F71); (0x1FBC, 0x1FB3);
   (0x1FC8, 0x1F72); (0x1FC9, 0x1F73); (0x1FCA, 0x1F74); (0x1FCB, 0x1F75); (0x1FCC, 0x1FC3); (0x1FD8, 0x1FD0);
   (0x1FD9, 0x1FD1); (0x1FDA, 0x1F76); (0x1FDB, 0x1F77); (0x1FE8, 0x1FE0); (0x1FE9, 0x1FE1); (0x1FEA, 0x1F7A);
   (0x1FEB, 0x1F7B); (0x1FEC, 0x1FE5); (0x1FF8, 0x1F78); (0x1FF9, 0x1F79); (0x1FFA, 0x1F7C); (0x1FFB, 0x1F7D);
   (0x1FFC, 0x1FF3); (0x2126, 0x3C9); (0x212A, 0x6B); (0x212B, 0xE5); (0x2132, 0x214E); (0x2160, 0x2170);
   (0x2161, 0x2171); (0x2162, 0x2172); (0x2163, 0x2173); (0x2164, 0x2174); (0x2165, 0x2175); (0x2166, 0x2176);
   (0x2167, 0x2177); (0x2168, 0x2178); (0x2169, 0x2179); (0x216A, 0x217A); (0x216B, 0x217B); (0x216C, 0x217C);
   (0x216D, 0x217D); (0x216E, 0x217E); (0x216F, 0x217F); (0x2183, 0x2184); (0x24B6, 0x24D0); (0x24B7, 0x24D1);
   (0x24B8, 0x24D2); (0x24B9, 0x24D3); (0x24BA, 0x24D4); (0x24BB, 0x24D5); (0x24BC, 0x24D6); (0x24BD, 0x24D7);
   (0x24BE, 0x24D8); (0x24BF, 0x24D9); (0x24C0, 0x24DA); (0x24C1, 0x24DB); (0x24C2, 0x24DC); (0x24C3, 0x24DD);
   (0x24C4, 0x24DE); (0x24C5, 0x24DF); (0x24C6, 0x24E0); (0x24C7, 0x24E1); (0x24C8, 0x24E2); (0x24C9, 0x24E3);
   (0x24CA, 0x24E4); (0x24CB, 0x24E5); (0x24CC, 0x24E6); (0x24CD, 0x24E7); (0x24CE, 0x24E8); (0x24CF, 0x24E9);
   (0x2C00, 0x2C30); (0x2C01, 0x2C31); (0x2C02, 0x2C32); (0x2C03, 0x2C33); (0x2C04, 0x2C34); (0x2C05, 0x2C35);
   (0x2C06, 0x2C36); (0x2C07, 0x2C37); (0x2C08, 0x2C38); (0x2C09, 0x2C39); (0x2C0A, 0x2C3A); (0x2C0B, 0x2C3B);
   (0x2C0C, 0x2C3C); (0x2C0D, 0x2C3D); (0x2C0E, 0x2C3E); (0x2C0F, 0x2C3F); (0x2C10, 0x2C40); (0x2C11, 0x2C41);
   (0x2C12, 0x2C42); (0x2C13, 0x2C43); (0x2C14, 0x2C44); (0x2C15, 0x2C45); (0x2C16, 0x2C46); (0x2C17, 0x2C47);
   (0x2C18, 0x2C48); (0x2C19, 0x2C49); (0x2C1A, 0x2C4A); (0x2C1B, 0x2C4B); (0x2C1C, 0x2C4C); (0x2C1D, 0x2C4D);
   (0x2C1E, 0x2C4E); (0x2C1F, 0x2C4F); (0x2C20, 0x2C50); (0x2C21, 0x2C51); (0x2C22, 0x2C52); (0x2C23, 0x2C53);
   (0x2C24, 0x2C54); (0x2C25, 0x2C55); (0x2C26, 0x2C56); (0x2C27, 0x2C57); (0x2C28, 0x2C58); (0x2C29, 0x2C59);
   (0x2C2A, 0x2C5A); (0x2C2B, 0x2C5B); (0x2C2C, 0x2C5C); (0x2C2D, 0x2C5D); (0x2C2E, 0x2C5E); (0x2C2F, 0x2C5F);
   (0x2C60, 0x2C61); (0x2C62, 0x26B); (0x2C63, 0x1D7D); (0x2C64, 0x27D); (0x2C67, 0x2C68); (0x2C69, 0x2C6A);
   (0x2C6B, 0x2C6C); (0x2C6D, 0x251); (0x2C6E, 0x271); (0x2C6F, 0x250); (0x2C70, 0x252); (0x2C72, 0x2C73);
   (0x2C75, 0x2C76); (0x2C7E, 0x23F); (0x2C7F, 0x240); (0x2C80, 0x2C81); (0x2C82, 0x2C83); (0x2C84, 0x2C85);
   (0x2C86, 0x2C87); (0x2C88, 0x2C89); (0x2C8A, 0x2C8B); (0x2C8C, 0x2C8D); (0x2C8E, 0x2C8F); (0x2C90, 0x2C91);
   (0x2C92, 0x2C93); (0x2C94, 0x2C95); (0x2C96, 0x2C97); (0x2C98, 0x2C99); (0x2C9A, 0x2C9B); (0x2C9C, 0x2C9D);
   (0x2C9E, 0x2C9F); (0x2CA0, 0x2CA1); (0x2CA2, 0x2CA3); (0x2CA4, 0x2CA5); (0x2CA6, 0x2CA7); (0x2CA8, 0x2CA9);
   (0x2CAA, 0x2CAB); (0x2CAC, 0x2CAD); (0x2CAE, 0x2CAF); (0x2CB0, 0x2CB1); (0x2CB2, 0x2CB3); (0x2CB4, 0x2CB5);
   (0x2CB6, 0x2CB7); (0x2CB8, 0x2CB9); (0x2CBA, 0x2CBB); (0x2CBC, 0x2CBD); (0x2CBE, 0x2CBF); (0x2CC0, 0x2CC1);
   (0x2CC2, 0x2CC3); (0x2CC4, 0x2CC5); (0x2CC6, 0x2CC7); (0x2CC8, 0x2CC9); (0x2CCA, 0x2CCB); (0x2CCC, 0x2CCD);
   (0x2CCE, 0x2CCF); (0x2CD0, 0x2CD1); (0x2CD2, 0x2CD3); (0x2CD4, 0x2CD5); (0x2CD6, 0x2CD7); (0x2CD8, 0x2CD9);
   (0x2CDA, 0x2CDB); (0x2CDC, 0x2CDD); (0x2CDE, 0x2CDF); (0x2CE0, 0x2CE1); (0x2CE2, 0x2CE3); (0x2CEB, 0x2CEC);
   (0x2CED, 0x2CEE); (0x2CF2, 0x2CF3); (0xA640, 0xA641); (0xA642, 0xA643); (0xA644, 0xA645); (0xA646, 0xA647);
   (0xA648, 0xA649); (0xA64A, 0xA64B); (0xA64C, 0xA64D); (0xA64E, 0xA64F); (0xA650, 0xA651); (0xA652, 0xA653);
   (0xA654, 0xA655); (0xA656, 0xA657); (0xA658, 0xA659); (0xA65A, 0xA65B); (0xA65C, 0xA65D); (0xA65E, 0xA65F);
   (0xA660, 0xA661); (0xA662, 0xA663); (0xA664, 0xA665); (0xA666, 0xA667); (0xA668, 0xA669); (0xA66A, 0xA66B);
   (0xA66C, 0xA66D); (0xA680, 0xA681); (0xA682, 0xA683); (0xA684, 0xA685); (0xA686, 0xA687); (0xA688, 0xA689);
   (0xA68A, 0xA68B); (0xA68C, 0xA68D); (0xA68E, 0xA68F); (0xA690, 0xA691); (0xA692, 0xA693); (0xA694, 0xA695);
   (0xA696, 0xA697); (0xA698, 0xA699); (0xA69A, 0xA69B); (0xA722, 0xA723); (0xA724, 0xA725); (0xA726, 0xA727);
   (0xA728, 0xA729); (0xA72A, 0xA72B); (0xA72C, 0xA72D); (0xA72E, 0xA72F); (0xA732, 0xA733); (0xA734, 0xA735);
   (0xA736, 0xA737); (0xA738, 0xA739); (0xA73A, 0xA73B); (0xA73C, 0xA73D); (0xA73E, 0xA73F); (0xA740, 0xA741);
   (0xA742, 0xA743); (0xA744, 0xA745); (0xA746, 0xA747); (0xA748, 0xA749); (0xA74A, 0xA74B); (0xA74C, 0xA74D)
  ].

Definition lowercase_table_4 : list (Z * Z) :=
  [
   (0xA74E, 0xA74F); (0xA750, 0xA751); (0xA752, 0xA753); (0xA754, 0xA755); (0xA756, 0xA757); (0xA758, 0xA759);
   (0xA75A, 0xA75B); (0xA75C, 0xA75D); (0xA75E, 0xA75F); (0xA760, 0xA761); (0xA762, 0xA763); (0xA764, 0xA765);
   (0xA766, 0xA767); (0xA768, 0xA769); (0xA76A, 0xA76B); (0xA76C, 0xA76D); (0xA76E, 0xA76F); (0xA779, 0xA77A);
   (0xA77B, 0xA77C); (0xA77D, 0x1D79); (0xA77E, 0xA77F); (0xA780, 0xA781); (0xA782, 0xA783); (0xA784, 0xA785);
   (0xA786, 0xA787); (0xA78B, 0xA78C); (0xA78D, 0x265); (0xA790, 0xA791); (0xA792, 0xA793); (0xA796, 0xA797);
   (0xA798, 0xA799); (0xA79A, 0xA79B); (0xA79C, 0xA79D); (0xA79E, 0xA79F); (0xA7A0, 0xA7A1); (0xA7A2, 0xA7A3);
   (0xA7A4, 0xA7A5); (0xA7A6, 0xA7A7); (0xA7A8, 0xA7A9); (0xA7AA, 0x266); (0xA7AB, 0x25C); (0xA7AC, 0x261);
   (0xA7AD, 0x26C); (0xA7AE, 0x26A); (0xA7B0, 0x29E); (0xA7B1, 0x287); (0xA7B2, 0x29D); (0xA7B3, 0xAB53);
   (0xA7B4, 0xA7B5); (0xA7B6, 0xA7B7); (0xA7B8, 0xA7B9); (0xA7BA, 0xA7BB); (0xA7BC, 0xA7BD); (0xA7BE, 0xA7BF);
   (0xA7C0, 0xA7C1); (0xA7C2, 0xA7C3); (0xA7C4, 0xA794); (0xA7C5, 0x282); (0xA7C6, 0x1D8E); (0xA7C7, 0xA7C8);
   (0xA7C9, 0xA7CA); (0xA7D0, 0xA7D1); (0xA7D6, 0xA7D7); (0xA7D8, 0xA7D9); (0xA7F5, 0xA7F6); (0xFF21, 0xFF41);
   (0xFF22, 0xFF42); (0xFF23, 0xFF43); (0xFF24, 0xFF44); (0xFF25, 0xFF45); (0xFF26, 0xFF46); (0xFF27, 0xFF47);
   (0xFF28, 0xFF48); (0xFF29, 0xFF49); (0xFF2A, 0xFF4A); (0xFF2B, 0xFF4B); (0xFF2C, 0xFF4C); (0xFF2D, 0xFF4D);
   (0xFF2E, 0xFF4E); (0xFF2F, 0xFF4F); (0xFF30, 0xFF50); (0xFF31, 0xFF51); (0xFF32, 0xFF52); (0xFF33, 0xFF53);
   (0xFF34, 0xFF54); (0xFF35, 0xFF55); (0xFF36, 0xFF56); (0xFF37, 0xFF57); (0xFF38, 0xFF58); (0xFF39, 0xFF59);
   (0xFF3A, 0xFF5A); (0x10400, 0x10428); (0x10401, 0x10429); (0x10402, 0x1042A); (0x10403, 0x1042B); (0x10404, 0x1042C);
   (0x10405, 0x1042D); (0x10406, 0x1042E); (0x10407, 0x1042F); (0x10408, 0x10430); (0x10409, 0x10431); (0x1040A, 0x10432);
   (0x1040B, 0x10433); (0x1040C, 0x10434); (0x1040D, 0x10435); (0x1040E, 0x10436); (0x1040F, 0x10437); (0x10410, 0x10438);
   (0x10411, 0x10439); (0x10412, 0x1043A); (0x10413, 0x1043B); (0x10414, 0x1043C); (0x10415, 0x1043D); (0x10416, 0x1043E);
   (0x10417, 0x1043F); (0x10418, 0x10440); (0x10419, 0x10441); (0x1041A, 0x10442); (0x1041B, 0x10443); (0x1041C, 0x10444);
   (0x1041D, 0x10445); (0x1041E, 0x10446); (0x1041F, 0x10447); (0x10420, 0x10448); (0x10421, 0x10449); (0x10422, 0x1044A);
   (0x10423, 0x1044B); (0x10424, 0x1044C); (0x10425, 0x1044D); (0x10426, 0x1044E); (0x10427, 0x1044F); (0x104B0, 0x104D8);
   (0x104B1, 0x104D9); (0x104B2, 0x104DA); (0x104B3, 0x104DB); (0x104B4, 0x104DC); (0x104B5, 0x104DD); (0x104B6, 0x104DE);
   (0x104B7, 0x104DF); (0x104B8, 0x104E0); (0x104B9, 0x104E1); (0x104BA, 0x104E2); (0x104BB, 0x104E3); (0x104BC, 0x104E4);
   (0x104BD, 0x104E5); (0x104BE, 0x104E6); (0x104BF, 0x104E7); (0x104C0, 0x104E8); (0x104C1, 0x104E9); (0x104C2, 0x104EA);
   (0x104C3, 0x104EB); (0x104C4, 0x104EC); (0x104C5, 0x104ED); (0x104C6, 0x104EE); (0x104C7, 0x104EF); (0x104C8, 0x104F0);
   (0x104C9, 0x104F1); (0x104CA, 0x104F2); (0x104CB, 0x104F3); (0x104CC, 0x104F4); (0x104CD, 0x104F5); (0x104CE, 0x104F6);
   (0x104CF, 0x104F7); (0x104D0, 0x104F8); (0x104D1, 0x104F9); (0x104D2, 0x104FA); (0x104D3, 0x104FB); (0x10570, 0x10597);
   (0x10571, 0x10598); (0x10572, 0x10599); (0x10573, 0x1059A); (0x10574, 0x1059B); (0x10575, 0x1059C); (0x10576, 0x1059D);
   (0x10577, 0x1059E); (0x10578, 0x1059F); (0x10579, 0x105A0); (0x1057A, 0x105A1); (0x1057C, 0x105A3); (0x1057D, 0x105A4);
   (0x1057E, 0x105A5); (0x1057F, 0x105A6); (0x10580, 0x105A7); (0x10581, 0x105A8); (0x10582, 0x105A9); (0x10583, 0x105AA);
   (0x10584, 0x105AB); (0x10585, 0x105AC); (0x10586, 0x105AD); (0x10587, 0x105AE); (0x10588, 0x105AF); (0x10589, 0x105B0);
   (0x1058A, 0x105B1); (0x1058C, 0x105B3); (0x1058D, 0x105B4); (0x1058E, 0x105B5); (0x1058F, 0x105B6); (0x10590, 0x105B7);
   (0x10591, 0x105B8); (0x10592, 0x105B9); (0x10594, 0x105BB); (0x10595, 0x105BC); (0x10C80, 0x10CC0); (0x10C81, 0x10CC1);
   (0x10C82, 0x10CC2); (0x10C83, 0x10CC3); (0x10C84, 0x10CC4); (0x10C85, 0x10CC5); (0x10C86, 0x10CC6); (0x10C87, 0x10CC7);
   (0x10C88, 0x10CC8); (0x10C89, 0x10CC9); (0x10C8A, 0x10CCA); (0x10C8B, 0x10CCB); (0x10C8C, 0x10CCC); (0x10C8D, 0x10CCD);
   (0x10C8E, 0x10CCE); (0x10C8F, 0x10CCF); (0x10C90, 0x10CD0); (0x10C91, 0x10CD1); (0x10C92, 0x10CD2); (0x10C93, 0x10CD3);
   (0x10C94, 0x10CD4); (0x10C95, 0x10CD5); (0x10C96, 0x10CD6); (0x10C97, 0x10CD7); (0x10C98, 0x10CD8); (0x10C99, 0x10CD9);
   (0x10C9A, 0x10CDA); (0x10C9B, 0x10CDB); (0x10C9C, 0x10CDC); (0x10C9D, 0x10CDD); (0x10C9E, 0x10CDE); (0x10C9F, 0x10CDF);
   (0x10CA0, 0x10CE0); (0x10CA1, 0x10CE1); (0x10CA2, 0x10CE2); (0x10CA3, 0x10CE3); (0x10CA4, 0x10CE4); (0x10CA5, 0x10CE5);
   (0x10CA6, 0x10CE6); (0x10CA7, 0x10CE7); (0x10CA8, 0x10CE8); (0x10CA9, 0x10CE9); (0x10CAA, 0x10CEA); (0x10CAB, 0x10CEB);
   (0x10CAC, 0x10CEC); (0x10CAD, 0x10CED); (0x10CAE, 0x10CEE); (0x10CAF, 0x10CEF); (0x10CB0, 0x10CF0); (0x10CB1, 0x10CF1);
   (0x10CB2, 0x10CF2); (0x118A0, 0x118C0); (0x118A1, 0x118C1); (0x118A2, 0x118C2); (0x118A3, 0x118C3); (0x118A4, 0x118C4);
   (0x118A5, 0x118C5); (0x118A6, 0x118C6); (0x118A7, 0x118C7); (0x118A8, 0x118C8); (0x118A9, 0x118C9); (0x118AA, 0x118CA);
   (0x118AB, 0x118CB); (0x118AC, 0x118CC); (0x118AD, 0x118CD); (0x118AE, 0x118CE); (0x118AF, 0x118CF); (0x118B0, 0x118D0);
   (0x118B1, 0x118D1); (0x118B2, 0x118D2); (0x118B3, 0x118D3); (0x118B4, 0x118D4); (0x118B5, 0x118D5); (0x118B6, 0x118D6);
   (0x118B7, 0x118D7); (0x118B8, 0x118D8); (0x118B9, 0x118D9); (0x118BA, 0x118DA); (0x118BB, 0x118DB); (0x118BC, 0x118DC);
   (0x118BD, 0x118DD); (0x118BE, 0x118DE); (0x118BF, 0x118DF); (0x16E40, 0x16E60); (0x16E41, 0x16E61); (0x16E42, 0x16E62);
   (0x16E43, 0x16E63); (0x16E44, 0x16E64); (0x16E45, 0x16E65); (0x16E46, 0x16E66); (0x16E47, 0x16E67); (0x16E48, 0x16E68);
   (0x16E49, 0x16E69); (0x16E4A, 0x16E6A); (0x16E4B, 0x16E6B); (0x16E4C, 0x16E6C); (0x16E4D, 0x16E6D); (0x16E4E, 0x16E6E);
   (0x16E4F, 0x16E6F); (0x16E50, 0x16E70); (0x16E51, 0x16E71); (0x16E52, 0x16E72); (0x16E53, 0x16E73); (0x16E54, 0x16E74);
   (0x16E55, 0x16E75); (0x16E56, 0x16E76); (0x16E57, 0x16E77); (0x16E58, 0x16E78); (0x16E59, 0x16E79); (0x16E5A, 0x16E7A);
   (0x16E5B, 0x16E7B); (0x16E5C, 0x16E7C); (0x16E5D, 0x16E7D); (0x16E5E, 0x16E7E); (0x16E5F, 0x16E7F); (0x1E900, 0x1E922);
   (0x1E901, 0x1E923); (0x1E902, 0x1E924); (0x1E903, 0x1E925); (0x1E904, 0x1E926); (0x1E905, 0x1E927); (0x1E906, 0x1E928);
   (0x1E907, 0x1E929); (0x1E908, 0x1E92A); (0x1E909, 0x1E92B); (0x1E90A, 0x1E92C); (0x1E90B, 0x1E92D); (0x1E90C, 0x1E92E);
   (0x1E90D, 0x1E92F); (0x1E90E, 0x1E930); (0x1E90F, 0x1E931); (0x1E910, 0x1E932); (0x1E911, 0x1E933); (0x1E912, 0x1E934);
   (0x1E913, 0x1E935); (0x1E914, 0x1E936); (0x1E915, 0x1E937); (0x1E916, 0x1E938); (0x1E917, 0x1E939); (0x1E918, 0x1E93A);
   (0x1E919, 0x1E93B); (0x1E91A, 0x1E93C); (0x1E91B, 0x1E93D); (0x1E91C, 0x1E93E); (0x1E91D, 0x1E93F); (0x1E91E, 0x1E940);
   (0x1E91F, 0x1E941); (0x1E920, 0x1E942); (0x1E921, 0x1E943)
  ].

(** The simple lowercase mappings of the Unicode Character Database (version 14.0), except those of U+03A3 (context dependent) and U+0130 (two code points). *)
Definition lowercase_table : list (Z * Z) :=
  lowercase_table_1 ++
  lowercase_table_2 ++
  lowercase_table_3 ++
  lowercase_table_4.
Definition combining_class_ranges_1 : list (Z * Z * Z) :=
  [
   (0x300, 0x314, 230); (0x315, 0x315, 232); (0x316, 0x319, 220); (0x31A, 0x31A, 232);
   (0x31B, 0x31B, 216); (0x31C, 0x320, 220); (0x321, 0x322, 202); (0x323, 0x326, 220);
   (0x327, 0x328, 202); (0x329, 0x333, 220); (0x334, 0x338, 1); (0x339, 0x33C, 220);
   (0x33D, 0x344, 230); (0x345, 0x345, 240); (0x346, 0x346, 230); (0x347, 0x349, 220);
   (0x34A, 0x34C, 230); (0x34D, 0x34E, 220); (0x350, 0x352, 230); (0x353, 0x356, 220);
   (0x357, 0x357, 230); (0x358, 0x358, 232); (0x359, 0x35A, 220); (0x35B, 0x35B, 230);
   (0x35C, 0x35C, 233); (0x35D, 0x35E, 234); (0x35F, 0x35F, 233); (0x360, 0x361, 234);
   (0x362, 0x362, 233); (0x363, 0x36F, 230); (0x483, 0x487, 230); (0x591, 0x591, 220);
   (0x592, 0x595, 230); (0x596, 0x596, 220); (0x597, 0x599, 230); (0x59A, 0x59A, 222);
   (0x59B, 0x59B, 220); (0x59C, 0x5A1, 230); (0x5A2, 0x5A7, 220); (0x5A8, 0x5A9, 230);
   (0x5AA, 0x5AA, 220); (0x5AB, 0x5AC, 230); (0x5AD, 0x5AD, 222); (0x5AE, 0x5AE, 228);
   (0x5AF, 0x5AF, 230); (0x5B0, 0x5B0, 10); (0x5B1, 0x5B1, 11); (0x5B2, 0x5B2, 12);
   (0x5B3, 0x5B3, 13); (0x5B4, 0x5B4, 14); (0x5B5, 0x5B5, 15); (0x5B6, 0x5B6, 16);
   (0x5B7, 0x5B7, 17); (0x5B8, 0x5B8, 18); (0x5B9, 0x5BA, 19); (0x5BB, 0x5BB, 20);
   (0x5BC, 0x5BC, 21); (0x5BD, 0x5BD, 22); (0x5BF, 0x5BF, 23); (0x5C1, 0x5C1, 24);
   (0x5C2, 0x5C2, 25); (0x5C4, 0x5C4, 230); (0x5C5, 0x5C5, 220); (0x5C7, 0x5C7, 18);
   (0x610, 0x617, 230); (0x618, 0x618, 30); (0x619, 0x619, 31); (0x61A, 0x61A, 32);
   (0x64B, 0x64B, 27); (0x64C, 0x64C, 28); (0x64D, 0x64D, 29); (0x64E, 0x64E, 30);
   (0x64F, 0x64F, 31); (0x650, 0x650, 32); (0x651, 0x651, 33); (0x652, 0x652, 34);
   (0x653, 0x654, 230); (0x655, 0x656, 220); (0x657, 0x65B, 230); (0x65C, 0x65C, 220);
   (0x65D, 0x65E, 230); (0x65F, 0x65F, 220); (0x670, 0x670, 35); (0x6D6, 0x6DC, 230);
   (0x6DF, 0x6E2, 230); (0x6E3, 0x6E3, 220); (0x6E4, 0x6E4, 230); (0x6E7, 0x6E8, 230);
   (0x6EA, 0x6EA, 220); (0x6EB, 0x6EC, 230); (0x6ED, 0x6ED, 220); (0x711, 0x711, 36);
   (0x730, 0x730, 230); (0x731, 0x731, 220); (0x732, 0x733, 230); (0x734, 0x734, 220);
   (0x735, 0x736, 230); (0x737, 0x739, 220); (0x73A, 0x73A, 230); (0x73B, 0x73C, 220);
   (0x73D, 0x73D, 230); (0x73E, 0x73E, 220); (0x73F, 0x741, 230); (0x742, 0x742, 220);
   (0x743, 0x743, 230); (0x744, 0x744, 220); (0x745, 0x745, 230); (0x746, 0x746, 220);
   (0x747, 0x747, 230); (0x748, 0x748, 220); (0x749, 0x74A, 230); (0x7EB, 0x7F1, 230);
   (0x7F2, 0x7F2, 220); (0x7F3, 0x7F3, 230); (0x7FD, 0x7FD, 220); (0x816, 0x819, 230);
   (0x81B, 0x823, 230); (0x825, 0x827, 230); (0x829, 0x82D, 230); (0x859, 0x85B, 220);
   (0x898, 0x898, 230); (0x899, 0x89B, 220); (0x89C, 0x89F, 230); (0x8CA, 0x8CE, 230);
   (0x8CF, 0x8D3, 220); (0x8D4, 0x8E1, 230); (0x8E3, 0x8E3, 220); (0x8E4, 0x8E5, 230);
   (0x8E6, 0x8E6, 220); (0x8E7, 0x8E8, 230); (0x8E9, 0x8E9, 220); (0x8EA, 0x8EC, 230);
   (0x8ED, 0x8EF, 220); (0x8F0, 0x8F0, 27); (0x8F1, 0x8F1, 28); (0x8F2, 0x8F2, 29);
   (0x8F3, 0x8F5, 230); (0x8F6, 0x8F6, 220); (0x8F7, 0x8F8, 230); (0x8F9, 0x8FA, 220);
   (0x8FB, 0x8FF, 230); (0x93C, 0x93C, 7); (0x94D, 0x94D, 9); (0x951, 0x951, 230);
   (0x952, 0x952, 220); (0x953, 0x954, 230); (0x9BC, 0x9BC, 7); (0x9CD, 0x9CD, 9);
   (0x9FE, 0x9FE, 230); (0xA3C, 0xA3C, 7); (0xA4D, 0xA4D, 9); (0xABC, 0xABC, 7);
   (0xACD, 0xACD, 9); (0xB3C, 0xB3C, 7); (0xB4D, 0xB4D, 9); (0xBCD, 0xBCD, 9);
   (0xC3C, 0xC3C, 7); (0xC4D, 0xC4D, 9); (0xC55, 0xC55, 84); (0xC56, 0xC56, 91);
   (0xCBC, 0xCBC, 7); (0xCCD, 0xCCD, 9); (0xD3B, 0xD3C, 9); (0xD4D, 0xD4D, 9);
   (0xDCA, 0xDCA, 9); (0xE38, 0xE39, 103); (0xE3A, 0xE3A, 9); (0xE48, 0xE4B, 107);
   (0xEB8, 0xEB9, 118); (0xEBA, 0xEBA, 9); (0xEC8, 0xECB, 122); (0xF18, 0xF19, 220);
   (0xF35, 0xF35, 220); (0xF37, 0xF37, 220); (0xF39, 0xF39, 216); (0xF71, 0xF71, 129);
   (0xF72, 0xF72, 130); (0xF74, 0xF74, 132); (0xF7A, 0xF7D, 130); (0xF80, 0xF80, 130);
   (0xF82, 0xF83, 230); (0xF84, 0xF84, 9); (0xF86, 0xF87, 230); (0xFC6, 0xFC6, 220);
   (0x1037, 0x1037, 7); (0x1039, 0x103A, 9); (0x108D, 0x108D, 220); (0x135D, 0x135F, 230);
   (0x1714, 0x1715, 9); (0x1734, 0x1734, 9); (0x17D2, 0x17D2, 9); (0x17DD, 0x17DD, 230);
   (0x18A9, 0x18A9, 228); (0x1939, 0x1939, 222); (0x193A, 0x193A, 230); (0x193B, 0x193B, 220);
   (0x1A17, 0x1A17, 230); (0x1A18, 0x1A18, 220); (0x1A60, 0x1A60, 9); (0x1A75, 0x1A7C, 230)
  ].

Definition combining_class_ranges_2 : list (Z * Z * Z) :=
  [
   (0x1A7F, 0x1A7F, 220); (0x1AB0, 0x1AB4, 230); (0x1AB5, 0x1ABA, 220); (0x1ABB, 0x1ABC, 230);
   (0x1ABD, 0x1ABD, 220); (0x1ABF, 0x1AC0, 220); (0x1AC1, 0x1AC2, 230); (0x1AC3, 0x1AC4, 220);
   (0x1AC5, 0x1AC9, 230); (0x1ACA, 0x1ACA, 220); (0x1ACB, 0x1ACE, 230); (0x1B34, 0x1B34, 7);
   (0x1B44, 0x1B44, 9); (0x1B6B, 0x1B6B, 230); (0x1B6C, 0x1B6C, 220); (0x1B6D, 0x1B73, 230);
   (0x1BAA, 0x1BAB, 9); (0x1BE6, 0x1BE6, 7); (0x1BF2, 0x1BF3, 9); (0x1C37, 0x1C37, 7);
   (0x1CD0, 0x1CD2, 230); (0x1CD4, 0x1CD4, 1); (0x1CD5, 0x1CD9, 220); (0x1CDA, 0x1CDB, 230);
   (0x1CDC, 0x1CDF, 220); (0x1CE0, 0x1CE0, 230); (0x1CE2, 0x1CE8, 1); (0x1CED, 0x1CED, 220);
   (0x1CF4, 0x1CF4, 230); (0x1CF8, 0x1CF9, 230); (0x1DC0, 0x1DC1, 230); (0x1DC2, 0x1DC2, 220);
   (0x1DC3, 0x1DC9, 230); (0x1DCA, 0x1DCA, 220); (0x1DCB, 0x1DCC, 230); (0x1DCD, 0x1DCD, 234);
   (0x1DCE, 0x1DCE, 214); (0x1DCF, 0x1DCF, 220); (0x1DD0, 0x1DD0, 202); (0x1DD1, 0x1DF5, 230);
   (0x1DF6, 0x1DF6, 232); (0x1DF7, 0x1DF8, 228); (0x1DF9, 0x1DF9, 220); (0x1DFA, 0x1DFA, 218);
   (0x1DFB, 0x1DFB, 230); (0x1DFC, 0x1DFC, 233); (0x1DFD, 0x1DFD, 220); (0x1DFE, 0x1DFE, 230);
   (0x1DFF, 0x1DFF, 220); (0x20D0, 0x20D1, 230); (0x20D2, 0x20D3, 1); (0x20D4, 0x20D7, 230);
   (0x20D8, 0x20DA, 1); (0x20DB, 0x20DC, 230); (0x20E1, 0x20E1, 230); (0x20E5, 0x20E6, 1);
   (0x20E7, 0x20E7, 230); (0x20E8, 0x20E8, 220); (0x20E9, 0x20E9, 230); (0x20EA, 0x20EB, 1);
   (0x20EC, 0x20EF, 220); (0x20F0, 0x20F0, 230); (0x2CEF, 0x2CF1, 230); (0x2D7F, 0x2D7F, 9);
   (0x2DE0, 0x2DFF, 230); (0x302A, 0x302A, 218); (0x302B, 0x302B, 228); (0x302C, 0x302C, 232);
   (0x302D, 0x302D, 222); (0x302E, 0x302F, 224); (0x3099, 0x309A, 8); (0xA66F, 0xA66F, 230);
   (0xA674, 0xA67D, 230); (0xA69E, 0xA69F, 230); (0xA6F0, 0xA6F1, 230); (0xA806, 0xA806, 9);
   (0xA82C, 0xA82C, 9); (0xA8C4, 0xA8C4, 9); (0xA8E0, 0xA8F1, 230); (0xA92B, 0xA92D, 220);
   (0xA953, 0xA953, 9); (0xA9B3, 0xA9B3, 7); (0xA9C0, 0xA9C0, 9); (0xAAB0, 0xAAB0, 230);
   (0xAAB2, 0xAAB3, 230); (0xAAB4, 0xAAB4, 220); (0xAAB7, 0xAAB8, 230); (0xAABE, 0xAABF, 230);
   (0xAAC1, 0xAAC1, 230); (0xAAF6, 0xAAF6, 9); (0xABED, 0xABED, 9); (0xFB1E, 0xFB1E, 26);
   (0xFE20, 0xFE26, 230); (0xFE27, 0xFE2D, 220); (0xFE2E, 0xFE2F, 230); (0x101FD, 0x101FD, 220);
   (0x102E0, 0x102E0, 220); (0x10376, 0x1037A, 230); (0x10A0D, 0x10A0D, 220); (0x10A0F, 0x10A0F, 230);
   (0x10A38, 0x10A38, 230); (0x10A39, 0x10A39, 1); (0x10A3A, 0x10A3A, 220); (0x10A3F, 0x10A3F, 9);
   (0x10AE5, 0x10AE5, 230); (0x10AE6, 0x10AE6, 220); (0x10D24, 0x10D27, 230); (0x10EAB, 0x10EAC, 230);
   (0x10F46, 0x10F47, 220); (0x10F48, 0x10F4A, 230); (0x10F4B, 0x10F4B, 220); (0x10F4C, 0x10F4C, 230);
   (0x10F4D, 0x10F50, 220); (0x10F82, 0x10F82, 230); (0x10F83, 0x10F83, 220); (0x10F84, 0x10F84, 230);
   (0x10F85, 0x10F85, 220); (0x11046, 0x11046, 9); (0x11070, 0x11070, 9); (0x1107F, 0x1107F, 9);
   (0x110B9, 0x110B9, 9); (0x110BA, 0x110BA, 7); (0x11100, 0x11102, 230); (0x11133, 0x11134, 9);
   (0x11173, 0x11173, 7); (0x111C0, 0x111C0, 9); (0x111CA, 0x111CA, 7); (0x11235, 0x11235, 9);
   (0x11236, 0x11236, 7); (0x112E9, 0x112E9, 7); (0x112EA, 0x112EA, 9); (0x1133B, 0x1133C, 7);
   (0x1134D, 0x1134D, 9); (0x11366, 0x1136C, 230); (0x11370, 0x11374, 230); (0x11442, 0x11442, 9);
   (0x11446, 0x11446, 7); (0x1145E, 0x1145E, 230); (0x114C2, 0x114C2, 9); (0x114C3, 0x114C3, 7);
   (0x115BF, 0x115BF, 9); (0x115C0, 0x115C0, 7); (0x1163F, 0x1163F, 9); (0x116B6, 0x116B6, 9);
   (0x116B7, 0x116B7, 7); (0x1172B, 0x1172B, 9); (0x11839, 0x11839, 9); (0x1183A, 0x1183A, 7);
   (0x1193D, 0x1193E, 9); (0x11943, 0x11943, 7); (0x119E0, 0x119E0, 9); (0x11A34, 0x11A34, 9);
   (0x11A47, 0x11A47, 9); (0x11A99, 0x11A99, 9); (0x11C3F, 0x11C3F, 9); (0x11D42, 0x11D42, 7);
   (0x11D44, 0x11D45, 9); (0x11D97, 0x11D97, 9); (0x16AF0, 0x16AF4, 1); (0x16B30, 0x16B36, 230);
   (0x16FF0, 0x16FF1, 6); (0x1BC9E, 0x1BC9E, 1); (0x1D165, 0x1D166, 216); (0x1D167, 0x1D169, 1);
   (0x1D16D, 0x1D16D, 226); (0x1D16E, 0x1D172, 216); (0x1D17B, 0x1D182, 220); (0x1D185, 0x1D189, 230);
   (0x1D18A, 0x1D18B, 220); (0x1D1AA, 0x1D1AD, 230); (0x1D242, 0x1D244, 230); (0x1E000, 0x1E006, 230);
   (0x1E008, 0x1E018, 230); (0x1E01B, 0x1E021, 230); (0x1E023, 0x1E024, 230); (0x1E026, 0x1E02A, 230);
   (0x1E130, 0x1E136, 230); (0x1E2AE, 0x1E2AE, 230); (0x1E2EC, 0x1E2EF, 230); (0x1E8D0, 0x1E8D6, 220);
   (0x1E944, 0x1E949, 230); (0x1E94A, 0x1E94A, 7)
  ].

(** Ranges of code points with a non-zero canonical combining class, Unicode Character Database version 14.0: (first, last, class). *)
Definition combining_class_ranges : list (Z * Z * Z) :=
  combining_class_ranges_1 ++
  combining_class_ranges_2.
Definition decomposition_map : gmap Z (list Z) :=
  list_to_map canonical_decomposition_table.

Definition lowercase_map : gmap Z Z :=
  list_to_map lowercase_table.

Definition expand_range (r : Z * Z * Z) : list (Z * Z) :=
  let '(first, last, class) := r in
  map (fun c => (c, class)) (seqZ first (last - first + 1)).

Definition combining_class_map : gmap Z Z :=
  list_to_map (flat_map expand_range combining_class_ranges).

(** Canonical combining class; 0 for every code point not listed: those are
    the starters. *)
Definition ccc (c : Z) : Z := default 0 (combining_class_map !! c).

(** Hangul syllables U+AC00..U+D7A3 decompose arithmetically into two or
    three conjoining jamo (The Unicode Standard, section 3.12). *)
Definition is_hangul_syllable (c : Z) : bool := (0xAC00 <=? c) && (c <=? 0xD7A3).

Definition hangul_decomposition (c : Z) : list Z :=
  let s := c - 0xAC00 in
  let l := 0x1100 + s / 588 in
  let v := 0x1161 + (s mod 588) / 28 in
  let t := s mod 28 in
  if t =? 0 then [l; v] else [l; v; 0x11A7 + t].

(** Full canonical decomposition of one code point. *)
Definition decompose (c : Z) : list Z :=
  match decomposition_map !! c with
  | Some d => d
  | None => if is_hangul_syllable c then hangul_decomposition c else [c]
  end.

(** The canonical ordering algorithm: within every maximal run of
    non-starters, the marks are sorted by combining class, marks of equal
    class keeping their order.  [sink c l] puts [c] in front of the ordered
    text [l] and lets it move right past the marks of strictly smaller
    class. *)
Fixpoint sink (c : Z) (l : list Z) : list Z :=
  match l with
  | d :: r => if (0 <? ccc d) && (ccc d <? ccc c) then d :: sink c r else c :: l
  | [] => [c]
  end.

Definition canonical_order (l : list Z) : list Z := foldr sink [] l.

(** [text.normalize('NFD')] *)
Definition nfd (text : list Z) : list Z :=
  canonical_order (flat_map decompose text).

(** Lowercase mapping of a code point other than U+03A3: one code point,
    except for U+0130, whose mapping has two. *)
Definition lower_code_point (c : Z) : list Z :=
  if c =? 0x130 then [0x69; 0x307]
  else [default c (lowercase_map !! c)].

Section CaseConversion.

(** Capital sigma U+03A3 becomes final sigma U+03C2 or sigma U+03C3
    according to the Final_Sigma condition on the text around it.  The
    condition is left as a parameter: [final_sigma before after] receives
    the text before the sigma, nearest code point first, and the text
    after it.  Nothing below depends on how it decides. *)
Variable final_sigma : list Z -> list Z -> bool.

Definition lower_at (before : list Z) (c : Z) (after : list Z) : list Z :=
  if c =? 0x3A3 then
    (if final_sigma before after then [0x3C2] else [0x3C3])
  else lower_code_point c.

Fixpoint lower_from (before text : list Z) : list Z :=
  match text with
  | [] => []
  | c :: after => lower_at before c after ++ lower_from (c :: before) after
  end.

(** [text.toLowerCase()] *)
Definition toLowerCase (text : list Z) : list Z := lower_from [] text.

End CaseConversion.

(** One way to decide the condition, for the examples below: a sigma is
    final when it ends the text and does not begin it.  (The Final_Sigma
    condition of the Unicode standard also looks at which neighbours are
    cased letters.) *)
Definition sigma_final_at_end (before after : list Z) : bool :=
  match before, after with
  | _ :: _, [] => true
  | _, _ => false
  end.

(** ** Gematria (tests/import.test.ts) *)

(** [GREEK_VALUES] and [GREEK_ORDINAL]: objects keyed by one-letter strings,
    here by the letter's code point.  No one-letter string names a member
    of [Object.prototype], so a lookup that misses yields [undefined]. *)
Definition GREEK_VALUES : gmap Z Z :=
  list_to_map
    [ (0x3B1, 1); (0x3B2, 2); (0x3B3, 3); (0x3B4, 4); (0x3B5, 5); (0x3DB, 6);
      (0x3B6, 7); (0x3B7, 8); (0x3B8, 9);
      (0x3B9, 10); (0x3BA, 20); (0x3BB, 30); (0x3BC, 40); (0x3BD, 50);
      (0x3BE, 60); (0x3BF, 70); (0x3C0, 80); (0x3DF, 90);
      (0x3C1, 100); (0x3C3, 200); (0x3C2, 200); (0x3C4, 300); (0x3C5, 400);
      (0x3C6, 500); (0x3C7, 600); (0x3C8, 700); (0x3C9, 800); (0x3E1, 900) ].

Definition GREEK_ORDINAL : gmap Z Z :=
  list_to_map
    [ (0x3B1, 1); (0x3B2, 2); (0x3B3, 3); (0x3B4, 4); (0x3B5, 5); (0x3B6, 6);
      (0x3B7, 7); (0x3B8, 8);
      (0x3B9, 9); (0x3BA, 10); (0x3BB, 11); (0x3BC, 12); (0x3BD, 13);
      (0x3BE, 14); (0x3BF, 15); (0x3C0, 16);
      (0x3C1, 17); (0x3C3, 18); (0x3C2, 18); (0x3C4, 19); (0x3C5, 20);
      (0x3C6, 21); (0x3C7, 22); (0x3C8, 23); (0x3C9, 24) ].

(** [.replace(/\u0345/g, 'ι')]: the combining iota subscript becomes a
    plain iota. *)
Definition replace_iota_subscript (text : list Z) : list Z :=
  map (fun c => if c =? 0x345 then 0x3B9 else c) text.

Definition is_combining_mark (c : Z) : bool := (0x300 <=? c) && (c <=? 0x36F).

(** [.replace(/[\u0300-\u036f]/g, '')] *)
Definition remove_combining_marks (text : list Z) : list Z :=
  filter (fun c => is_combining_mark c = false) text.

Record gematria := Gematria { standard : Z; ordinal : Z; reduced : Z }.

Definition no_gematria : gematria := Gematria 0 0 0.

(** The inner loop of the reduction:
    [while (val > 0) { sum += val % 10; val = Math.floor(val / 10); }].
    One unit of [fuel] is one test of the loop condition. *)
Fixpoint add_digits (fuel : nat) (val sum : Z) : Z :=
  match fuel with
  | O => sum
  | S fuel' =>
      if 0 <? val then add_digits fuel' (val / 10) (sum + val mod 10) else sum
  end.

Definition digit_sum (val : Z) : Z := add_digits (S (Z.to_nat val)) val 0.

(** The outer loop: [while (val > 9) { ...; val = sum; }]. *)
Fixpoint reduce_digits (fuel : nat) (val : Z) : Z :=
  match fuel with
  | O => val
  | S fuel' => if 9 <? val then reduce_digits fuel' (digit_sum val) else val
  end.

Definition reduce_value (val : Z) : Z := reduce_digits (Z.to_nat val) val.

(** The body of [for (const char of normalized)]. *)
Definition add_char (acc : gematria) (char : Z) : gematria :=
  let stdVal := GREEK_VALUES !! char in
  let ordVal := GREEK_ORDINAL !! char in
  let standard' :=
    match stdVal with Some v => standard acc + v | None => standard acc end in
  match ordVal with
  | Some v => Gematria standard' (ordinal acc + v) (reduced acc + reduce_value v)
  | None => Gematria standard' (ordinal acc) (reduced acc)
  end.

Definition sum_chars (normalized : list Z) : gematria :=
  fold_left add_char normalized no_gematria.

Section Gematria.

Variable final_sigma : list Z -> list Z -> bool.

Definition normalizeGreek (text : list Z) : list Z :=
  toLowerCase final_sigma
    (remove_combining_marks (replace_iota_subscript (nfd text))).

Definition computeGreek (text : list Z) : gematria :=
  sum_chars (normalizeGreek text).

End Gematria.


(** ** Reference tokens (scripts/import.ts) *)

Definition DOT : Z := 0x2E.
Definition HASH : Z := 0x23.
Definition EQUALS : Z := 0x3D.
Definition LBRACE : Z := 0x7B.
Definition RBRACE : Z := 0x7D.
Definition LBRACKET : Z := 0x5B.
Definition RBRACKET : Z := 0x5D.

(** [\d] *)
Definition is_digit (c : Z) : bool := (0x30 <=? c) && (c <=? 0x39).

(** [[A-Za-z0-9]] *)
Definition is_alnum (c : Z) : bool :=
  ((0x41 <=? c) && (c <=? 0x5A)) || ((0x61 <=? c) && (c <=? 0x7A)) || is_digit c.

(** The characters [.] does not match: the line terminators. *)
Definition is_line_terminator (c : Z) : bool :=
  (c =? 0x0A) || (c =? 0x0D) || (c =? 0x2028) || (c =? 0x2029).

Fixpoint take_while (p : Z -> bool) (l : list Z) : list Z :=
  match l with
  | c :: r => if p c then c :: take_while p r else []
  | [] => []
  end.

Fixpoint drop_while (p : Z -> bool) (l : list Z) : list Z :=
  match l with
  | c :: r => if p c then drop_while p r else l
  | [] => []
  end.

(** One literal character. *)
Definition expect (c : Z) (l : list Z) : option (list Z) :=
  match l with
  | d :: r => if d =? c then Some r else None
  | [] => None
  end.

(** A greedy class repetition [p+] that is followed in the pattern by a
    character outside the class: only the longest run can match. *)
Definition one_or_more (p : Z -> bool) (l : list Z) : option (list Z * list Z) :=
  match take_while p l with
  | [] => None
  | run => Some (run, drop_while p l)
  end.

(** The outcome of the two capture groups of an optional
    [(?:<open>(\d+)\.(\d+)<close>)?]: both [undefined] when the group does
    not take part in the match. *)
Definition digit_pair_group (open close : Z) (l : list Z)
  : option (option (list Z) * option (list Z) * list Z) :=
  match l with
  | c :: r =>
      if c =? open then
        '(a, r1) ← one_or_more is_digit r;
        r2 ← expect DOT r1;
        '(b, r3) ← one_or_more is_digit r2;
        r4 ← expect close r3;
        Some (Some a, Some b, r4)
      else Some (None, None, l)
  | [] => Some (None, None, l)
  end.

(** The capture groups 1 to 9 of a successful match. *)
Record reference_match := ReferenceMatch {
  m_book : list Z;
  m_ch : list Z;
  m_vs : list Z;
  m_altCh : option (list Z);
  m_altVs : option (list Z);
  m_kjvCh : option (list Z);
  m_kjvVs : option (list Z);
  m_wordNum : list Z;
  m_type : list Z
}.

(** [ref.match(/^([A-Za-z0-9]+)\.(\d+)\.(\d+)(?:\{(\d+)\.(\d+)\})?(?:\[(\d+)\.(\d+)\])?#(\d+)=(.+)$/)].

    The pattern leaves the matcher no choice.  Each repetition is over a
    character class and is followed by a literal outside that class, so it
    must take the whole run.  An optional group that starts to match (its
    opening brace or bracket is there) and then fails cannot be skipped
    either, because what follows it in the pattern begins with a different
    literal.  The last group, [(.+)$], is the rest of the token, which must
    be non-empty and free of line terminators. *)
Definition match_reference (ref : list Z) : option reference_match :=
  '(book, r1) ← one_or_more is_alnum ref;
  r2 ← expect DOT r1;
  '(ch, r3) ← one_or_more is_digit r2;
  r4 ← expect DOT r3;
  '(vs, r5) ← one_or_more is_digit r4;
  '(altCh, altVs, r6) ← digit_pair_group LBRACE RBRACE r5;
  '(kjvCh, kjvVs, r7) ← digit_pair_group LBRACKET RBRACKET r6;
  r8 ← expect HASH r7;
  '(wordNum, r9) ← one_or_more is_digit r8;
  type ← expect EQUALS r9;
  match type with
  | [] => None
  | _ :: _ =>
      if forallb (fun c => negb (is_line_terminator c)) type
      then Some (ReferenceMatch book ch vs altCh altVs kjvCh kjvVs wordNum type)
      else None
  end.

(** [parseInt(digits, 10)] on a non-empty string of ASCII digits. *)
Definition parseInt_digits (digits : list Z) : Z :=
  fold_left (fun n d => 10 * n + (d - 0x30)) digits 0.

(** Truthiness of a capture group: [undefined] and the empty string are
    falsy. *)
Definition truthy (group : option (list Z)) : bool :=
  match group with
  | Some (_ :: _) => true
  | _ => false
  end.

Definition group_text (group : option (list Z)) : list Z := default [] group.

Record ParsedReference := {
  book : list Z;
  chapter : Z;
  verse : Z;
  wordNum : Z;
  type : list Z
}.

(** [isTrWord]: [type.includes('K') || type.includes('k')]. *)
Definition isTrWord (type : list Z) : bool :=
  includes (js "K") type || includes (js "k") type.

Section ReferenceResolver.

Variable final_sigma : list Z -> list Z -> bool.

(** The test written out in [parseReference]:
    [type.includes('K') || type.toLowerCase().includes('k')]. *)
Definition has_tr_flag (type : list Z) : bool :=
  includes (js "K") type || includes (js "k") (toLowerCase final_sigma type).

Definition parseReference (ref : list Z) : option ParsedReference :=
  match match_reference ref with
  | None => None
  | Some m =>
      let chapter := parseInt_digits (m_ch m) in
      let verse := parseInt_digits (m_vs m) in
      let '(chapter, verse) :=
        if has_tr_flag (m_type m) then
          if truthy (m_altCh m) && truthy (m_altVs m) then
            (parseInt_digits (group_text (m_altCh m)),
             parseInt_digits (group_text (m_altVs m)))
          else if truthy (m_kjvCh m) && truthy (m_kjvVs m) then
            (parseInt_digits (group_text (m_kjvCh m)),
             parseInt_digits (group_text (m_kjvVs m)))
          else (chapter, verse)
        else (chapter, verse) in
      Some {| book := m_book m;
              chapter := chapter;
              verse := verse;
              wordNum := parseInt_digits (m_wordNum m);
              type := m_type m |}
  end.

End ReferenceResolver.


(** ** Verse records (scripts/import.ts)

    The fields of [ParsedWord], [WordEntry] and [VerseData] carry a prefix
    ([w_], [e_], [v_]) because the three interfaces share field names.  The
    field [metadata] of a word entry is always the empty object and is left
    out. *)

Record ParsedWord := {
  w_book : list Z;
  w_chapter : Z;
  w_verse : Z;
  w_wordNum : Z;
  w_type : list Z;
  w_greek : list Z;
  w_translation : list Z;
  w_strongs : list Z;
  w_morph : list Z;
  w_gloss : list Z;
  w_editions : list Z
}.

Record WordEntry := {
  e_position : Z;
  e_text : list Z;
  e_lemma : option (list (list Z));
  e_morph : option (list Z);
  e_strongs : option (list Z);
  e_translation : option (list Z);
  e_gematria : gematria
}.

Record VerseData := {
  v_text : list Z;
  v_words : list WordEntry;
  v_gematria : gmap string Z
}.

(** [words.sort((a, b) => a.wordNum - b.wordNum)].  The comparator orders
    the words by an integer key, and [Array.prototype.sort] is stable, so
    the outcome is fixed by the language: ascending keys, words of equal key
    in their original order.  Insertion from the right computes it. *)
Fixpoint insert_word (w : ParsedWord) (sorted : list ParsedWord) : list ParsedWord :=
  match sorted with
  | [] => [w]
  | x :: rest =>
      if w_wordNum w <=? w_wordNum x then w :: sorted
      else x :: insert_word w rest
  end.

Definition sort_words (words : list ParsedWord) : list ParsedWord :=
  foldr insert_word [] words.

(** [s || null] and [s ? f(s) : null] for a string [s]. *)
Definition if_nonempty {A} (s : list Z) (f : list Z -> A) : option A :=
  match s with
  | [] => None
  | _ :: _ => Some (f s)
  end.

(** [Object.entries] of the object literal [{ standard, ordinal, reduced }]. *)
Definition Object_entries (g : gematria) : list (string * Z) :=
  [ ("standard"%string, standard g);
    ("ordinal"%string, ordinal g);
    ("reduced"%string, reduced g) ].

(** [totals[k] = (totals[k] || 0) + v] *)
Definition add_to_totals (totals : gmap string Z) (kv : string * Z) : gmap string Z :=
  <[ kv.1 := default 0 (totals !! kv.1) + kv.2 ]> totals.

Definition verse_totals (wordEntries : list WordEntry) : gmap string Z :=
  fold_left
    (fun totals entry => fold_left add_to_totals (Object_entries (e_gematria entry)) totals)
    wordEntries ∅.

(** [\s] *)
Definition is_space (c : Z) : bool :=
  ((0x09 <=? c) && (c <=? 0x0D)) || (c =? 0x20) || (c =? 0xA0) || (c =? 0x1680)
  || ((0x2000 <=? c) && (c <=? 0x200A)) || (c =? 0x2028) || (c =? 0x2029)
  || (c =? 0x202F) || (c =? 0x205F) || (c =? 0x3000) || (c =? 0xFEFF).

(** [[,.;:!?·]] *)
Definition is_punctuation (c : Z) : bool :=
  (c =? 0x2C) || (c =? 0x2E) || (c =? 0x3B) || (c =? 0x3A) || (c =? 0x21)
  || (c =? 0x3F) || (c =? 0xB7).

(** The text from here on is some white space, possibly none, and then a
    punctuation mark. *)
Fixpoint before_punctuation (l : list Z) : bool :=
  match l with
  | c :: r => if is_space c then before_punctuation r else is_punctuation c
  | [] => false
  end.

(** [text.replace(/\s+([,.;:!?·])/g, '$1')]: every run of white space that
    ends at a punctuation mark is removed. *)
Fixpoint close_up_punctuation (text : list Z) : list Z :=
  match text with
  | [] => []
  | c :: r =>
      if is_space c && before_punctuation r then close_up_punctuation r
      else c :: close_up_punctuation r
  end.

(** [texts.join(' ')] *)
Fixpoint join_with_space (texts : list (list Z)) : list Z :=
  match texts with
  | [] => []
  | [t] => t
  | t :: rest => t ++ 0x20 :: join_with_space rest
  end.

Section Aggregator.

Variable final_sigma : list Z -> list Z -> bool.

Definition word_entry (idx : nat) (w : ParsedWord) : WordEntry :=
  {| e_position := Z.of_nat idx + 1;
     e_text := w_greek w;
     e_lemma := if_nonempty (w_strongs w) (fun s => [s]);
     e_morph := if_nonempty (w_morph w) (fun m => js "robinson:" ++ m);
     e_strongs := if_nonempty (w_strongs w) id;
     e_translation := if_nonempty (w_translation w) id;
     e_gematria := computeGreek final_sigma (w_greek w) |}.

(** The record [saveVerse] writes for a verse, as a function of the words
    collected for it. *)
Definition verse_data (words : list ParsedWord) : VerseData :=
  let words := sort_words words in
  let wordEntries := imap word_entry words in
  let totals := verse_totals wordEntries in
  let text := close_up_punctuation (join_with_space (map e_text wordEntries)) in
  {| v_text := text; v_words := wordEntries; v_gematria := totals |}.

End Aggregator.


(** ** Loading the produced data (src/source.ts) *)

(** [JSON.parse]: the JSON grammar of ECMA-404.  A number is kept as the
    literal that denotes it, and the members of an object in the order of
    the text. *)
#[warnings="-register-all"]
Inductive json :=
| JNull
| JBool (b : bool)
| JNumber (literal : list Z)
| JString (s : list Z)
| JArray (items : list json)
| JObject (members : list (list Z * json)).

Definition is_json_space (c : Z) : bool :=
  (c =? 0x20) || (c =? 0x09) || (c =? 0x0A) || (c =? 0x0D).

Definition skip_space (s : list Z) : list Z := drop_while is_json_space s.

Fixpoint strip_prefix (prefix s : list Z) : option (list Z) :=
  match prefix, s with
  | [], _ => Some s
  | _ :: _, [] => None
  | p :: prefix', c :: s' => if p =? c then strip_prefix prefix' s' else None
  end.

(** An optional character of the set [p]. *)
Definition optional_char (p : Z -> bool) (s : list Z) : list Z * list Z :=
  match s with
  | c :: r => if p c then ([c], r) else ([], s)
  | [] => ([], s)
  end.

(** A number literal: an optional minus sign; then a single zero, or a
    non-zero digit and any digits; then optionally a point and digits; then
    optionally an exponent mark, a sign and digits. *)
Definition json_number (s : list Z) : option (list Z * list Z) :=
  let '(sign, s1) := optional_char (Z.eqb 0x2D) s in
  '(int, s2) ←
    match s1 with
    | c :: r => if c =? 0x30 then Some ([c], r) else one_or_more is_digit s1
    | [] => None
    end;
  '(frac, s3) ←
    match s2 with
    | c :: r =>
        if c =? DOT then '(ds, r') ← one_or_more is_digit r; Some (c :: ds, r')
        else Some ([], s2)
    | [] => Some ([], s2)
    end;
  '(exp, s4) ←
    match s3 with
    | c :: r =>
        if (c =? 0x65) || (c =? 0x45) then
          let '(esign, r1) := optional_char (fun d => (d =? 0x2B) || (d =? 0x2D)) r in
          '(ds, r2) ← one_or_more is_digit r1; Some (c :: esign ++ ds, r2)
        else Some ([], s3)
    | [] => Some ([], s3)
    end;
  Some (sign ++ int ++ frac ++ exp, s4).

Definition hex_digit (c : Z) : option Z :=
  if is_digit c then Some (c - 0x30)
  else if (0x41 <=? c) && (c <=? 0x46) then Some (c - 0x41 + 10)
  else if (0x61 <=? c) && (c <=? 0x66) then Some (c - 0x61 + 10)
  else None.

(** The character an escape [\c] stands for, [c] other than [u]. *)
Definition simple_escape (c : Z) : option Z :=
  if (c =? 0x22) || (c =? 0x5C) || (c =? 0x2F) then Some c
  else if c =? 0x62 then Some 0x08
  else if c =? 0x66 then Some 0x0C
  else if c =? 0x6E then Some 0x0A
  else if c =? 0x72 then Some 0x0D
  else if c =? 0x74 then Some 0x09
  else None.

(** The code units of a string literal, from behind its opening quote. *)
Fixpoint json_string_units (s : list Z) : option (list Z * list Z) :=
  match s with
  | [] => None
  | c :: r =>
      if c =? 0x22 then Some ([], r)
      else if c =? 0x5C then
        match r with
        | e :: r1 =>
            if e =? 0x75 then
              match r1 with
              | h1 :: h2 :: h3 :: h4 :: r2 =>
                  d1 ← hex_digit h1; d2 ← hex_digit h2;
                  d3 ← hex_digit h3; d4 ← hex_digit h4;
                  '(units, rest) ← json_string_units r2;
                  Some (((d1 * 16 + d2) * 16 + d3) * 16 + d4 :: units, rest)
              | _ => None
              end
            else
              ch ← simple_escape e;
              '(units, rest) ← json_string_units r1;
              Some (ch :: units, rest)
        | [] => None
        end
      else if c <? 0x20 then None
      else '(units, rest) ← json_string_units r; Some (c :: units, rest)
  end.

(** A high surrogate followed by a low one is one code point. *)
Fixpoint join_surrogates (units : list Z) : list Z :=
  match units with
  | [] => []
  | h :: rest =>
      match rest with
      | l :: rest' =>
          if (0xD800 <=? h) && (h <=? 0xDBFF) && (0xDC00 <=? l) && (l <=? 0xDFFF)
          then 0x10000 + (h - 0xD800) * 0x400 + (l - 0xDC00) :: join_surrogates rest'
          else h :: join_surrogates rest
      | [] => [h]
      end
  end.

Definition json_string (s : list Z) : option (list Z * list Z) :=
  '(units, rest) ← json_string_units s; Some (join_surrogates units, rest).

(** One value, with the white space before it.  [fuel] bounds both the
    nesting depth and the number of items of an array or object; the length
    of the text is enough for either. *)
Fixpoint json_value (fuel : nat) (s : list Z) : option (json * list Z) :=
  match fuel with
  | O => None
  | S fuel' =>
      match skip_space s with
      | [] => None
      | c :: r =>
          if c =? 0x22 then
            '(str, rest) ← json_string r; Some (JString str, rest)
          else if c =? LBRACKET then
            match skip_space r with
            | d :: r' =>
                if d =? RBRACKET then Some (JArray [], r')
                else
                  (fix items (n : nat) (s : list Z) (acc : list json) :=
                     match n with
                     | O => None
                     | S n' =>
                         '(v, s1) ← json_value fuel' s;
                         match skip_space s1 with
                         | e :: s2 =>
                             if e =? 0x2C then items n' s2 (v :: acc)
                             else if e =? RBRACKET then Some (JArray (rev (v :: acc)), s2)
                             else None
                         | [] => None
                         end
                     end) fuel' r []
            | [] => None
            end
          else if c =? LBRACE then
            match skip_space r with
            | d :: r' =>
                if d =? RBRACE then Some (JObject [], r')
                else
                  (fix members (n : nat) (s : list Z) (acc : list (list Z * json)) :=
                     match n with
                     | O => None
                     | S n' =>
                         s0 ← expect 0x22 (skip_space s);
                         '(key, s1) ← json_string s0;
                         s2 ← expect 0x3A (skip_space s1);
                         '(v, s3) ← json_value fuel' s2;
                         match skip_space s3 with
                         | e :: s4 =>
                             if e =? 0x2C then members n' s4 ((key, v) :: acc)
                             else if e =? RBRACE then Some (JObject (rev ((key, v) :: acc)), s4)
                             else None
                         | [] => None
                         end
                     end) fuel' r []
            | [] => None
            end
          else
            match strip_prefix (js "null") (c :: r),
                  strip_prefix (js "true") (c :: r),
                  strip_prefix (js "false") (c :: r) with
            | Some rest, _, _ => Some (JNull, rest)
            | _, Some rest, _ => Some (JBool true, rest)
            | _, _, Some rest => Some (JBool false, rest)
            | None, None, None =>
                '(lit, rest) ← json_number (c :: r); Some (JNumber lit, rest)
            end
      end
  end.

(** [JSON.parse(text)]; [None] stands for the [SyntaxError] it throws. *)
Definition JSON_parse (text : list Z) : option json :=
  '(v, rest) ← json_value (S (length text)) text;
  match skip_space rest with
  | [] => Some v
  | _ :: _ => None
  end.


(** What an [async] function settles to, and the errors met here.  [ENOENT]
    stands for the system error of [readFile] and [readdir] on a path that
    does not exist, [SyntaxError] for the one [JSON.parse] throws,
    [TypeError] for the one [path.join] throws on an argument that is not a
    string; [Error message] is [new Error(message)]. *)
Inductive js_error :=
| Error (message : list Z)
| TypeError
| SyntaxError
| ENOENT.

Inductive outcome (A : Type) :=
| Resolved (a : A)
| Rejected (e : js_error).

Arguments Resolved {A} a.
Arguments Rejected {A} e.

#[global] Instance outcome_ret : MRet outcome := @Resolved.

#[global] Instance outcome_bind : MBind outcome := fun A B f m =>
  match m with
  | Resolved a => f a
  | Rejected e => Rejected e
  end.

(** [try { body } catch (error) { handler }] *)
Definition try_catch {A} (body : outcome A) (handler : js_error -> outcome A) : outcome A :=
  match body with
  | Resolved a => Resolved a
  | Rejected e => handler e
  end.

(** Running [step] over the items of a [for ... of] loop that pushes each
    result, stopping at the first error. *)
Fixpoint for_each {A B} (step : A -> outcome B) (items : list A) : outcome (list B) :=
  match items with
  | [] => Resolved []
  | x :: rest =>
      y ← step x;
      ys ← for_each step rest;
      Resolved (y :: ys)
  end.

(** The files under [DATA_PATH]: the content of each file and the entries of
    each directory, by the path components handed to [path.join] after
    [DATA_PATH]. *)
Record FileSystem := {
  files : gmap (list (list Z)) (list Z);
  directories : gmap (list (list Z)) (list (list Z))
}.

Definition readFile (fs : FileSystem) (path : list (list Z)) : outcome (list Z) :=
  match files fs !! path with
  | Some content => Resolved content
  | None => Rejected ENOENT
  end.

Definition readdir (fs : FileSystem) (path : list (list Z)) : outcome (list (list Z)) :=
  match directories fs !! path with
  | Some entries => Resolved entries
  | None => Rejected ENOENT
  end.

Definition JSON_parse_or_throw (text : list Z) : outcome json :=
  match JSON_parse text with
  | Some v => Resolved v
  | None => Rejected SyntaxError
  end.

(** [String(n)] and [`${n}`] for an integer [n]. *)
Definition Number_toString (n : Z) : list Z :=
  js (NilZero.string_of_int (Z.to_int n)).

Definition BOOK_TO_OSIS : gmap (list Z) (list Z) :=
  list_to_map
    [ (js "Matthew", js "Matt"); (js "Mark", js "Mark"); (js "Luke", js "Luke");
      (js "John", js "John"); (js "Acts", js "Acts"); (js "Romans", js "Rom");
      (js "1 Corinthians", js "1Cor"); (js "2 Corinthians", js "2Cor");
      (js "Galatians", js "Gal"); (js "Ephesians", js "Eph");
      (js "Philippians", js "Phil"); (js "Colossians", js "Col");
      (js "1 Thessalonians", js "1Thess"); (js "2 Thessalonians", js "2Thess");
      (js "1 Timothy", js "1Tim"); (js "2 Timothy", js "2Tim");
      (js "Titus", js "Titus"); (js "Philemon", js "Phlm"); (js "Hebrews", js "Heb");
      (js "James", js "Jas"); (js "1 Peter", js "1Pet"); (js "2 Peter", js "2Pet");
      (js "1 John", js "1John"); (js "2 John", js "2John"); (js "3 John", js "3John");
      (js "Jude", js "Jude"); (js "Revelation", js "Rev") ].

(** [BOOK_TO_OSIS] is an object literal, so a key it does not own is looked
    up in [Object.prototype]; these are the names found there.  Their values
    are functions and objects: truthy, and not strings. *)
Definition Object_prototype_members : list (list Z) :=
  [ js "constructor"; js "hasOwnProperty"; js "isPrototypeOf";
    js "propertyIsEnumerable"; js "toLocaleString"; js "toString"; js "valueOf";
    js "__proto__"; js "__defineGetter__"; js "__defineSetter__";
    js "__lookupGetter__"; js "__lookupSetter__" ].

Inductive js_value :=
| Str (s : list Z)
| NotAString.

(** [BOOK_TO_OSIS[book] || book] *)
Definition toOsis (book : list Z) : js_value :=
  match BOOK_TO_OSIS !! book with
  | Some [] => Str book
  | Some osis => Str osis
  | None =>
      if bool_decide (book ∈ Object_prototype_members) then NotAString
      else Str book
  end.

(** [path.join(DATA_PATH, ...)], as the components after [DATA_PATH]. *)
Definition join (book : js_value) (rest : list (list Z)) : outcome (list (list Z)) :=
  match book with
  | Str osisBook => Resolved (osisBook :: rest)
  | NotAString => Rejected TypeError
  end.

Definition verse_not_found (book : list Z) (chapter verse : Z) : list Z :=
  js "Verse " ++ book ++ js " " ++ Number_toString chapter ++ js ":"
    ++ Number_toString verse ++ js " not found in stepbible-tagnt-tr".

Definition chapter_not_found (book : list Z) (chapter : Z) : list Z :=
  js "Chapter " ++ book ++ js " " ++ Number_toString chapter
    ++ js " not found in stepbible-tagnt-tr".

Definition loadVerse (fs : FileSystem) (book : list Z) (chapter verse : Z) : outcome json :=
  let osisBook := toOsis book in
  filePath ← join osisBook [Number_toString chapter; Number_toString verse ++ js ".json"];
  try_catch
    (content ← readFile fs filePath;
     JSON_parse_or_throw content)
    (fun error => Rejected (Error (verse_not_found book chapter verse))).

(** [f.endsWith(suffix)] *)
Definition ends_with (suffix s : list Z) : bool :=
  starts_with (rev suffix) (rev s).

(** [s.replace(needle, '')] with a string [needle]: its first occurrence
    goes. *)
Fixpoint remove_first (needle s : list Z) : list Z :=
  match strip_prefix needle s with
  | Some rest => rest
  | None =>
      match s with
      | [] => []
      | c :: r => c :: remove_first needle r
      end
  end.

(** [parseInt(s, 10)]: leading white space, an optional sign, then the
    longest run of digits; [None] stands for [NaN]. *)
Definition parseInt (s : list Z) : option Z :=
  let s := drop_while is_space s in
  let '(sign, s) :=
    match s with
    | c :: r => if c =? 0x2D then (-1, r) else if c =? 0x2B then (1, r) else (1, s)
    | [] => (1, s)
    end in
  match take_while is_digit s with
  | [] => None
  | digits => Some (sign * parseInt_digits digits)
  end.

Definition file_number (name : list Z) : option Z :=
  parseInt (remove_first (js ".json") name).

(** The comparator [numA - numB] says that [a] goes after [b] when the
    difference is positive; a [NaN] difference counts as zero. *)
Definition goes_after (a b : list Z) : bool :=
  match file_number a, file_number b with
  | Some numA, Some numB => 0 <? numA - numB
  | _, _ => false
  end.

(** The stable sort of the file names.  When every name starts with a
    number the language fixes the result; otherwise the comparator is not
    an ordering and the result is up to the engine, of which this is one
    possible behaviour. *)
Fixpoint insert_file (a : list Z) (sorted : list (list Z)) : list (list Z) :=
  match sorted with
  | [] => [a]
  | b :: rest => if goes_after a b then b :: insert_file a rest else a :: sorted
  end.

Definition sort_files (names : list (list Z)) : list (list Z) :=
  foldr insert_file [] names.

Definition loadChapter (fs : FileSystem) (book : list Z) (chapter : Z) : outcome (list json) :=
  let osisBook := toOsis book in
  chapterPath ← join osisBook [Number_toString chapter];
  try_catch
    (entries ← readdir fs chapterPath;
     let jsonFiles := sort_files (filter (fun f => ends_with (js ".json") f = true) entries) in
     for_each
       (fun file =>
          content ← readFile fs (chapterPath ++ [file]);
          JSON_parse_or_throw content)
       jsonFiles)
    (fun error => Rejected (Error (chapter_not_found book chapter))).

(** ** Reading the corpus (scripts/import.ts) *)

(** [s.trim()]: white space and line terminators go from both ends; they
    are the characters of [\s]. *)
Definition trim (s : list Z) : list Z :=
  rev (drop_while is_space (rev (drop_while is_space s))).

(** [s.split(sep)] for a separator of one character: the pieces between
    the separators, at least one piece. *)
Fixpoint split_on (sep : Z) (s : list Z) : list (list Z) :=
  match s with
  | [] => [[]]
  | c :: r =>
      if c =? sep then [] :: split_on sep r
      else
        match split_on sep r with
        | piece :: pieces => (c :: piece) :: pieces
        | [] => [[c]]
        end
  end.

(** [extractGreek]: the match of [/^([^\(]+)/] is the longest prefix without
    an opening parenthesis, and there is none when that prefix is empty. *)
Definition extractGreek (greekCol : list Z) : list Z :=
  match take_while (fun c => negb (c =? 0x28)) greekCol with
  | [] => trim greekCol
  | m1 => trim m1
  end.

(** [parseStrongsAndMorph]: the first two pieces of [combined.split('=')],
    trimmed; a piece that is missing counts as the empty string.  The
    result is the pair of [strongs] and [morph]. *)
Definition parseStrongsAndMorph (combined : list Z) : list Z * list Z :=
  let pieces := split_on EQUALS combined in
  (trim (default [] (pieces !! 0%nat)), trim (default [] (pieces !! 1%nat))).

Definition BOOK_MAP : gmap (list Z) (list Z) :=
  list_to_map
    [ (js "Mat", js "Matt"); (js "Mrk", js "Mark"); (js "Luk", js "Luke");
      (js "Jhn", js "John"); (js "Act", js "Acts"); (js "Rom", js "Rom");
      (js "1Co", js "1Cor"); (js "2Co", js "2Cor"); (js "Gal", js "Gal");
      (js "Eph", js "Eph"); (js "Php", js "Phil"); (js "Col", js "Col");
      (js "1Th", js "1Thess"); (js "2Th", js "2Thess"); (js "1Ti", js "1Tim");
      (js "2Ti", js "2Tim"); (js "Tit", js "Titus"); (js "Phm", js "Phlm");
      (js "Heb", js "Heb"); (js "Jas", js "Jas"); (js "1Pe", js "1Pet");
      (js "2Pe", js "2Pet"); (js "1Jn", js "1John"); (js "2Jn", js "2John");
      (js "3Jn", js "3John"); (js "Jud", js "Jude"); (js "Rev", js "Rev") ].

(** [BOOK_MAP[book]]: a string of the table, a member of
    [Object.prototype], or [undefined] ([None]). *)
Definition BOOK_MAP_lookup (book : list Z) : option js_value :=
  match BOOK_MAP !! book with
  | Some osisBook => Some (Str osisBook)
  | None =>
      if bool_decide (book ∈ Object_prototype_members) then Some NotAString
      else None
  end.

(** [`${osisBook}.${parsed.chapter}.${parsed.verse}`] *)
Definition verseKey (osisBook : list Z) (chapter verse : Z) : list Z :=
  osisBook ++ DOT :: Number_toString chapter ++ DOT :: Number_toString verse.

(** The prefixes of the lines [parseTagntFile] skips. *)
Definition skipped_prefixes : list (list Z) :=
  [ js "#"; js "="; js "Word & Type"; js "TAGNT"; js "(This is"; js "All the";
    js "Introduction"; js "Spreadsheet"; [0x09] ].

(** The first test of the loop: an empty line, a header or comment line, or
    a line without a tab. *)
Definition is_skipped_line (line : list Z) : bool :=
  match trim line with [] => true | _ :: _ => false end
  || existsb (fun prefix => starts_with prefix line) skipped_prefixes
  || negb (includes [0x09] line).

(** What one pass of the loop does with a line.  A book code that names a
    member of [Object.prototype] (such as [constructor]) passes the test
    [!osisBook] with a function in the place of the book name; the word is
    then stored with that function as its [book], under a key spelled from
    the function's source text.  That case is told apart here and not
    followed further. *)
Inductive line_outcome :=
| Skipped
| Stored (key : list Z) (word : ParsedWord)
| StoredUnderInheritedName (name : list Z).

Section Corpus.

Variable final_sigma : list Z -> list Z -> bool.

Definition parse_line (line : list Z) : line_outcome :=
  if is_skipped_line line then Skipped
  else
    let cols := split_on 0x09 line in
    if (length cols <? 5)%nat then Skipped
    else
      let refCol := trim (default [] (cols !! 0%nat)) in
      if match refCol with [] => true | _ :: _ => false end
         || negb (includes (js "#") refCol)
      then Skipped
      else
        match parseReference final_sigma refCol with
        | None => Skipped
        | Some parsed =>
            if negb (isTrWord (type parsed)) then Skipped
            else
              let greek := extractGreek (default [] (cols !! 1%nat)) in
              let translation := trim (default [] (cols !! 2%nat)) in
              let '(strongs, morph) := parseStrongsAndMorph (default [] (cols !! 3%nat)) in
              let gloss := trim (default [] (cols !! 4%nat)) in
              let editions := trim (default [] (cols !! 5%nat)) in
              match greek with
              | [] => Skipped
              | _ :: _ =>
                  match BOOK_MAP_lookup (book parsed) with
                  | None => Skipped
                  | Some NotAString => StoredUnderInheritedName (book parsed)
                  | Some (Str []) => Skipped
                  | Some (Str osisBook) =>
                      Stored (verseKey osisBook (chapter parsed) (verse parsed))
                        {| w_book := osisBook;
                           w_chapter := chapter parsed;
                           w_verse := verse parsed;
                           w_wordNum := wordNum parsed;
                           w_type := type parsed;
                           w_greek := greek;
                           w_translation := translation;
                           w_strongs := strongs;
                           w_morph := morph;
                           w_gloss := gloss;
                           w_editions := editions |}
                  end
              end
        end.

(** [verseMap.get(verseKey)!.push(word)], after [verseMap.set(verseKey, [])]
    when the key is new. *)
Definition push_word (verseMap : gmap (list Z) (list ParsedWord))
    (key : list Z) (word : ParsedWord) : gmap (list Z) (list ParsedWord) :=
  <[ key := default [] (verseMap !! key) ++ [word] ]> verseMap.

(** The loop over the lines.  [None] when a line is stored under an
    inherited name, which the model does not follow. *)
Fixpoint parse_lines (lines : list (list Z)) (verseMap : gmap (list Z) (list ParsedWord))
  : option (gmap (list Z) (list ParsedWord)) :=
  match lines with
  | [] => Some verseMap
  | line :: rest =>
      match parse_line line with
      | Skipped => parse_lines rest verseMap
      | Stored key word => parse_lines rest (push_word verseMap key word)
      | StoredUnderInheritedName _ => None
      end
  end.


End Corpus.

(** ** The list of books (src/source.ts) *)

(** [listBooks]: [Object.keys(BOOK_TO_OSIS)], the keys in the order of the
    object literal (none of them is an array index). *)
Definition listBooks : list (list Z) :=
  [ js "Matthew"; js "Mark"; js "Luke"; js "John"; js "Acts"; js "Romans";
    js "1 Corinthians"; js "2 Corinthians"; js "Galatians"; js "Ephesians";
    js "Philippians"; js "Colossians"; js "1 Thessalonians"; js "2 Thessalonians";
    js "1 Timothy"; js "2 Timothy"; js "Titus"; js "Philemon"; js "Hebrews";
    js "James"; js "1 Peter"; js "2 Peter"; js "1 John"; js "2 John"; js "3 John";
    js "Jude"; js "Revelation" ].

(** ** Saving (scripts/import.ts, [main]) *)


(** * Properties *)

(** ** Lists of code points *)

Lemma take_drop_while (p : Z -> bool) (l : list Z) :
  take_while p l ++ drop_while p l = l.
Proof.
  induction l as [|c r IH]; simpl; [done|].
  destruct (p c); simpl; [by rewrite IH | done].
Qed.

Lemma take_while_Forall (p : Z -> bool) (l : list Z) :
  Forall (fun c => p c = true) (take_while p l).
Proof.
  induction l as [|c r IH]; simpl; [constructor|].
  destruct (p c) eqn:Hc; by constructor.
Qed.

Lemma take_while_stops (p : Z -> bool) (run rest : list Z) :
  Forall (fun c => p c = true) run ->
  match rest with c :: _ => p c = false | [] => True end ->
  take_while p (run ++ rest) = run /\ drop_while p (run ++ rest) = rest.
Proof.
  intros Hrun Hrest. induction Hrun as [|c run Hc _ IH]; simpl.
  - destruct rest as [|c r]; simpl; [done|]. by rewrite Hrest.
  - rewrite Hc. destruct IH as [-> ->]. done.
Qed.

Lemma includes_singleton (c : Z) (l : list Z) :
  includes [c] l = true <-> c ∈ l.
Proof.
  induction l as [|d r IH].
  - simpl. split; [done | by intros ?%elem_of_nil].
  - cbn [includes starts_with]. rewrite elem_of_cons, orb_true_iff, IH, andb_true_r, Z.eqb_eq.
    done.
Qed.

(** ** The Unicode tables *)

Lemma decomposition_map_lookup (c : Z) (d : list Z) :
  decomposition_map !! c = Some d -> (c, d) ∈ canonical_decomposition_table.
Proof. unfold decomposition_map. apply elem_of_list_to_map_2. Qed.

Lemma lowercase_map_lookup (c c' : Z) :
  lowercase_map !! c = Some c' -> (c, c') ∈ lowercase_table.
Proof. unfold lowercase_map. apply elem_of_list_to_map_2. Qed.

#[global] Opaque decomposition_map lowercase_map combining_class_map.

(** A code point that canonical decomposition leaves alone. *)
Definition inert (c : Z) : Prop := decompose c = [c].

Definition is_inert (c : Z) : bool :=
  match decompose c with
  | [x] => x =? c
  | _ => false
  end.

Lemma is_inert_spec (c : Z) : is_inert c = true <-> inert c.
Proof.
  unfold is_inert, inert. destruct (decompose c) as [|x [|y l]]; split; try done.
  - by intros ->%Z.eqb_eq.
  - intros [= ->]. apply Z.eqb_refl.
Qed.

(** What is checked of every decomposition, whatever the code point: the
    code points it consists of are inert, and none is the combining
    grapheme joiner U+034F. *)
Definition sound_decomposition (d : list Z) : bool :=
  forallb (fun x => is_inert x && negb (x =? 0x34F)) d.

Lemma decomposition_table_sound :
  forallb (fun e => sound_decomposition e.2) canonical_decomposition_table = true.
Proof. vm_compute. reflexivity. Qed.

Lemma hangul_decomposition_sound :
  forallb (fun c => sound_decomposition (hangul_decomposition c))
    (seqZ 0xAC00 (0xD7A3 - 0xAC00 + 1)) = true.
Proof. vm_compute. reflexivity. Qed.

Lemma decompose_sound (c : Z) :
  c <> 0x34F -> sound_decomposition (decompose c) = true.
Proof.
  intros Hc. destruct (decompose c) as [|x l] eqn:Hdec; [done|]. rewrite <- Hdec.
  unfold decompose in *.
  destruct (decomposition_map !! c) as [d|] eqn:Hd.
  - apply decomposition_map_lookup in Hd.
    pose proof decomposition_table_sound as H.
    rewrite forallb_forall in H. apply (H (c, d)). by apply list_elem_of_In.
  - destruct (is_hangul_syllable c) eqn:Hh.
    + pose proof hangul_decomposition_sound as H.
      rewrite forallb_forall in H. apply H. apply list_elem_of_In, elem_of_seqZ.
      unfold is_hangul_syllable in Hh. lia.
    + unfold sound_decomposition. cbn [forallb]. rewrite andb_true_r.
      apply andb_true_iff. split.
      * apply is_inert_spec. unfold inert, decompose. by rewrite Hd, Hh.
      * apply negb_true_iff, Z.eqb_neq. done.
Qed.

(** ** Canonical ordering *)

#[global] Opaque ccc.

(** [c] may stand in front of the text [l]: the mark that follows it, if
    any, would not be moved in front of it. *)
Definition may_precede (c : Z) (l : list Z) : Prop :=
  match l with
  | d :: _ => (0 <? ccc d) && (ccc d <? ccc c) = false
  | [] => True
  end.

(** A text in canonical order. *)
Fixpoint ordered (l : list Z) : Prop :=
  match l with
  | [] => True
  | c :: r => may_precede c r /\ ordered r
  end.

Lemma sink_fixed (c : Z) (l : list Z) : may_precede c l -> sink c l = c :: l.
Proof. destruct l as [|d r]; simpl; [done|]. by intros ->. Qed.

Lemma canonical_order_fixed (l : list Z) : ordered l -> canonical_order l = l.
Proof.
  unfold canonical_order. induction l as [|c r IH]; simpl; [done|].
  intros [Hc Hr]. rewrite IH by done. by apply sink_fixed.
Qed.

Lemma sink_ordered (c : Z) (l : list Z) : ordered l -> ordered (sink c l).
Proof.
  induction l as [|d r IH]; [done|]. intros [Hd Hr]. cbn [sink].
  destruct ((0 <? ccc d) && (ccc d <? ccc c)) eqn:Hcd; [|by repeat split].
  split; [|by apply IH].
  destruct r as [|e r']; cbn [sink may_precede] in *.
  - lia.
  - destruct ((0 <? ccc e) && (ccc e <? ccc c)); cbn [may_precede]; [done | lia].
Qed.

Lemma canonical_order_ordered (l : list Z) : ordered (canonical_order l).
Proof.
  unfold canonical_order. induction l as [|c r IH]; simpl; [done|].
  by apply sink_ordered.
Qed.

Lemma sink_Permutation (c : Z) (l : list Z) : sink c l ≡ₚ c :: l.
Proof.
  induction l as [|d r IH]; simpl; [done|].
  destruct ((0 <? ccc d) && (ccc d <? ccc c)); [|done].
  rewrite IH. apply Permutation_swap.
Qed.

Lemma canonical_order_Permutation (l : list Z) : canonical_order l ≡ₚ l.
Proof.
  unfold canonical_order. induction l as [|c r IH]; simpl; [done|].
  by rewrite sink_Permutation, IH.
Qed.

(** Replacing code points by starters or by code points of the same class
    keeps a text in canonical order. *)
Lemma ordered_Forall2 (l l' : list Z) :
  Forall2 (fun c c' => ccc c' = ccc c \/ ccc c' = 0) l l' ->
  ordered l -> ordered l'.
Proof.
  induction 1 as [|c c' l l' Hc Hl IH]; [done|].
  intros [Hfirst Hrest]. split; [|by apply IH].
  destruct Hl as [|d d' l l' Hd _]; cbn [may_precede] in *; [done|]. lia.
Qed.

(** So does removing non-starters. *)
Lemma may_precede_skip (c d : Z) (l : list Z) :
  0 < ccc d -> may_precede c [d] -> may_precede d l -> may_precede c l.
Proof.
  intros Hd Hcd Hdl. destruct l as [|e r]; cbn [may_precede] in *; [done|]. lia.
Qed.

Lemma ordered_filter_head (P : Z -> Prop) `{!forall c, Decision (P c)} (l : list Z) (c : Z) :
  Forall (fun d => ~ P d -> 0 < ccc d) l ->
  ordered (c :: l) -> ordered (c :: filter P l).
Proof.
  intros Hl. revert c. induction Hl as [|d r Hd Hr IH]; [done|].
  intros c [Hcd Hdr].
  assert (ordered (d :: filter P r)) as [Hd' Hrest'] by by apply IH.
  destruct (decide (P d)) as [Hpd|Hpd].
  - rewrite filter_cons_True by done. by repeat split.
  - rewrite filter_cons_False by done.
    split; [|done]. apply (may_precede_skip c d); [by apply Hd | done | done].
Qed.

Lemma ordered_filter (P : Z -> Prop) `{!forall c, Decision (P c)} (l : list Z) :
  Forall (fun c => ~ P c -> 0 < ccc c) l ->
  ordered l -> ordered (filter P l).
Proof.
  destruct l as [|c r]; [done|]. intros Hl Hord.
  inversion_clear Hl as [|? ? Hc Hr].
  assert (ordered (c :: filter P r)) as [? ?] by by apply ordered_filter_head.
  destruct (decide (P c)).
  - rewrite filter_cons_True by done. by repeat split.
  - by rewrite filter_cons_False.
Qed.

(** ** Normalisation yields a decomposed, ordered text *)

Lemma decompose_inert (c x : Z) : x ∈ decompose c -> inert x.
Proof.
  intros Hx. destruct (decide (c = 0x34F)) as [->|Hc].
  - assert (decompose 0x34F = [0x34F]) as Hj by (vm_compute; reflexivity).
    rewrite Hj in Hx. by apply list_elem_of_singleton in Hx as ->.
  - pose proof (decompose_sound c Hc) as H. unfold sound_decomposition in H.
    rewrite forallb_forall in H. apply list_elem_of_In, H in Hx.
    apply andb_true_iff in Hx as [Hx _]. by apply is_inert_spec.
Qed.

Lemma decompose_no_joiner (c : Z) : c <> 0x34F -> 0x34F ∉ decompose c.
Proof.
  intros Hc Hin. pose proof (decompose_sound c Hc) as H. unfold sound_decomposition in H.
  rewrite forallb_forall in H. apply list_elem_of_In, H in Hin.
  apply andb_true_iff in Hin as [_ Hin]. done.
Qed.

Lemma flat_map_decompose_inert (l : list Z) :
  Forall inert l -> flat_map decompose l = l.
Proof.
  induction 1 as [|c l Hc _ IH]; [done|]. cbn [flat_map]. rewrite Hc, IH. done.
Qed.

Lemma nfd_fixed (l : list Z) : Forall inert l -> ordered l -> nfd l = l.
Proof.
  intros Hl Hord. unfold nfd. rewrite flat_map_decompose_inert by done.
  by apply canonical_order_fixed.
Qed.

Lemma nfd_inert (text : list Z) : Forall inert (nfd text).
Proof.
  unfold nfd. rewrite canonical_order_Permutation.
  apply Forall_forall. intros x Hx%list_elem_of_In%in_flat_map.
  destruct Hx as (c & _ & Hx). apply (decompose_inert c). by apply list_elem_of_In.
Qed.

Lemma nfd_ordered (text : list Z) : ordered (nfd text).
Proof. apply canonical_order_ordered. Qed.

Lemma nfd_no_joiner (text : list Z) : 0x34F ∉ text -> 0x34F ∉ nfd text.
Proof.
  unfold nfd. rewrite canonical_order_Permutation.
  intros Hs Hin%list_elem_of_In%in_flat_map. destruct Hin as (c & Hc & Hin).
  apply (decompose_no_joiner c).
  - intros ->. by apply Hs, list_elem_of_In.
  - by apply list_elem_of_In.
Qed.

(** ** Case conversion of decomposed text *)

(** A code point that [toLowerCase] leaves alone wherever it stands. *)
Definition settled (c : Z) : Prop := c <> 0x3A3 /\ lower_code_point c = [c].

Definition is_settled (c : Z) : bool :=
  negb (c =? 0x3A3) && negb (c =? 0x130) &&
  match lowercase_map !! c with None => true | Some _ => false end.

Lemma is_settled_spec (c : Z) : is_settled c = true -> settled c.
Proof.
  unfold is_settled, settled, lower_code_point.
  intros [[H1 H2]%andb_true_iff H3]%andb_true_iff.
  apply negb_true_iff, Z.eqb_neq in H1. apply negb_true_iff in H2.
  rewrite H2. by destruct (lowercase_map !! c).
Qed.

(** What [toLowerCase] may turn an inert code point outside U+0300..U+036F
    into: again such a code point, settled, and a starter unless it is the
    code point itself. *)
Definition sound_lowercase (c c' : Z) : bool :=
  is_inert c' && negb (is_combining_mark c') && is_settled c' &&
  ((ccc c' =? ccc c) || (ccc c' =? 0)).

Lemma lowercase_table_sound :
  forallb (fun e => negb (is_inert e.1) || sound_lowercase e.1 e.2) lowercase_table = true.
Proof. vm_compute. reflexivity. Qed.

Lemma sigma_sound :
  sound_lowercase 0x3A3 0x3C2 && sound_lowercase 0x3A3 0x3C3 = true.
Proof. vm_compute. reflexivity. Qed.

Lemma dotted_capital_i_not_inert : is_inert 0x130 = false.
Proof. vm_compute. reflexivity. Qed.

Definition lowered (c c' : Z) : Prop :=
  inert c' /\ is_combining_mark c' = false /\ settled c' /\
  (ccc c' = ccc c \/ ccc c' = 0).

Lemma sound_lowercase_spec (c c' : Z) : sound_lowercase c c' = true -> lowered c c'.
Proof.
  unfold sound_lowercase, lowered.
  intros [[[H1 H2]%andb_true_iff H3]%andb_true_iff H4]%andb_true_iff.
  apply is_inert_spec in H1. apply negb_true_iff in H2. apply is_settled_spec in H3.
  apply orb_true_iff in H4. rewrite !Z.eqb_eq in H4.
  exact (conj H1 (conj H2 (conj H3 H4))).
Qed.

Section LowerCase.

Variable final_sigma : list Z -> list Z -> bool.

Lemma lower_at_lowered (before after : list Z) (c : Z) :
  inert c -> is_combining_mark c = false ->
  exists c', lower_at final_sigma before c after = [c'] /\ lowered c c'.
Proof.
  intros Hc Hm. unfold lower_at.
  destruct (c =? 0x3A3) eqn:Hs.
  - apply Z.eqb_eq in Hs as ->.
    pose proof sigma_sound as [H1 H2]%andb_true_iff.
    destruct (final_sigma before after); eexists; (split; [done|]);
      by apply sound_lowercase_spec.
  - apply Z.eqb_neq in Hs. unfold lower_code_point.
    destruct (c =? 0x130) eqn:Hi.
    { apply Z.eqb_eq in Hi as ->. apply is_inert_spec in Hc.
      by rewrite dotted_capital_i_not_inert in Hc. }
    destruct (lowercase_map !! c) as [c'|] eqn:Hl; cbn [default].
    + exists c'. split; [done|]. apply sound_lowercase_spec.
      apply lowercase_map_lookup, list_elem_of_In in Hl.
      pose proof lowercase_table_sound as H. rewrite forallb_forall in H.
      apply H in Hl. cbn [fst snd] in Hl.
      apply is_inert_spec in Hc. by rewrite Hc in Hl.
    + exists c. split; [done|]. unfold lowered, settled.
      split; [exact Hc|]. split; [exact Hm|]. split; [|by left].
      split; [exact Hs|]. unfold lower_code_point. rewrite Hi, Hl. reflexivity.
Qed.

Lemma lower_from_lowered (before text : list Z) :
  Forall (fun c => inert c /\ is_combining_mark c = false) text ->
  Forall2 lowered text (lower_from final_sigma before text).
Proof.
  intros Htext. revert before.
  induction Htext as [|c text [Hc Hm] _ IH]; intros before; cbn [lower_from].
  - constructor.
  - destruct (lower_at_lowered before text c Hc Hm) as (c' & -> & Hc').
    constructor; [done | apply IH].
Qed.

Lemma lower_from_settled (before text : list Z) :
  Forall settled text -> lower_from final_sigma before text = text.
Proof.
  intros Htext. revert before.
  induction Htext as [|c text [Hs Hc] _ IH]; intros before; cbn [lower_from]; [done|].
  unfold lower_at. apply Z.eqb_neq in Hs. rewrite Hs, Hc, IH. done.
Qed.

End LowerCase.

(** ** Normalised text *)

(** What [normalizeGreek] is shown to produce, and what it leaves alone:
    text that is canonically decomposed and ordered, has no code point of
    U+0300..U+036F, and is in lower case. *)
Definition normalized (t : list Z) : Prop :=
  Forall inert t /\ Forall (fun c => is_combining_mark c = false) t /\
  Forall settled t /\ ordered t.

Lemma combining_marks_are_non_starters :
  forallb (fun c => (c =? 0x34F) || (0 <? ccc c)) (seqZ 0x300 (0x36F - 0x300 + 1)) = true.
Proof. vm_compute. reflexivity. Qed.

Lemma combining_mark_non_starter (c : Z) :
  is_combining_mark c = true -> c <> 0x34F -> 0 < ccc c.
Proof.
  intros Hm Hc. pose proof combining_marks_are_non_starters as H.
  rewrite forallb_forall in H. specialize (H c).
  rewrite orb_true_iff, Z.eqb_eq, Z.ltb_lt in H.
  destruct H as [H|H]; [|congruence|exact H].
  apply list_elem_of_In, elem_of_seqZ. unfold is_combining_mark in Hm. lia.
Qed.

Lemma iota_facts : is_inert 0x3B9 = true /\ ccc 0x3B9 = 0 /\ is_combining_mark 0x345 = true.
Proof. vm_compute. repeat split; reflexivity. Qed.

Lemma replace_iota_subscript_inert (l : list Z) :
  Forall inert l -> Forall inert (replace_iota_subscript l).
Proof.
  unfold replace_iota_subscript. intros Hl. apply Forall_forall.
  intros x Hx%list_elem_of_In%in_map_iff. destruct Hx as (c & <- & Hc).
  destruct (c =? 0x345).
  - apply is_inert_spec, iota_facts.
  - rewrite Forall_forall in Hl. by apply Hl, list_elem_of_In.
Qed.

Lemma replace_iota_subscript_ordered (l : list Z) :
  ordered l -> ordered (replace_iota_subscript l).
Proof.
  apply ordered_Forall2. unfold replace_iota_subscript.
  induction l as [|c l IH]; cbn [map]; constructor; [|exact IH].
  destruct (c =? 0x345); [right; apply iota_facts | by left].
Qed.

Lemma replace_iota_subscript_no_joiner (l : list Z) :
  0x34F ∉ l -> 0x34F ∉ replace_iota_subscript l.
Proof.
  unfold replace_iota_subscript.
  intros Hl Hx%list_elem_of_In%in_map_iff. destruct Hx as (c & Hc & Hin).
  destruct (c =? 0x345) eqn:E; [discriminate|]. subst c. by apply Hl, list_elem_of_In.
Qed.

Lemma replace_iota_subscript_fixed (l : list Z) :
  Forall (fun c => is_combining_mark c = false) l -> replace_iota_subscript l = l.
Proof.
  unfold replace_iota_subscript. induction 1 as [|c l Hc _ IH]; cbn [map]; [done|].
  rewrite IH. destruct (c =? 0x345) eqn:E; [|done].
  apply Z.eqb_eq in E as ->. destruct iota_facts as (_ & _ & H). congruence.
Qed.

Lemma remove_combining_marks_fixed (l : list Z) :
  Forall (fun c => is_combining_mark c = false) l -> remove_combining_marks l = l.
Proof.
  unfold remove_combining_marks. induction 1 as [|c l Hc _ IH]; [done|].
  rewrite filter_cons_True by exact Hc. by rewrite IH.
Qed.

Section Normalization.

Variable final_sigma : list Z -> list Z -> bool.

Lemma normalizeGreek_fixed (t : list Z) :
  normalized t -> normalizeGreek final_sigma t = t.
Proof.
  intros (Hi & Hm & Hs & Ho). unfold normalizeGreek, toLowerCase.
  rewrite nfd_fixed by assumption.
  rewrite replace_iota_subscript_fixed by assumption.
  rewrite remove_combining_marks_fixed by assumption.
  by apply lower_from_settled.
Qed.

Lemma normalizeGreek_normalized (s : list Z) :
  0x34F ∉ s -> normalized (normalizeGreek final_sigma s).
Proof.
  intros Hs. unfold normalizeGreek, toLowerCase.
  set (r := replace_iota_subscript (nfd s)).
  assert (Forall inert r) as Hri by apply replace_iota_subscript_inert, nfd_inert.
  assert (ordered r) as Hro by apply replace_iota_subscript_ordered, nfd_ordered.
  assert (0x34F ∉ r) as Hrj by by apply replace_iota_subscript_no_joiner, nfd_no_joiner.
  set (u := remove_combining_marks r).
  assert (Forall (fun c => inert c /\ is_combining_mark c = false) u) as Hu.
  { apply Forall_forall. intros c [Hc Hin]%list_elem_of_filter.
    rewrite Forall_forall in Hri. split; [by apply Hri | exact Hc]. }
  assert (ordered u) as Huo.
  { apply ordered_filter; [|exact Hro]. apply Forall_forall. intros c Hin Hc.
    apply combining_mark_non_starter; [by destruct (is_combining_mark c)|].
    by intros ->. }
  pose proof (lower_from_lowered final_sigma [] u Hu) as Hlow.
  repeat split.
  - eapply Forall2_Forall_r; [exact Hlow|]. apply Forall_true. by intros c c' (? & _).
  - eapply Forall2_Forall_r; [exact Hlow|]. apply Forall_true. by intros c c' (_ & ? & _).
  - eapply Forall2_Forall_r; [exact Hlow|]. apply Forall_true. by intros c c' (_ & _ & ? & _).
  - apply (ordered_Forall2 u); [|exact Huo].
    eapply Forall2_impl; [exact Hlow|]. by intros c c' (_ & _ & _ & ?).
Qed.

End Normalization.

(** ** Digit reduction *)

Lemma add_digits_spec (fuel : nat) (val sum : Z) :
  0 <= val < Z.of_nat fuel ->
  let r := add_digits fuel val sum in
  (r - (sum + val)) mod 9 = 0 /\ sum <= r <= sum + val /\
  (1 <= val -> sum + 1 <= r) /\ (10 <= val -> r < sum + val).
Proof.
  revert val sum. induction fuel as [|fuel IH]; intros val sum Hval; [lia|].
  cbn [add_digits]. destruct (0 <? val) eqn:Hpos.
  - apply Z.ltb_lt in Hpos.
    destruct (IH (val / 10) (sum + val mod 10)) as (H1 & H2 & H3 & H4).
    { split; [apply Z.div_pos; lia|]. apply Z.div_lt_upper_bound; lia. }
    cbv zeta in *. set (r := add_digits fuel (val / 10) (sum + val mod 10)) in *.
    pose proof (Z.div_mod val 10 ltac:(lia)) as Hdm.
    pose proof (Z.mod_pos_bound val 10 ltac:(lia)) as Hm.
    assert (0 <= val / 10) by (apply Z.div_pos; lia).
    split; [clear H2 H3 H4; Z.div_mod_to_equations; lia|].
    split; [lia|]. split.
    + intros _. destruct (Z.eq_dec (val / 10) 0); lia.
    + intros Hten. assert (1 <= val / 10) by (apply Z.div_le_lower_bound; lia). lia.
  - apply Z.ltb_ge in Hpos. assert (val = 0) as -> by lia. cbv zeta.
    rewrite Z.add_0_r, Z.sub_diag. repeat split; lia.
Qed.

Lemma digit_sum_spec (val : Z) :
  0 <= val ->
  (digit_sum val - val) mod 9 = 0 /\ 0 <= digit_sum val <= val /\
  (1 <= val -> 1 <= digit_sum val) /\ (10 <= val -> digit_sum val < val).
Proof.
  intros Hval. unfold digit_sum.
  destruct (add_digits_spec (S (Z.to_nat val)) val 0) as (H1 & H2 & H3 & H4); [lia|].
  cbv zeta in *. rewrite Z.add_0_l in *. repeat split; first [assumption | lia].
Qed.

Lemma reduce_digits_spec (fuel : nat) (val : Z) :
  0 <= val <= Z.of_nat fuel ->
  let r := reduce_digits fuel val in
  (r - val) mod 9 = 0 /\ r <= 9 /\ (1 <= val -> 1 <= r) /\ (val <= 9 -> r = val).
Proof.
  revert val. induction fuel as [|fuel IH]; intros val Hval; cbn [reduce_digits].
  - assert (val = 0) as -> by lia. cbv zeta. repeat split; lia.
  - destruct (9 <? val) eqn:Hbig.
    + apply Z.ltb_lt in Hbig.
      destruct (digit_sum_spec val) as (D1 & D2 & D3 & D4); [lia|].
      destruct (IH (digit_sum val)) as (H1 & H2 & H3 & H4); [lia|].
      cbv zeta in *. repeat split; try lia.
      clear H2 H3 H4 D2 D3 D4. Z.div_mod_to_equations. lia.
    + apply Z.ltb_ge in Hbig. cbv zeta. rewrite Z.sub_diag. repeat split; lia.
Qed.

(** ** Sums of gematria *)

Definition gematria_plus (a b : gematria) : gematria :=
  Gematria (standard a + standard b) (ordinal a + ordinal b) (reduced a + reduced b).

(** The contribution of one normalised character. *)
Definition char_gematria (c : Z) : gematria := add_char no_gematria c.

Definition total (f : Z -> gematria) (l : list Z) : gematria :=
  foldr (fun c acc => gematria_plus (f c) acc) no_gematria l.

Lemma gematria_plus_comm (a b : gematria) : gematria_plus a b = gematria_plus b a.
Proof. unfold gematria_plus. f_equal; lia. Qed.

Lemma gematria_plus_assoc (a b c : gematria) :
  gematria_plus a (gematria_plus b c) = gematria_plus (gematria_plus a b) c.
Proof. unfold gematria_plus. cbn. f_equal; lia. Qed.

Lemma gematria_plus_0_l (a : gematria) : gematria_plus no_gematria a = a.
Proof. destruct a. unfold gematria_plus. cbn. done. Qed.

Lemma gematria_plus_0_r (a : gematria) : gematria_plus a no_gematria = a.
Proof. rewrite gematria_plus_comm. apply gematria_plus_0_l. Qed.

Lemma add_char_plus (acc : gematria) (c : Z) :
  add_char acc c = gematria_plus acc (char_gematria c).
Proof.
  unfold char_gematria, add_char, gematria_plus.
  destruct (GREEK_VALUES !! c), (GREEK_ORDINAL !! c); cbn; f_equal; lia.
Qed.

Lemma fold_add_char (l : list Z) (acc : gematria) :
  fold_left add_char l acc = gematria_plus acc (total char_gematria l).
Proof.
  revert acc. induction l as [|c l IH]; intros acc; cbn [fold_left total foldr].
  - by rewrite gematria_plus_0_r.
  - rewrite IH, add_char_plus, <- gematria_plus_assoc. done.
Qed.

Lemma sum_chars_total (l : list Z) : sum_chars l = total char_gematria l.
Proof. unfold sum_chars. rewrite fold_add_char. apply gematria_plus_0_l. Qed.

Lemma total_app (f : Z -> gematria) (l1 l2 : list Z) :
  total f (l1 ++ l2) = gematria_plus (total f l1) (total f l2).
Proof.
  induction l1 as [|c l1 IH]; cbn [app total foldr].
  - by rewrite gematria_plus_0_l.
  - fold (total f (l1 ++ l2)). fold (total f l1). by rewrite IH, gematria_plus_assoc.
Qed.

Lemma total_Permutation (f : Z -> gematria) (l1 l2 : list Z) :
  l1 ≡ₚ l2 -> total f l1 = total f l2.
Proof.
  induction 1 as [|c l1 l2 _ IH|c d l|l1 l2 l3 _ IH1 _ IH2]; cbn [total foldr].
  - done.
  - fold (total f l1). fold (total f l2). by rewrite IH.
  - rewrite !gematria_plus_assoc. f_equal. apply gematria_plus_comm.
  - by rewrite IH1.
Qed.

Lemma total_flat_map (f : Z -> gematria) (g : Z -> list Z) (l : list Z) :
  total f (flat_map g l) = total (fun c => total f (g c)) l.
Proof.
  induction l as [|c l IH]; cbn [flat_map]; [done|].
  rewrite total_app, IH. done.
Qed.

Lemma total_map (f : Z -> gematria) (g : Z -> Z) (l : list Z) :
  total f (map g l) = total (fun c => f (g c)) l.
Proof.
  induction l as [|c l IH]; cbn [map total foldr]; [done|].
  fold (total f (map g l)). by rewrite IH.
Qed.

Lemma total_filter (f : Z -> gematria) (P : Z -> Prop) `{!forall c, Decision (P c)} (l : list Z) :
  total f (filter P l) = total (fun c => if decide (P c) then f c else no_gematria) l.
Proof.
  induction l as [|c l IH]; [done|]. cbn [total foldr].
  fold (total (fun c => if decide (P c) then f c else no_gematria) l). rewrite <- IH.
  destruct (decide (P c)).
  - by rewrite filter_cons_True.
  - by rewrite filter_cons_False, gematria_plus_0_l.
Qed.

Lemma total_ext (f g : Z -> gematria) (l : list Z) :
  Forall (fun c => f c = g c) l -> total f l = total g l.
Proof.
  induction 1 as [|c l Hc _ IH]; [done|]. cbn [total foldr].
  fold (total f l). fold (total g l). by rewrite Hc, IH.
Qed.

(** ** The gematria of a text is the sum of the weights of its code points *)

Lemma GREEK_ORDINAL_lookup (c v : Z) :
  GREEK_ORDINAL !! c = Some v ->
  is_Some (GREEK_VALUES !! c) /\ 1 <= v <= 24.
Proof.
  unfold GREEK_ORDINAL. intros H%elem_of_list_to_map_2.
  repeat (apply elem_of_cons in H as [[= -> ->]|H];
          [split; [vm_compute; eexists; reflexivity | lia]|]).
  by apply elem_of_nil in H.
Qed.

Lemma GREEK_VALUES_lookup (c v : Z) :
  GREEK_VALUES !! c = Some v -> 1 <= v <= 900.
Proof.
  unfold GREEK_VALUES. intros H%elem_of_list_to_map_2.
  repeat (apply elem_of_cons in H as [[= -> ->]|H]; [lia|]).
  by apply elem_of_nil in H.
Qed.

#[global] Opaque GREEK_VALUES GREEK_ORDINAL.

Definition has_value (c : Z) : bool :=
  match GREEK_VALUES !! c with Some _ => true | None => false end.

Lemma char_gematria_no_value (c : Z) :
  has_value c = false -> char_gematria c = no_gematria.
Proof.
  unfold has_value, char_gematria, add_char. intros Hc.
  destruct (GREEK_ORDINAL !! c) as [v|] eqn:Ho.
  - apply GREEK_ORDINAL_lookup in Ho as [[w Hw] _]. by rewrite Hw in Hc.
  - by destruct (GREEK_VALUES !! c).
Qed.

Lemma total_no_value (l : list Z) :
  forallb (fun x => negb (has_value x)) l = true -> total char_gematria l = no_gematria.
Proof.
  induction l as [|c l IH]; [done|]. cbn [forallb total foldr].
  intros [Hc Hl]%andb_true_iff. fold (total char_gematria l).
  rewrite IH by exact Hl. rewrite char_gematria_no_value by by apply negb_true_iff.
  reflexivity.
Qed.

(** What a code point of lower-cased text adds, whichever sigma stands for a
    capital one. *)
Definition lowered_weight (c : Z) : gematria :=
  if c =? 0x3A3 then char_gematria 0x3C3 else sum_chars (lower_code_point c).

(** What a code point of decomposed text adds. *)
Definition decomposed_weight (c : Z) : gematria :=
  if decide (is_combining_mark (if c =? 0x345 then 0x3B9 else c) = false)
  then lowered_weight (if c =? 0x345 then 0x3B9 else c)
  else no_gematria.

(** What a code point of the text adds. *)
Definition code_point_weight (c : Z) : gematria :=
  total decomposed_weight (decompose c).

Lemma sigma_gematria :
  sum_chars [0x3C2] = char_gematria 0x3C3 /\ sum_chars [0x3C3] = char_gematria 0x3C3.
Proof. vm_compute. split; reflexivity. Qed.

Section GematriaSum.

Variable final_sigma : list Z -> list Z -> bool.

Lemma sum_chars_lower_from (before l : list Z) :
  sum_chars (lower_from final_sigma before l) = total lowered_weight l.
Proof.
  revert before. induction l as [|c l IH]; intros before; [done|].
  cbn [lower_from total foldr]. fold (total lowered_weight l).
  rewrite sum_chars_total, total_app, <- !sum_chars_total, IH. f_equal.
  unfold lower_at, lowered_weight. destruct (c =? 0x3A3); [|done].
  destruct (final_sigma before l); apply sigma_gematria.
Qed.

Lemma computeGreek_total (s : list Z) :
  computeGreek final_sigma s = total code_point_weight s.
Proof.
  unfold computeGreek, normalizeGreek, toLowerCase.
  rewrite sum_chars_lower_from. unfold remove_combining_marks.
  rewrite total_filter. unfold replace_iota_subscript. rewrite total_map.
  unfold nfd. rewrite (total_Permutation _ _ _ (canonical_order_Permutation _)).
  rewrite total_flat_map. reflexivity.
Qed.

Lemma computeGreek_app (s1 s2 : list Z) :
  computeGreek final_sigma (s1 ++ s2)
  = gematria_plus (computeGreek final_sigma s1) (computeGreek final_sigma s2).
Proof. rewrite !computeGreek_total. apply total_app. Qed.

Lemma computeGreek_singleton (c : Z) :
  computeGreek final_sigma [c] = code_point_weight c.
Proof. rewrite computeGreek_total. cbn [total foldr]. apply gematria_plus_0_r. Qed.

(** An input character none of whose normalised code points has an entry
    in [GREEK_VALUES]. *)
Definition unrecognized (c : Z) : bool :=
  forallb (fun x => negb (has_value x)) (normalizeGreek final_sigma [c]).

Lemma unrecognized_weight (c : Z) :
  unrecognized c = true -> code_point_weight c = no_gematria.
Proof.
  intros Hc. rewrite <- computeGreek_singleton. unfold computeGreek.
  rewrite sum_chars_total. by apply total_no_value.
Qed.

Lemma computeGreek_filter (P : Z -> Prop) `{!forall c, Decision (P c)} (s : list Z) :
  Forall (fun c => ~ P c -> unrecognized c = true) s ->
  computeGreek final_sigma (filter P s) = computeGreek final_sigma s.
Proof.
  intros Hs. rewrite !computeGreek_total, total_filter. apply total_ext.
  eapply Forall_impl; [exact Hs|]. intros c Hc. cbv beta.
  destruct (decide (P c)); [done|]. symmetry. by apply unrecognized_weight, Hc.
Qed.

Lemma ascii_unrecognized :
  forallb unrecognized (seqZ 0 0x80) = true.
Proof. vm_compute. reflexivity. Qed.

End GematriaSum.

(** * The claims about the gematria *)

(** C3.  The iota subscript counts as a full iota: the standard values of
    ἀρχῇ and ἀρχη differ by the value of iota, 10, because normalisation turns
    the combining mark U+0345 into the letter iota (ἀρχῇ normalises to αρχηι)
    instead of removing it with the other marks.  More generally, an iota
    subscript appended to any text adds exactly 10 to its standard value. *)
Theorem iota_subscript_counts_as_iota (final_sigma : list Z -> list Z -> bool) :
  standard (computeGreek final_sigma (js "ἀρχῇ"))
    - standard (computeGreek final_sigma (js "ἀρχη")) = 10
  /\ normalizeGreek final_sigma (js "ἀρχῇ") = js "αρχηι"
  /\ forall s, standard (computeGreek final_sigma (s ++ [0x345]))
               = standard (computeGreek final_sigma s) + 10.
Proof.
  split; [vm_compute; reflexivity|]. split; [vm_compute; reflexivity|].
  intros s. rewrite computeGreek_app, computeGreek_singleton.
  assert (code_point_weight 0x345 = Gematria 10 9 9) as -> by (vm_compute; reflexivity).
  reflexivity.
Qed.

(** C7, as stated: normalising twice is the same as normalising once, for
    every text.  It fails: the combining grapheme joiner U+034F lies in the
    range U+0300..U+036F that is removed, but it is a starter, which keeps
    the marks on its two sides from being reordered.  Once it is removed
    they are out of canonical order, and a second normalisation reorders
    them. *)
Lemma normalizeGreek_not_idempotent :
  ~ (forall (final_sigma : list Z -> list Z -> bool) (s : list Z),
       normalizeGreek final_sigma (normalizeGreek final_sigma s)
       = normalizeGreek final_sigma s).
Proof.
  intros H. specialize (H sigma_final_at_end [0x3B1; 0x483; 0x34F; 0x591]).
  vm_compute in H. discriminate H.
Qed.

(** C7, amended.  For every text that does not contain the combining
    grapheme joiner U+034F, normalising the normalised text changes
    nothing. *)
Theorem normalizeGreek_idempotent (final_sigma : list Z -> list Z -> bool) (s : list Z) :
  0x34F ∉ s ->
  normalizeGreek final_sigma (normalizeGreek final_sigma s) = normalizeGreek final_sigma s.
Proof.
  intros Hs. by apply normalizeGreek_fixed, normalizeGreek_normalized.
Qed.

(** C8.  The loop of [computeGreek] has no failing step (it is a total
    function), and a character without an entry in a table adds nothing to
    the totals drawn from that table.  Hence the characters of the ASCII
    range (spaces, punctuation, Latin letters) are unrecognised, and removing
    all unrecognised characters from a text does not change its gematria. *)
Theorem unrecognized_characters_add_nothing (final_sigma : list Z -> list Z -> bool) :
  (forall acc c, GREEK_VALUES !! c = None -> standard (add_char acc c) = standard acc)
  /\ (forall acc c, GREEK_ORDINAL !! c = None ->
        ordinal (add_char acc c) = ordinal acc /\ reduced (add_char acc c) = reduced acc)
  /\ (forall c, 0 <= c < 0x80 -> unrecognized final_sigma c = true)
  /\ (forall s, computeGreek final_sigma (filter (fun c => unrecognized final_sigma c = false) s)
                = computeGreek final_sigma s).
Proof.
  split; [|split; [|split]].
  - intros acc c Hc. unfold add_char. rewrite Hc. by destruct (GREEK_ORDINAL !! c).
  - intros acc c Hc. unfold add_char. by rewrite Hc.
  - intros c Hc. pose proof (ascii_unrecognized final_sigma) as H.
    rewrite forallb_forall in H. apply H, list_elem_of_In, elem_of_seqZ. lia.
  - intros s. apply computeGreek_filter, Forall_true. intros c Hc.
    by destruct (unrecognized final_sigma c).
Qed.

Lemma char_gematria_congruent (c : Z) :
  (ordinal (char_gematria c) - reduced (char_gematria c)) mod 9 = 0.
Proof.
  unfold char_gematria, add_char.
  destruct (GREEK_ORDINAL !! c) as [v|] eqn:Hv; cbn [ordinal reduced no_gematria]; [|done].
  apply GREEK_ORDINAL_lookup in Hv as [_ Hv].
  destruct (reduce_digits_spec (Z.to_nat v) v) as (H & _); [lia|]. cbv zeta in H.
  unfold reduce_value. Z.div_mod_to_equations. lia.
Qed.

Lemma total_congruent (l : list Z) :
  (ordinal (total char_gematria l) - reduced (total char_gematria l)) mod 9 = 0.
Proof.
  induction l as [|c l IH]; [done|]. cbn [total foldr]. fold (total char_gematria l).
  pose proof (char_gematria_congruent c) as Hc.
  unfold gematria_plus. cbn [ordinal reduced]. Z.div_mod_to_equations. lia.
Qed.

(** C10.  For every text the ordinal and the reduced totals are congruent
    modulo 9: a letter's reduced value is the repeated digit sum of its
    ordinal value, which keeps the value modulo 9, and both totals run over
    the same letters. *)
Theorem ordinal_reduced_congruent (final_sigma : list Z -> list Z -> bool) (s : list Z) :
  ordinal (computeGreek final_sigma s) mod 9 = reduced (computeGreek final_sigma s) mod 9.
Proof.
  unfold computeGreek. rewrite sum_chars_total.
  pose proof (total_congruent (normalizeGreek final_sigma s)) as H.
  Z.div_mod_to_equations. lia.
Qed.

(** ** The reference grammar *)

(** Brings nested appends into the form [a ++ b ++ ...]. *)
Ltac list_norm :=
  cbn [app]; repeat (rewrite <- app_assoc; cbn [app]).

(** A non-empty run of characters of the class [p]. *)
Definition run_of (p : Z -> bool) (s : list Z) : Prop :=
  s <> [] /\ Forall (fun c => p c = true) s.

(** The text does not go on with a character of the class [p]. *)
Definition stops (p : Z -> bool) (rest : list Z) : Prop :=
  match rest with c :: _ => p c = false | [] => True end.

Lemma one_or_more_Some (p : Z -> bool) (l run rest : list Z) :
  one_or_more p l = Some (run, rest) <->
  run_of p run /\ stops p rest /\ l = run ++ rest.
Proof.
  unfold one_or_more, run_of, stops. split.
  - intros H. pose proof (take_drop_while p l) as Happ.
    pose proof (take_while_Forall p l) as Hall.
    assert (stops p (drop_while p l)) as Hstop.
    { clear. induction l as [|c r IH]; simpl; [done|].
      destruct (p c) eqn:Hc; simpl; [exact IH | exact Hc]. }
    destruct (take_while p l) as [|c run'] eqn:Htake; [done|].
    injection H as <- <-. by repeat split.
  - intros ((Hne & Hall) & Hstop & ->).
    destruct (take_while_stops p run rest Hall Hstop) as [-> ->].
    by destruct run.
Qed.

Lemma expect_Some (c : Z) (l rest : list Z) :
  expect c l = Some rest <-> l = c :: rest.
Proof.
  unfold expect. destruct l as [|d r]; [done|].
  destruct (d =? c) eqn:E.
  - apply Z.eqb_eq in E as ->. split; congruence.
  - apply Z.eqb_neq in E. split; [done | congruence].
Qed.

(** The text of an optional bracketed pair. *)
Definition pair_text (open close : Z) (a b : option (list Z)) : list Z :=
  match a, b with
  | Some a, Some b => open :: a ++ DOT :: b ++ [close]
  | _, _ => []
  end.

(** The two groups of an optional pair are both absent, or both runs of
    digits. *)
Definition digit_pair (a b : option (list Z)) : Prop :=
  (a = None /\ b = None) \/
  (exists x y, a = Some x /\ b = Some y /\ run_of is_digit x /\ run_of is_digit y).

Lemma digit_pair_group_Some (open close : Z) (l rest : list Z) (a b : option (list Z)) :
  is_digit close = false ->
  digit_pair_group open close l = Some (a, b, rest) <->
  digit_pair a b /\ l = pair_text open close a b ++ rest
  /\ (a = None -> match rest with c :: _ => c <> open | [] => True end).
Proof.
  intros Hclose. unfold digit_pair_group, digit_pair. split.
  - destruct l as [|c r]; [intros [= <- <- <-]; by repeat split; auto|].
    destruct (c =? open) eqn:Hc.
    + apply Z.eqb_eq in Hc as ->.
      destruct (one_or_more is_digit r) as [[x r1]|] eqn:H1; [|done]. cbn.
      destruct (expect DOT r1) as [r2|] eqn:H2; [|done]. cbn.
      destruct (one_or_more is_digit r2) as [[y r3]|] eqn:H3; [|done]. cbn.
      destruct (expect close r3) as [r4|] eqn:H4; [|done]. cbn.
      intros [= <- <- <-].
      apply one_or_more_Some in H1 as (Hx & _ & ->).
      apply expect_Some in H2 as ->.
      apply one_or_more_Some in H3 as (Hy & _ & ->).
      apply expect_Some in H4 as ->.
      split; [right; by exists x, y|]. split; [|done].
      cbn [pair_text]. by list_norm.
    + intros [= <- <- <-]. apply Z.eqb_neq in Hc. by repeat split; auto.
  - intros ([[-> ->]|(x & y & -> & -> & Hx & Hy)] & -> & Hrest).
    + cbn [pair_text app]. destruct rest as [|c r]; [done|].
      specialize (Hrest eq_refl). apply Z.eqb_neq in Hrest. by rewrite Hrest.
    + cbn [pair_text]. list_norm. rewrite Z.eqb_refl.
      assert (one_or_more is_digit (x ++ DOT :: y ++ close :: rest)
              = Some (x, DOT :: y ++ close :: rest)) as ->.
      { apply one_or_more_Some. split; [exact Hx|]. split; reflexivity. }
      cbn. rewrite ?Z.eqb_refl. cbn.
      assert (one_or_more is_digit (y ++ close :: rest) = Some (y, close :: rest)) as ->.
      { apply one_or_more_Some. split; [exact Hy|]. split; [exact Hclose | reflexivity]. }
      cbn. by rewrite Z.eqb_refl.
Qed.

(** The token that the nine groups of a match spell. *)
Definition reference_text (m : reference_match) : list Z :=
  m_book m ++ DOT :: m_ch m ++ DOT :: m_vs m
    ++ pair_text LBRACE RBRACE (m_altCh m) (m_altVs m)
    ++ pair_text LBRACKET RBRACKET (m_kjvCh m) (m_kjvVs m)
    ++ HASH :: m_wordNum m ++ EQUALS :: m_type m.

(** The shape the pattern asks of each group. *)
Definition well_formed (m : reference_match) : Prop :=
  run_of is_alnum (m_book m) /\ run_of is_digit (m_ch m) /\ run_of is_digit (m_vs m)
  /\ digit_pair (m_altCh m) (m_altVs m) /\ digit_pair (m_kjvCh m) (m_kjvVs m)
  /\ run_of is_digit (m_wordNum m)
  /\ run_of (fun c => negb (is_line_terminator c)) (m_type m).

Lemma match_reference_sound (ref : list Z) (m : reference_match) :
  match_reference ref = Some m -> well_formed m /\ ref = reference_text m.
Proof.
  unfold match_reference.
  destruct (one_or_more is_alnum ref) as [[book r1]|] eqn:H1; [|done]. cbn.
  destruct (expect DOT r1) as [r2|] eqn:H2; [|done]. cbn.
  destruct (one_or_more is_digit r2) as [[ch r3]|] eqn:H3; [|done]. cbn.
  destruct (expect DOT r3) as [r4|] eqn:H4; [|done]. cbn.
  destruct (one_or_more is_digit r4) as [[vs r5]|] eqn:H5; [|done]. cbn.
  destruct (digit_pair_group LBRACE RBRACE r5) as [[[altCh altVs] r6]|] eqn:H6; [|done]. cbn.
  destruct (digit_pair_group LBRACKET RBRACKET r6) as [[[kjvCh kjvVs] r7]|] eqn:H7; [|done]. cbn.
  destruct (expect HASH r7) as [r8|] eqn:H8; [|done]. cbn.
  destruct (one_or_more is_digit r8) as [[wordNum r9]|] eqn:H9; [|done]. cbn.
  destruct (expect EQUALS r9) as [type|] eqn:H10; [|done]. cbn.
  destruct type as [|t type']; [done|].
  destruct (forallb _ (t :: type')) eqn:H11; [|done].
  intros [= <-].
  apply one_or_more_Some in H1 as (Hbook & _ & ->). apply expect_Some in H2 as ->.
  apply one_or_more_Some in H3 as (Hch & _ & ->). apply expect_Some in H4 as ->.
  apply one_or_more_Some in H5 as (Hvs & _ & ->).
  apply digit_pair_group_Some in H6 as (Halt & -> & _); [|reflexivity].
  apply digit_pair_group_Some in H7 as (Hkjv & -> & _); [|reflexivity].
  apply expect_Some in H8 as ->.
  apply one_or_more_Some in H9 as (HwordNum & _ & ->). apply expect_Some in H10 as ->.
  split; [|reflexivity].
  unfold well_formed. cbn. repeat (split; [assumption|]).
  split; [done|]. apply Forall_forall. intros c Hc.
  rewrite forallb_forall in H11. by apply H11, list_elem_of_In.
Qed.


(** ** Membership in the Textus Receptus *)

Lemma isTrWord_spec (type : list Z) :
  isTrWord type = true <-> 0x4B ∈ type \/ 0x6B ∈ type.
Proof.
  unfold isTrWord. change (js "K") with [0x4B]. change (js "k") with [0x6B].
  by rewrite orb_true_iff, !includes_singleton.
Qed.

Lemma lowercase_to_k :
  forallb (fun e => negb (e.2 =? 0x6B) || (e.1 =? 0x4B) || (e.1 =? 0x212A)) lowercase_table
  = true.
Proof. vm_compute. reflexivity. Qed.

Lemma lower_code_point_k :
  lower_code_point 0x4B = [0x6B] /\ lower_code_point 0x6B = [0x6B]
  /\ lower_code_point 0x212A = [0x6B].
Proof. vm_compute. repeat split; reflexivity. Qed.

Section Membership.

Variable final_sigma : list Z -> list Z -> bool.

Lemma lower_at_k (before after : list Z) (c : Z) :
  0x6B ∈ lower_at final_sigma before c after <-> c = 0x4B \/ c = 0x6B \/ c = 0x212A.
Proof.
  unfold lower_at. split.
  - destruct (c =? 0x3A3).
    { destruct (final_sigma before after); by intros [=]%list_elem_of_singleton. }
    unfold lower_code_point. destruct (c =? 0x130).
    { intros H. apply elem_of_cons in H as [[=]|H].
      by apply list_elem_of_singleton in H. }
    destruct (lowercase_map !! c) as [c'|] eqn:Hl; cbn [default from_option];
      intros H%list_elem_of_singleton; [|auto].
    unfold id in H. subst c'. apply lowercase_map_lookup, list_elem_of_In in Hl.
    pose proof lowercase_to_k as Hk. rewrite forallb_forall in Hk.
    apply Hk in Hl. cbn [fst snd] in Hl. rewrite Z.eqb_refl in Hl. cbn [negb orb] in Hl.
    apply orb_true_iff in Hl as [Hl|Hl]; apply Z.eqb_eq in Hl; auto.
  - destruct lower_code_point_k as (H1 & H2 & H3).
    intros [->| [->| ->]]; cbn [Z.eqb Pos.eqb]; rewrite ?H1, ?H2, ?H3;
      by apply list_elem_of_singleton.
Qed.

Lemma lower_from_k (before text : list Z) :
  0x6B ∈ lower_from final_sigma before text
  <-> 0x4B ∈ text \/ 0x6B ∈ text \/ 0x212A ∈ text.
Proof.
  revert before. induction text as [|c text IH]; intros before; cbn [lower_from].
  - rewrite !elem_of_nil. tauto.
  - rewrite elem_of_app, lower_at_k, IH, !elem_of_cons. intuition congruence.
Qed.

(** The test in [parseReference] also holds for the Kelvin sign U+212A,
    whose lower case is the letter k. *)
Lemma has_tr_flag_spec (type : list Z) :
  has_tr_flag final_sigma type = true
  <-> 0x4B ∈ type \/ 0x6B ∈ type \/ 0x212A ∈ type.
Proof.
  unfold has_tr_flag, toLowerCase. change (js "K") with [0x4B]. change (js "k") with [0x6B].
  rewrite orb_true_iff, !includes_singleton, lower_from_k. tauto.
Qed.

End Membership.

(** ** Resolution of a reference *)

Lemma parseInt_digits_from (digits : list Z) (n : Z) :
  Forall (fun c => is_digit c = true) digits -> 0 <= n ->
  n <= fold_left (fun n d => 10 * n + (d - 0x30)) digits n.
Proof.
  intros Hd. revert n. induction Hd as [|d digits Hd _ IH]; intros n Hn; cbn [fold_left]; [lia|].
  unfold is_digit in Hd. etransitivity; [|apply IH]; lia.
Qed.

Lemma parseInt_digits_nonneg (digits : list Z) :
  Forall (fun c => is_digit c = true) digits -> 0 <= parseInt_digits digits.
Proof. intros Hd. by apply parseInt_digits_from. Qed.

(** The number a pair of capture groups stands for, if they took part in
    the match. *)
Definition pair_value (a b : option (list Z)) : option (Z * Z) :=
  match a, b with
  | Some x, Some y => Some (parseInt_digits x, parseInt_digits y)
  | _, _ => None
  end.

(** The versification rule in the words of the specification: a member of
    the family is placed at the brace pair if there is one, else at the
    bracket pair if there is one, else at the primary pair; any other word
    at the primary pair. *)
Definition versification_rule (member : bool) (primary : Z * Z) (brace bracket : option (Z * Z))
  : Z * Z :=
  if member then
    match brace, bracket with
    | Some p, _ => p
    | None, Some p => p
    | None, None => primary
    end
  else primary.

Lemma digit_pair_truthy (a b : option (list Z)) :
  digit_pair a b ->
  (truthy a && truthy b = true /\ exists x y, a = Some x /\ b = Some y)
  \/ (truthy a && truthy b = false /\ a = None /\ b = None).
Proof.
  intros [[-> ->]|(x & y & -> & -> & [Hx _] & [Hy _])]; [by right|left].
  split; [|by eauto]. by destruct x, y.
Qed.

Section Resolution.

Variable final_sigma : list Z -> list Z -> bool.

Lemma parseReference_matched (ref : list Z) (m : reference_match) :
  match_reference ref = Some m -> digit_pair (m_altCh m) (m_altVs m) ->
  digit_pair (m_kjvCh m) (m_kjvVs m) ->
  parseReference final_sigma ref =
  let place :=
    versification_rule (has_tr_flag final_sigma (m_type m))
      (parseInt_digits (m_ch m), parseInt_digits (m_vs m))
      (pair_value (m_altCh m) (m_altVs m)) (pair_value (m_kjvCh m) (m_kjvVs m)) in
  Some {| book := m_book m; chapter := place.1; verse := place.2;
          wordNum := parseInt_digits (m_wordNum m); type := m_type m |}.
Proof.
  intros Hm Halt Hkjv. unfold parseReference. rewrite Hm. cbv zeta.
  unfold versification_rule. destruct (has_tr_flag final_sigma (m_type m)); [|done].
  destruct (digit_pair_truthy _ _ Halt) as [(-> & x & y & -> & ->)|(-> & -> & ->)]; [done|].
  destruct (digit_pair_truthy _ _ Hkjv) as [(-> & x & y & -> & ->)|(-> & -> & ->)]; done.
Qed.

End Resolution.

(** * The claims about reference tokens *)

(** C1, where the code departs from it.  The claim is that a token whose
    flags contain neither K nor k resolves to its primary pair.  The test
    written out in [parseReference] lower-cases the flags before looking for
    k, and the lower case of the Kelvin sign U+212A is k: a token flagged
    with the Kelvin sign alone is moved to its brace pair, although
    [isTrWord] does not count it as a member. *)
Theorem kelvin_sign_is_relocated (final_sigma : list Z -> list Z -> bool) :
  (0x4B ∉ [0x212A]) /\ (0x6B ∉ [0x212A]) /\ isTrWord [0x212A] = false
  /\ parseReference final_sigma (js "Jhn.7.53{8.1}#01=" ++ [0x212A])
     = Some {| book := js "Jhn"; chapter := 8; verse := 1; wordNum := 1; type := [0x212A] |}.
Proof.
  split; [by intros [=]%list_elem_of_singleton|].
  split; [by intros [=]%list_elem_of_singleton|].
  split; vm_compute; reflexivity.
Qed.

(** C2.  [isTrWord] holds exactly when the flags contain the letter K or the
    letter k.  Removing characters other than these two, parentheses among
    them, never changes the answer; and it answers as listed on the eleven
    examples. *)
Theorem isTrWord_exactly_K :
  (forall type, isTrWord type = true <-> 0x4B ∈ type \/ 0x6B ∈ type)
  /\ (forall (keep : Z -> bool) type,
        keep 0x4B = true -> keep 0x6B = true ->
        isTrWord (filter (fun c => keep c = true) type) = isTrWord type)
  /\ (forall type, isTrWord (filter (fun c => c <> 0x28 /\ c <> 0x29) type) = isTrWord type)
  /\ Forall (fun flags => isTrWord (js flags) = true)
       ["K"; "NK"; "KO"; "K(O)"; "N(K)(O)"; "nKo"; "(k)"]%string
  /\ Forall (fun flags => isTrWord (js flags) = false)
       ["NO"; "N"; "O"; "N(O)"]%string.
Proof.
  assert (forall (P : Z -> Prop) `{!forall c, Decision (P c)} type,
            P 0x4B -> P 0x6B -> isTrWord (filter P type) = isTrWord type) as Hfilter.
  { intros P ? type HK Hk. apply eq_true_iff_eq.
    rewrite !isTrWord_spec, !list_elem_of_filter. tauto. }
  split; [exact isTrWord_spec|]. split; [|split; [|split]].
  - intros keep type HK Hk. by apply Hfilter.
  - intros type. apply Hfilter; lia.
  - repeat constructor.
  - repeat constructor.
Qed.

(** C5, as stated: every successful resolution has chapter, verse and word
    number at least 1.  It fails, because the digit fields of the grammar
    may be zero. *)
Lemma parseReference_zero :
  ~ (forall (final_sigma : list Z -> list Z -> bool) ref r,
       parseReference final_sigma ref = Some r ->
       1 <= chapter r /\ 1 <= verse r /\ 1 <= wordNum r).
Proof.
  intros H.
  specialize (H sigma_final_at_end (js "Mat.0.0#00=NKO")
                {| book := js "Mat"; chapter := 0; verse := 0; wordNum := 0; type := js "NKO" |}).
  vm_compute in H. specialize (H eq_refl). destruct H as [H _]. by apply H.
Qed.

(** C5, amended.  Every successful resolution has a chapter, a verse and a
    word number that are not negative. *)
Theorem parseReference_nonnegative (final_sigma : list Z -> list Z -> bool)
    (ref : list Z) (r : ParsedReference) :
  parseReference final_sigma ref = Some r ->
  0 <= chapter r /\ 0 <= verse r /\ 0 <= wordNum r.
Proof.
  intros Hr. destruct (match_reference ref) as [m|] eqn:Hm.
  - destruct (match_reference_sound ref m Hm) as ((_ & Hch & Hvs & Halt & Hkjv & Hwn & _) & _).
    rewrite (parseReference_matched final_sigma ref m Hm Halt Hkjv) in Hr.
    cbv zeta in Hr. injection Hr as <-. cbn [chapter verse wordNum].
    assert (forall a b p, digit_pair a b -> pair_value a b = Some p -> 0 <= p.1 /\ 0 <= p.2) as Hpair.
    { intros a b p [[-> ->]|(x & y & -> & -> & [_ Hx] & [_ Hy])]; [done|].
      intros [= <-]. cbn. split; by apply parseInt_digits_nonneg. }
    assert (0 <= parseInt_digits (m_ch m)) by apply parseInt_digits_nonneg, Hch.
    assert (0 <= parseInt_digits (m_vs m)) by apply parseInt_digits_nonneg, Hvs.
    assert (0 <= parseInt_digits (m_wordNum m)) by apply parseInt_digits_nonneg, Hwn.
    unfold versification_rule.
    destruct (has_tr_flag final_sigma (m_type m)); [|by cbn].
    destruct (pair_value (m_altCh m) (m_altVs m)) as [p|] eqn:Hp.
    { destruct (Hpair _ _ _ Halt Hp). done. }
    destruct (pair_value (m_kjvCh m) (m_kjvVs m)) as [p|] eqn:Hq.
    { destruct (Hpair _ _ _ Hkjv Hq). done. }
    by cbn.
  - unfold parseReference in Hr. by rewrite Hm in Hr.
Qed.

(** ** Sorting and numbering the words of a verse *)

Definition by_wordNum (a b : ParsedWord) : Prop := w_wordNum a <= w_wordNum b.

Lemma insert_word_Permutation (w : ParsedWord) (l : list ParsedWord) :
  insert_word w l ≡ₚ w :: l.
Proof.
  induction l as [|x l IH]; cbn [insert_word]; [done|].
  destruct (w_wordNum w <=? w_wordNum x); [done|].
  rewrite IH. apply Permutation_swap.
Qed.

Lemma sort_words_Permutation (words : list ParsedWord) : sort_words words ≡ₚ words.
Proof.
  unfold sort_words. induction words as [|w l IH]; cbn [foldr]; [done|].
  by rewrite insert_word_Permutation, IH.
Qed.

Lemma insert_word_sorted (w : ParsedWord) (l : list ParsedWord) :
  StronglySorted by_wordNum l -> StronglySorted by_wordNum (insert_word w l).
Proof.
  induction 1 as [|x l Hl IH Hx]; cbn [insert_word].
  - repeat constructor.
  - destruct (w_wordNum w <=? w_wordNum x) eqn:Hwx.
    + apply Z.leb_le in Hwx. constructor; [by constructor|].
      constructor; [exact Hwx|]. eapply Forall_impl; [exact Hx|].
      unfold by_wordNum. intros y Hy. lia.
    + apply Z.leb_gt in Hwx. constructor; [exact IH|].
      rewrite insert_word_Permutation. constructor; [|exact Hx].
      unfold by_wordNum. lia.
Qed.

Lemma sort_words_sorted (words : list ParsedWord) :
  StronglySorted by_wordNum (sort_words words).
Proof.
  unfold sort_words. induction words as [|w l IH]; cbn [foldr]; [constructor|].
  by apply insert_word_sorted.
Qed.

(** Words with the same number keep the order they came in. *)
Lemma insert_word_stable (n : Z) (w : ParsedWord) (l : list ParsedWord) :
  StronglySorted by_wordNum l ->
  filter (fun x => w_wordNum x = n) (insert_word w l)
  = filter (fun x => w_wordNum x = n) (w :: l).
Proof.
  induction 1 as [|x l Hl IH Hx]; cbn [insert_word]; [done|].
  destruct (w_wordNum w <=? w_wordNum x) eqn:Hwx; [done|]. apply Z.leb_gt in Hwx.
  rewrite (filter_cons _ x), IH, !(filter_cons _ w), (filter_cons _ x).
  destruct (decide (w_wordNum x = n)) as [Hxn|Hxn]; [|done].
  destruct (decide (w_wordNum w = n)) as [Hwn|Hwn]; [lia|done].
Qed.

Lemma sort_words_stable (n : Z) (words : list ParsedWord) :
  filter (fun x => w_wordNum x = n) (sort_words words)
  = filter (fun x => w_wordNum x = n) words.
Proof.
  induction words as [|w l IH]; [done|].
  change (sort_words (w :: l)) with (insert_word w (sort_words l)).
  rewrite insert_word_stable by apply sort_words_sorted.
  by rewrite !filter_cons, IH.
Qed.

Lemma sort_words_sorted_fixed (words : list ParsedWord) :
  StronglySorted by_wordNum words -> sort_words words = words.
Proof.
  unfold sort_words. induction 1 as [|w l Hl IH Hw]; cbn [foldr]; [done|].
  rewrite IH. destruct l as [|x l']; [done|]. cbn [insert_word].
  inversion_clear Hw as [|? ? Hwx _]. unfold by_wordNum in Hwx.
  apply Z.leb_le in Hwx. by rewrite Hwx.
Qed.

Section Numbering.

Variable final_sigma : list Z -> list Z -> bool.

Lemma positions_from (k : nat) (l : list ParsedWord) :
  map e_position (imap (fun i => word_entry final_sigma (k + i)) l)
  = seqZ (Z.of_nat k + 1) (Z.of_nat (length l)).
Proof.
  revert k. induction l as [|w l IH]; intros k; [done|].
  rewrite imap_cons. cbn [map length].
  rewrite Nat2Z.inj_succ, seqZ_cons by lia. f_equal.
  - cbn. lia.
  - rewrite (imap_ext _ (fun i => word_entry final_sigma (S k + i))).
    + rewrite IH. f_equal; lia.
    + intros i x _. cbn. f_equal. lia.
Qed.

Lemma texts_of_entries (k : nat) (l : list ParsedWord) :
  map e_text (imap (fun i => word_entry final_sigma (k + i)) l) = map w_greek l.
Proof.
  revert k. induction l as [|w l IH]; intros k; [done|].
  rewrite imap_cons. cbn [map]. f_equal.
  rewrite (imap_ext _ (fun i => word_entry final_sigma (S k + i))); [apply IH|].
  intros i x _. cbn. f_equal. lia.
Qed.

End Numbering.

(** ** Verse totals *)

(** The sum of one component over the word entries. *)
Definition sum_of (f : gematria -> Z) (entries : list WordEntry) : Z :=
  foldr (fun e acc => f (e_gematria e) + acc) 0 entries.

(** What a run of [(totals[k] || 0) + v] updates leaves in [totals]. *)
Definition totals_are (totals : gmap string Z) (s o r : Z) : Prop :=
  default 0 (totals !! "standard"%string) = s
  /\ default 0 (totals !! "ordinal"%string) = o
  /\ default 0 (totals !! "reduced"%string) = r.

Definition three_keys (totals : gmap string Z) : Prop :=
  forall k, is_Some (totals !! k) <-> k = "standard"%string \/ k = "ordinal"%string \/ k = "reduced"%string.

Lemma add_entry_totals (totals : gmap string Z) (g : gematria) (s o r : Z) :
  totals_are totals s o r ->
  let totals' := fold_left add_to_totals (Object_entries g) totals in
  totals_are totals' (s + standard g) (o + ordinal g) (r + reduced g)
  /\ (forall k, is_Some (totals' !! k) <->
         is_Some (totals !! k) \/ k = "standard"%string \/ k = "ordinal"%string \/ k = "reduced"%string).
Proof.
  intros (Hs & Ho & Hr). cbn [Object_entries fold_left]. unfold add_to_totals. cbn [fst snd].
  split.
  - unfold totals_are.
    repeat (rewrite lookup_insert_eq || rewrite lookup_insert_ne by done).
    cbn. rewrite Hs, Ho, Hr. done.
  - intros k. rewrite !lookup_insert_is_Some. 
    destruct (decide (k = "standard"%string)), (decide (k = "ordinal"%string)),
      (decide (k = "reduced"%string)); intuition congruence.
Qed.

Lemma fold_totals (entries : list WordEntry) (totals : gmap string Z) (s o r : Z) :
  totals_are totals s o r ->
  let totals' :=
    fold_left (fun totals entry =>
                 fold_left add_to_totals (Object_entries (e_gematria entry)) totals)
      entries totals in
  totals_are totals' (s + sum_of standard entries) (o + sum_of ordinal entries)
    (r + sum_of reduced entries)
  /\ (forall k, is_Some (totals' !! k) <->
         is_Some (totals !! k)
         \/ (entries <> [] /\ (k = "standard"%string \/ k = "ordinal"%string \/ k = "reduced"%string))).
Proof.
  revert totals s o r. induction entries as [|e entries IH]; intros totals s o r Ht.
  - cbn. rewrite !Z.add_0_r. split; [exact Ht|]. intros k. intuition congruence.
  - cbn [fold_left sum_of foldr]. fold (sum_of standard entries).
    fold (sum_of ordinal entries). fold (sum_of reduced entries).
    destruct (add_entry_totals totals (e_gematria e) s o r Ht) as [Ht' Hk'].
    cbv zeta in Ht', Hk'.
    destruct (IH _ _ _ _ Ht') as [Ht'' Hk'']. cbv zeta in Ht'', Hk''.
    split.
    + by rewrite !Z.add_assoc.
    + intros k. rewrite Hk'', Hk'.
      assert (e :: entries <> []) by done. tauto.
Qed.

Lemma verse_totals_spec (entries : list WordEntry) :
  totals_are (verse_totals entries)
    (sum_of standard entries) (sum_of ordinal entries) (sum_of reduced entries)
  /\ (entries <> [] -> three_keys (verse_totals entries))
  /\ (entries = [] -> verse_totals entries = ∅).
Proof.
  unfold verse_totals.
  destruct (fold_totals entries ∅ 0 0 0) as [Ht Hk]; [done|]. cbv zeta in Ht, Hk.
  split; [exact Ht|]. split.
  - intros Hne k. rewrite Hk, lookup_empty. split.
    + intros [[? [=]]|[_ ?]]. done.
    + intros ?. right. done.
  - by intros ->.
Qed.

(** * The claims about verse records *)

Section VerseRecords.

Variable final_sigma : list Z -> list Z -> bool.

(** C6.  The words of a verse record are the given words in ascending
    order of their word number, and the positions of the entries are
    1, 2, ..., n in that order, whatever the word numbers were. *)
Theorem words_sorted_and_numbered (words : list ParsedWord) :
  let v := verse_data final_sigma words in
  let sorted := sort_words words in
  sorted ≡ₚ words
  /\ StronglySorted (fun a b => w_wordNum a <= w_wordNum b) sorted
  /\ map e_text (v_words v) = map w_greek sorted
  /\ map e_position (v_words v) = seqZ 1 (Z.of_nat (length words)).
Proof.
  cbv zeta. split; [apply sort_words_Permutation|].
  split; [apply sort_words_sorted|].
  unfold verse_data. cbn [v_words]. split.
  - apply (texts_of_entries final_sigma 0).
  - rewrite (positions_from final_sigma 0).
    by rewrite (Permutation_length (sort_words_Permutation words)).
Qed.

(** C4.  In the record of a verse with at least one word, each of the three
    components of the verse gematria is the sum of that component over the
    gematria of the word entries, each of which is the gematria of the
    word's own text. *)
Theorem verse_gematria_is_sum_of_words (w : ParsedWord) (words : list ParsedWord) :
  let v := verse_data final_sigma (w :: words) in
  v_gematria v !! "standard"%string = Some (sum_of standard (v_words v))
  /\ v_gematria v !! "ordinal"%string = Some (sum_of ordinal (v_words v))
  /\ v_gematria v !! "reduced"%string = Some (sum_of reduced (v_words v))
  /\ Forall (fun e => e_gematria e = computeGreek final_sigma (e_text e)) (v_words v).
Proof.
  cbv zeta. unfold verse_data. cbn [v_gematria v_words].
  set (entries := imap (word_entry final_sigma) (sort_words (w :: words))).
  assert (entries <> []) as Hne.
  { intros H%(f_equal length). unfold entries in H. rewrite length_imap in H.
    rewrite (Permutation_length (sort_words_Permutation (w :: words))) in H. done. }
  destruct (verse_totals_spec entries) as ((Hs & Ho & Hr) & Hkeys & _).
  specialize (Hkeys Hne).
  assert (forall k x, is_Some (verse_totals entries !! k) ->
                      default 0 (verse_totals entries !! k) = x ->
                      verse_totals entries !! k = Some x) as Hsome.
  { intros k x [y Hy] Hx. rewrite Hy in Hx |- *. cbn in Hx. by subst. }
  repeat split.
  - apply Hsome; [apply Hkeys; auto | exact Hs].
  - apply Hsome; [apply Hkeys; auto | exact Ho].
  - apply Hsome; [apply Hkeys; auto | exact Hr].
  - apply Forall_forall. intros e He. unfold entries in He.
    apply list_elem_of_lookup in He as [i He].
    rewrite list_lookup_imap in He.
    destruct (sort_words (w :: words) !! i); [|done]. by injection He as <-.
Qed.

End VerseRecords.

(** ** Loading *)


Lemma for_each_Rejected {A B} (step : A -> outcome B) (items : list A) :
  (exists e, for_each step items = Rejected e) <->
  Exists (fun x => exists e, step x = Rejected e) items.
Proof.
  induction items as [|x items IH]; cbn [for_each].
  - split; [by intros [e [=]] | by inversion 1].
  - unfold mbind, outcome_bind. destruct (step x) as [y|e] eqn:Hx.
    + destruct (for_each step items) as [ys'|e] eqn:Hrest.
      * split; [by intros [e [=]]|]. inversion 1 as [? ? [e He]|? ? Hex]; subst; [congruence|].
        apply IH in Hex as [e [=]].
      * split; [|by eauto]. intros _. apply Exists_cons_tl, IH. eauto.
    + split; [|by eauto]. intros _. apply Exists_cons_hd. eauto.
Qed.

Lemma insert_file_Permutation (a : list Z) (l : list (list Z)) :
  insert_file a l ≡ₚ a :: l.
Proof.
  induction l as [|b l IH]; cbn [insert_file]; [done|].
  destruct (goes_after a b); [|done]. rewrite IH. apply Permutation_swap.
Qed.

Lemma sort_files_Permutation (names : list (list Z)) : sort_files names ≡ₚ names.
Proof.
  unfold sort_files. induction names as [|a l IH]; cbn [foldr]; [done|].
  by rewrite insert_file_Permutation, IH.
Qed.

(** The verse file, and the directory of the chapter. *)
Definition verse_path (osisBook : list Z) (chapter verse : Z) : list (list Z) :=
  [osisBook; Number_toString chapter; Number_toString verse ++ js ".json"].

Definition chapter_path (osisBook : list Z) (chapter : Z) : list (list Z) :=
  [osisBook; Number_toString chapter].

(** A file that is there and holds JSON text. *)
Definition readable (fs : FileSystem) (path : list (list Z)) : Prop :=
  exists content data, files fs !! path = Some content /\ JSON_parse content = Some data.

Lemma read_and_parse (fs : FileSystem) (path : list (list Z)) :
  (readFile fs path ≫= JSON_parse_or_throw) =
  match files fs !! path with
  | Some content =>
      match JSON_parse content with
      | Some data => Resolved data
      | None => Rejected SyntaxError
      end
  | None => Rejected ENOENT
  end.
Proof.
  unfold readFile, JSON_parse_or_throw, mbind, outcome_bind.
  by destruct (files fs !! path).
Qed.

Lemma loadVerse_outcome (fs : FileSystem) (book osisBook : list Z) (chapter verse : Z) :
  toOsis book = Str osisBook ->
  loadVerse fs book chapter verse =
  match files fs !! verse_path osisBook chapter verse with
  | Some content =>
      match JSON_parse content with
      | Some data => Resolved data
      | None => Rejected (Error (verse_not_found book chapter verse))
      end
  | None => Rejected (Error (verse_not_found book chapter verse))
  end.
Proof.
  intros Hbook. unfold loadVerse. rewrite Hbook. cbn [join].
  unfold mbind at 1. unfold outcome_bind at 1. rewrite read_and_parse.
  unfold verse_path. destruct (files fs !! _) as [content|]; [|done].
  by destruct (JSON_parse content).
Qed.

Definition absent (fs : FileSystem) (path : list (list Z)) : Prop :=
  files fs !! path = None.

(** A file that is there but does not hold JSON text. *)
Definition malformed (fs : FileSystem) (path : list (list Z)) : Prop :=
  exists content, files fs !! path = Some content /\ JSON_parse content = None.

(** The names in a directory listing that [loadChapter] reads. *)
Definition json_files (entries : list (list Z)) : list (list Z) :=
  filter (fun f => ends_with (js ".json") f = true) entries.

Lemma read_and_parse_Rejected (fs : FileSystem) (path : list (list Z)) :
  (exists e, readFile fs path ≫= JSON_parse_or_throw = Rejected e)
  <-> absent fs path \/ malformed fs path.
Proof.
  rewrite read_and_parse. unfold absent, malformed.
  destruct (files fs !! path) as [content|].
  - destruct (JSON_parse content) eqn:Hp.
    + split; [by intros [e [=]]|]. intros [[=]|(c & [= <-] & Hc)]. congruence.
    + split; [|by eauto]. intros _. right. by exists content.
  - split; [by left | by eauto].
Qed.

Lemma loadChapter_outcome (fs : FileSystem) (book osisBook : list Z) (chapter : Z) :
  toOsis book = Str osisBook ->
  loadChapter fs book chapter =
  match directories fs !! chapter_path osisBook chapter with
  | Some entries =>
      match for_each (fun file =>
                        readFile fs (chapter_path osisBook chapter ++ [file])
                          ≫= JSON_parse_or_throw)
              (sort_files (json_files entries)) with
      | Resolved verses => Resolved verses
      | Rejected _ => Rejected (Error (chapter_not_found book chapter))
      end
  | None => Rejected (Error (chapter_not_found book chapter))
  end.
Proof.
  intros Hbook. unfold loadChapter. rewrite Hbook. cbn [join].
  unfold mbind at 1. unfold outcome_bind at 1. fold (chapter_path osisBook chapter).
  unfold readdir. destruct (directories fs !! _) as [entries|]; [|done].
  unfold mbind at 1. unfold outcome_bind at 1. unfold try_catch, json_files.
  by destruct (for_each _ _).
Qed.

(** * The claim about loading *)

(** C9, as stated: a lookup reports "not found" exactly when the verse is
    absent, never when it is there but cannot be parsed.  It fails: the
    [catch] clause of [loadVerse] takes every error of the [try] block,
    that of [JSON.parse] included, and throws the same "not found" error.
    Here the file of Matthew 1:1 is there and is empty. *)
Lemma parse_error_reported_as_not_found :
  ~ (forall fs book osisBook chapter verse,
       toOsis book = Str osisBook ->
       (loadVerse fs book chapter verse
          = Rejected (Error (verse_not_found book chapter verse))
        <-> absent fs (verse_path osisBook chapter verse))).
Proof.
  intros H.
  specialize (H {| files := {[ [js "Matt"; js "1"; js "1.json"] := [] ]};
                   directories := ∅ |}
                (js "Matthew") (js "Matt") 1 1 eq_refl).
  destruct H as [H _]. unfold absent in H. vm_compute in H.
  specialize (H eq_refl). discriminate H.
Qed.

(** C9, amended.  For a book name that [toOsis] maps to a directory name,
    [loadVerse] and [loadChapter] fail in one way only, with their "not
    found" error, and they do so both when what is asked for is absent and
    when a file that is there cannot be parsed: [loadVerse] when the verse
    file is absent or malformed, [loadChapter] when the chapter directory
    is absent or one of its [.json] files is absent or malformed. *)
Theorem lookup_failures_are_not_found (fs : FileSystem) (book osisBook : list Z)
    (chapter verse : Z) :
  toOsis book = Str osisBook ->
  (loadVerse fs book chapter verse = Rejected (Error (verse_not_found book chapter verse))
   <-> absent fs (verse_path osisBook chapter verse)
       \/ malformed fs (verse_path osisBook chapter verse))
  /\ (forall e, loadVerse fs book chapter verse = Rejected e ->
                e = Error (verse_not_found book chapter verse))
  /\ (loadChapter fs book chapter = Rejected (Error (chapter_not_found book chapter))
      <-> directories fs !! chapter_path osisBook chapter = None
          \/ exists entries file,
               directories fs !! chapter_path osisBook chapter = Some entries
               /\ file ∈ json_files entries
               /\ (absent fs (chapter_path osisBook chapter ++ [file])
                   \/ malformed fs (chapter_path osisBook chapter ++ [file])))
  /\ (forall e, loadChapter fs book chapter = Rejected e ->
                e = Error (chapter_not_found book chapter)).
Proof.
  intros Hbook.
  rewrite (loadVerse_outcome fs book osisBook chapter verse Hbook).
  rewrite (loadChapter_outcome fs book osisBook chapter Hbook).
  unfold absent, malformed. split; [|split; [|split]].
  - destruct (files fs !! _) as [content|]; [|by split; auto].
    destruct (JSON_parse content) eqn:Hp.
    + split; [done|]. intros [[=]|(c & [= <-] & ?)]. congruence.
    + split; [|done]. intros _. right. exists content. split; [reflexivity | exact Hp].
  - intros e. destruct (files fs !! _) as [content|]; [|by intros [= <-]].
    destruct (JSON_parse content); [done | by intros [= <-]].
  - destruct (directories fs !! _) as [entries|]; [|by split; auto].
    set (step := fun file => _).
    pose proof (for_each_Rejected step (sort_files (json_files entries))) as Hrej.
    rewrite Exists_exists in Hrej.
    destruct (for_each step _) as [verses|e].
    + split; [done|]. intros [[=]|(entries' & file & [= <-] & Hfile & Hbad)].
      destruct Hrej as [_ Hrej]. destruct Hrej as [e [=]].
      exists file. split.
      * by rewrite sort_files_Permutation.
      * by apply read_and_parse_Rejected.
    + split; [|done]. intros _. right.
      destruct Hrej as [Hrej _]. destruct Hrej as (file & Hfile & Hbad); [by eauto|].
      exists entries, file. split; [done|]. split.
      * by rewrite sort_files_Permutation in Hfile.
      * by apply read_and_parse_Rejected.
  - intros e. destruct (directories fs !! _) as [entries|]; [|by intros [= <-]].
    destruct (for_each _ _); [done | by intros [= <-]].
Qed.

(** A book name found in [Object.prototype] is not turned into a path:
    [path.join] throws before the [try] block is entered. *)
Lemma inherited_name_TypeError (fs : FileSystem) (book : list Z) (chapter verse : Z) :
  toOsis book = NotAString ->
  loadVerse fs book chapter verse = Rejected TypeError
  /\ loadChapter fs book chapter = Rejected TypeError.
Proof. intros H. unfold loadVerse, loadChapter. rewrite H. split; reflexivity. Qed.

(** * Instances of the theorems that have a hypothesis *)

Lemma normalizeGreek_idempotent_witness :
  (0x34F ∉ js "ἀρχῇ")
  /\ normalizeGreek sigma_final_at_end (normalizeGreek sigma_final_at_end (js "ἀρχῇ"))
     = normalizeGreek sigma_final_at_end (js "ἀρχῇ").
Proof.
  assert (0x34F ∉ js "ἀρχῇ") as H.
  { intros H%list_elem_of_In. vm_compute in H. intuition discriminate. }
  split; [exact H|]. exact (normalizeGreek_idempotent sigma_final_at_end (js "ἀρχῇ") H).
Defined.

Lemma parseReference_nonnegative_witness :
  parseReference sigma_final_at_end (js "Rev.22.21#15=NKO")
    = Some {| book := js "Rev"; chapter := 22; verse := 21; wordNum := 15; type := js "NKO" |}
  /\ 0 <= 22 /\ 0 <= 21 /\ 0 <= 15.
Proof.
  assert (parseReference sigma_final_at_end (js "Rev.22.21#15=NKO")
          = Some {| book := js "Rev"; chapter := 22; verse := 21; wordNum := 15;
                    type := js "NKO" |}) as H by (vm_compute; reflexivity).
  split; [exact H|].
  exact (parseReference_nonnegative sigma_final_at_end _ _ H).
Defined.

Lemma lookup_failures_are_not_found_witness :
  toOsis (js "Matthew") = Str (js "Matt")
  /\ loadVerse {| files := ∅; directories := ∅ |} (js "Matthew") 999 999
     = Rejected (Error (verse_not_found (js "Matthew") 999 999)).
Proof.
  assert (toOsis (js "Matthew") = Str (js "Matt")) as H by (vm_compute; reflexivity).
  split; [exact H|].
  destruct (lookup_failures_are_not_found {| files := ∅; directories := ∅ |}
              (js "Matthew") (js "Matt") 999 999 H) as [[_ Hverse] _].
  apply Hverse. left. apply lookup_empty.
Defined.

(** * Further properties of the gematria *)

Lemma code_point_weight_inert (c : Z) :
  inert c -> code_point_weight c = decomposed_weight c.
Proof.
  intros Hc. unfold code_point_weight. rewrite Hc. cbn [total foldr].
  apply gematria_plus_0_r.
Qed.

Lemma code_point_weight_decompose (c : Z) :
  total code_point_weight (decompose c) = code_point_weight c.
Proof.
  unfold code_point_weight at 2. apply total_ext, Forall_forall.
  intros x Hx. apply code_point_weight_inert. by apply (decompose_inert c).
Qed.

Definition gematria_eqb (a b : gematria) : bool :=
  (standard a =? standard b) && (ordinal a =? ordinal b) && (reduced a =? reduced b).

Lemma gematria_eqb_eq (a b : gematria) : gematria_eqb a b = true -> a = b.
Proof.
  destruct a, b. unfold gematria_eqb. cbn.
  intros [[H1 H2]%andb_true_iff H3]%andb_true_iff.
  apply Z.eqb_eq in H1, H2, H3. by subst.
Qed.

Lemma lowercase_table_keeps_weight :
  forallb (fun e => gematria_eqb (code_point_weight e.2) (code_point_weight e.1))
    lowercase_table = true.
Proof. vm_compute. reflexivity. Qed.

Lemma special_lowercase_keeps_weight :
  gematria_eqb (total code_point_weight [0x69; 0x307]) (code_point_weight 0x130)
  && gematria_eqb (code_point_weight 0x3C2) (code_point_weight 0x3A3)
  && gematria_eqb (code_point_weight 0x3C3) (code_point_weight 0x3A3) = true.
Proof. vm_compute. reflexivity. Qed.

Lemma lower_at_keeps_weight (final_sigma : list Z -> list Z -> bool)
    (before after : list Z) (c : Z) :
  total code_point_weight (lower_at final_sigma before c after) = code_point_weight c.
Proof.
  pose proof special_lowercase_keeps_weight as [[Hi Hf]%andb_true_iff Hs]%andb_true_iff.
  apply gematria_eqb_eq in Hi, Hf, Hs.
  unfold lower_at. destruct (c =? 0x3A3) eqn:Hsigma.
  - apply Z.eqb_eq in Hsigma as ->.
    destruct (final_sigma before after); cbn [total foldr]; rewrite gematria_plus_0_r;
      assumption.
  - unfold lower_code_point. destruct (c =? 0x130) eqn:Hdot.
    + apply Z.eqb_eq in Hdot as ->. exact Hi.
    + cbn [total foldr]. rewrite gematria_plus_0_r.
      destruct (lowercase_map !! c) as [c'|] eqn:Hl; [|reflexivity].
      apply lowercase_map_lookup, list_elem_of_In in Hl.
      pose proof lowercase_table_keeps_weight as H. rewrite forallb_forall in H.
      apply H in Hl. by apply gematria_eqb_eq in Hl.
Qed.

Lemma GREEK_ORDINAL_below_value (c v : Z) :
  GREEK_ORDINAL !! c = Some v -> exists w, GREEK_VALUES !! c = Some w /\ v <= w.
Proof.
  assert (forallb (fun e => match GREEK_VALUES !! e.1 with
                            | Some w => e.2 <=? w
                            | None => false
                            end) (map_to_list GREEK_ORDINAL) = true) as H
    by (vm_compute; reflexivity).
  intros Hc. rewrite forallb_forall in H.
  apply elem_of_map_to_list, list_elem_of_In, H in Hc. cbn [fst snd] in Hc.
  destruct (GREEK_VALUES !! c) as [w|]; [|done]. exists w. split; [done|]. lia.
Qed.

Lemma char_gematria_ordered (c : Z) :
  0 <= reduced (char_gematria c) <= ordinal (char_gematria c)
  /\ ordinal (char_gematria c) <= standard (char_gematria c).
Proof.
  unfold char_gematria, add_char.
  destruct (GREEK_ORDINAL !! c) as [v|] eqn:Hv.
  - destruct (GREEK_ORDINAL_below_value c v Hv) as (w & -> & Hw).
    apply GREEK_ORDINAL_lookup in Hv as [_ Hv].
    destruct (reduce_digits_spec (Z.to_nat v) v) as (_ & H9 & H1 & Hid); [lia|].
    cbv zeta in *. unfold reduce_value. cbn [standard ordinal reduced no_gematria].
    destruct (Z_le_gt_dec v 9); lia.
  - cbn [standard ordinal reduced no_gematria].
    destruct (GREEK_VALUES !! c) as [w|] eqn:Hw; [|lia].
    apply GREEK_VALUES_lookup in Hw. lia.
Qed.

Section GematriaFacts.

Variable final_sigma : list Z -> list Z -> bool.

(** X4.  The gematria of a text is put together from its parts: that of a
    concatenation is the sum of the two, and rearranging the characters of
    a text does not change it. *)
Theorem gematria_of_concatenation (s1 s2 : list Z) :
  computeGreek final_sigma (s1 ++ s2)
  = gematria_plus (computeGreek final_sigma s1) (computeGreek final_sigma s2)
  /\ (s1 ≡ₚ s2 -> computeGreek final_sigma s1 = computeGreek final_sigma s2).
Proof.
  split; [apply computeGreek_app|]. intros Hp. rewrite !computeGreek_total.
  by apply total_Permutation.
Qed.

(** X5.  The two forms of sigma count alike: the gematria does not depend on the
    form [toLowerCase] chooses for a capital sigma, and writing every final
    sigma as a sigma leaves it unchanged. *)
Theorem gematria_ignores_sigma_form (other_sigma : list Z -> list Z -> bool) (s : list Z) :
  computeGreek final_sigma s = computeGreek other_sigma s
  /\ computeGreek final_sigma (map (fun c => if c =? 0x3C2 then 0x3C3 else c) s)
     = computeGreek final_sigma s.
Proof.
  split; [by rewrite !computeGreek_total|].
  rewrite !computeGreek_total, total_map. apply total_ext, Forall_true. intros c.
  destruct (c =? 0x3C2) eqn:Hc; [|reflexivity]. apply Z.eqb_eq in Hc as ->.
  vm_compute. reflexivity.
Qed.

(** X6.  Upper and lower case count alike: lower-casing a text first does not
    change its gematria. *)
Theorem gematria_ignores_case (s : list Z) :
  computeGreek final_sigma (toLowerCase final_sigma s) = computeGreek final_sigma s.
Proof.
  rewrite !computeGreek_total. unfold toLowerCase. generalize (@nil Z) as before.
  induction s as [|c s IH]; intros before; [reflexivity|].
  cbn [lower_from]. rewrite total_app, lower_at_keeps_weight, IH. reflexivity.
Qed.

Lemma computeGreek_nfd (s : list Z) :
  computeGreek final_sigma (nfd s) = computeGreek final_sigma s.
Proof.
  rewrite !computeGreek_total. unfold nfd.
  rewrite (total_Permutation _ _ _ (canonical_order_Permutation _)), total_flat_map.
  apply total_ext, Forall_true. intros c. apply code_point_weight_decompose.
Qed.

(** X7.  Precomposed and decomposed spellings count alike: a text and its
    canonical decomposition have the same gematria, and so do two texts
    with the same canonical decomposition. *)
Theorem gematria_ignores_composition (s s' : list Z) :
  computeGreek final_sigma (nfd s) = computeGreek final_sigma s
  /\ (nfd s = nfd s' -> computeGreek final_sigma s = computeGreek final_sigma s').
Proof.
  split; [apply computeGreek_nfd|]. intros H.
  by rewrite <- (computeGreek_nfd s), <- (computeGreek_nfd s'), H.
Qed.

(** X9.  The three totals of any text are ordered: none is negative, the reduced
    total is at most the ordinal one, and the ordinal one at most the
    standard one. *)
Theorem gematria_components_ordered (s : list Z) :
  0 <= reduced (computeGreek final_sigma s) <= ordinal (computeGreek final_sigma s)
  /\ ordinal (computeGreek final_sigma s) <= standard (computeGreek final_sigma s).
Proof.
  unfold computeGreek. rewrite sum_chars_total.
  induction (normalizeGreek final_sigma s) as [|c l IH]; [cbn; lia|].
  cbn [total foldr]. fold (total char_gematria l).
  pose proof (char_gematria_ordered c). unfold gematria_plus. cbn [standard ordinal reduced].
  lia.
Qed.

(** X10.  Whatever the text, its normal form has no code point of the range
    U+0300..U+036F left, and lower-casing it again changes nothing. *)
Theorem normalizeGreek_shape (s : list Z) :
  Forall (fun c => is_combining_mark c = false) (normalizeGreek final_sigma s)
  /\ toLowerCase final_sigma (normalizeGreek final_sigma s) = normalizeGreek final_sigma s.
Proof.
  unfold normalizeGreek, toLowerCase.
  set (r := replace_iota_subscript (nfd s)).
  assert (Forall inert r) as Hri by apply replace_iota_subscript_inert, nfd_inert.
  assert (Forall (fun c => inert c /\ is_combining_mark c = false)
            (remove_combining_marks r)) as Hu.
  { apply Forall_forall. intros c [Hc Hin]%list_elem_of_filter.
    rewrite Forall_forall in Hri. split; [by apply Hri | exact Hc]. }
  pose proof (lower_from_lowered final_sigma [] _ Hu) as Hlow. split.
  - eapply Forall2_Forall_r; [exact Hlow|]. apply Forall_true. by intros c c' (_ & ? & _).
  - apply lower_from_settled. eapply Forall2_Forall_r; [exact Hlow|].
    apply Forall_true. by intros c c' (_ & _ & ? & _).
Qed.

(** X8.  Accents do not count: a text, decomposed and with every mark of the
    range U+0300..U+036F other than the iota subscript struck out, has the
    gematria of the text itself. *)
Theorem gematria_ignores_accents (s : list Z) :
  computeGreek final_sigma
    (filter (fun c => ~ (is_combining_mark c = true /\ c <> 0x345)) (nfd s))
  = computeGreek final_sigma s.
Proof.
  rewrite <- (computeGreek_nfd s). apply computeGreek_filter.
  apply Forall_true. intros c Hc. apply dec_stable in Hc as [Hmark Hc].
  assert (forallb (fun c => (c =? 0x345) || unrecognized final_sigma c)
            (seqZ 0x300 (0x36F - 0x300 + 1)) = true) as H by (vm_compute; reflexivity).
  rewrite forallb_forall in H. specialize (H c).
  rewrite orb_true_iff, Z.eqb_eq in H. destruct H as [H|H]; [|done|exact H].
  apply list_elem_of_In, elem_of_seqZ. unfold is_combining_mark in Hmark. lia.
Qed.

End GematriaFacts.

(** X11.  The reduction of an ordinal value ends with its digital root: for a
    value of at least 1 the loops stop at the number between 1 and 9 that
    is congruent to it modulo 9. *)
Theorem reduce_value_digital_root (val : Z) :
  1 <= val -> reduce_value val = 1 + (val - 1) mod 9.
Proof.
  intros Hval. unfold reduce_value.
  destruct (reduce_digits_spec (Z.to_nat val) val) as (Hmod & H9 & H1 & _); [lia|].
  cbv zeta in *. specialize (H1 Hval).
  Z.div_mod_to_equations. lia.
Qed.

(** * Further properties of reference tokens *)

Section ReferenceFacts.

Variable final_sigma : list Z -> list Z -> bool.



(** X3.  On flags without the Kelvin sign the test written out in
    [parseReference] and [isTrWord] agree. *)
Theorem membership_tests_agree (type : list Z) :
  0x212A ∉ type -> has_tr_flag final_sigma type = isTrWord type.
Proof.
  intros Hk. apply eq_true_iff_eq. rewrite has_tr_flag_spec, isTrWord_spec. tauto.
Qed.

End ReferenceFacts.

(** * Properties of the corpus reader *)

(** ** Trimming and splitting *)

Lemma drop_while_stops (p : Z -> bool) (l : list Z) : stops p (drop_while p l).
Proof.
  induction l as [|c r IH]; simpl; [done|].
  destruct (p c) eqn:Hc; simpl; [exact IH | exact Hc].
Qed.

Lemma drop_while_fixed (p : Z -> bool) (l : list Z) : stops p l -> drop_while p l = l.
Proof. destruct l as [|c r]; simpl; [done|]. by intros ->. Qed.

Lemma drop_while_suffix (p : Z -> bool) (l : list Z) :
  exists dropped, l = dropped ++ drop_while p l /\ Forall (fun c => p c = true) dropped.
Proof.
  exists (take_while p l). split; [by rewrite take_drop_while | apply take_while_Forall].
Qed.

(** The text does not end with a character of the class [p]. *)
Definition ends_clear (p : Z -> bool) (l : list Z) : Prop := stops p (rev l).

Lemma drop_while_ends_clear (p : Z -> bool) (l : list Z) :
  ends_clear p l -> ends_clear p (drop_while p l).
Proof.
  unfold ends_clear. destruct (drop_while_suffix p l) as (d & Hl & _).
  destruct (drop_while p l) as [|c r] eqn:Hd; [done|].
  rewrite Hl, rev_app_distr. cbn [rev].
  destruct (rev r) as [|x r']; cbn [app]; done.
Qed.

Lemma trim_clear (s : list Z) :
  stops is_space (trim s) /\ ends_clear is_space (trim s).
Proof.
  unfold trim, ends_clear. rewrite rev_involutive. split; [|apply drop_while_stops].
  apply (drop_while_ends_clear is_space (rev (drop_while is_space s))).
  unfold ends_clear. rewrite rev_involutive. apply drop_while_stops.
Qed.

Lemma trim_fixed (s : list Z) :
  stops is_space s -> ends_clear is_space s -> trim s = s.
Proof.
  intros Hs He. unfold trim. rewrite (drop_while_fixed _ s Hs).
  rewrite (drop_while_fixed _ (rev s) He). apply rev_involutive.
Qed.

Lemma trim_trim (s : list Z) : trim (trim s) = trim s.
Proof. destruct (trim_clear s). by apply trim_fixed. Qed.

Lemma trim_sublist (s : list Z) :
  exists before after, s = before ++ trim s ++ after
    /\ Forall (fun c => is_space c = true) before
    /\ Forall (fun c => is_space c = true) after.
Proof.
  unfold trim.
  destruct (drop_while_suffix is_space s) as (d1 & H1 & Hd1).
  destruct (drop_while_suffix is_space (rev (drop_while is_space s))) as (d2 & H2 & Hd2).
  exists d1, (rev d2). split; [|split; [exact Hd1|]].
  - rewrite H1 at 1. f_equal. rewrite <- rev_app_distr, <- H2. by rewrite rev_involutive.
  - apply Forall_forall. intros c Hc%list_elem_of_In%in_rev.
    rewrite Forall_forall in Hd2. by apply Hd2, list_elem_of_In.
Qed.

(** [pieces.join(sep)] for a separator of one character. *)
Fixpoint join_on (sep : Z) (pieces : list (list Z)) : list Z :=
  match pieces with
  | [] => []
  | [piece] => piece
  | piece :: rest => piece ++ sep :: join_on sep rest
  end.

Lemma split_on_nonempty (sep : Z) (s : list Z) : split_on sep s <> [].
Proof.
  induction s as [|c r IH]; cbn [split_on]; [done|].
  destruct (c =? sep); [done|]. by destruct (split_on sep r).
Qed.

Lemma split_on_join (sep : Z) (s : list Z) : join_on sep (split_on sep s) = s.
Proof.
  induction s as [|c r IH]; cbn [split_on]; [done|].
  destruct (c =? sep) eqn:Hc.
  - apply Z.eqb_eq in Hc as ->. cbn [join_on].
    pose proof (split_on_nonempty sep r). destruct (split_on sep r); [done|].
    cbn [app]. by rewrite IH.
  - pose proof (split_on_nonempty sep r).
    destruct (split_on sep r) as [|piece pieces]; [done|].
    cbn [join_on] in *. destruct pieces; cbn [app]; by rewrite <- IH.
Qed.

Lemma split_on_pieces (sep : Z) (s : list Z) :
  Forall (fun piece => sep ∉ piece) (split_on sep s).
Proof.
  induction s as [|c r IH]; cbn [split_on].
  - constructor; [apply not_elem_of_nil | constructor].
  - destruct (c =? sep) eqn:Hc.
    + constructor; [apply not_elem_of_nil | exact IH].
    + apply Z.eqb_neq in Hc. destruct (split_on sep r) as [|piece pieces].
      * constructor; [|constructor]. by intros ->%list_elem_of_singleton.
      * inversion_clear IH as [|? ? Hp Hps]. constructor; [|exact Hps].
        intros [->|?]%elem_of_cons; done.
Qed.

Lemma split_on_first (sep : Z) (a b : list Z) :
  sep ∉ a -> split_on sep (a ++ sep :: b) = a :: split_on sep b.
Proof.
  induction a as [|c a IH]; intros Ha; cbn [app split_on].
  - by rewrite Z.eqb_refl.
  - apply not_elem_of_cons in Ha as [Hc Ha]. apply not_eq_sym, Z.eqb_neq in Hc.
    rewrite Hc, IH by exact Ha. done.
Qed.

Lemma split_on_last (sep : Z) (a : list Z) : sep ∉ a -> split_on sep a = [a].
Proof.
  induction a as [|c a IH]; intros Ha; cbn [split_on]; [done|].
  apply not_elem_of_cons in Ha as [Hc Ha]. apply not_eq_sym, Z.eqb_neq in Hc.
  by rewrite Hc, IH.
Qed.

Lemma take_while_all (p : Z -> bool) (l : list Z) :
  Forall (fun c => p c = true) l -> take_while p l = l.
Proof. induction 1 as [|c l Hc _ IH]; simpl; [done|]. by rewrite Hc, IH. Qed.

Lemma trim_keeps_first (c : Z) (r : list Z) :
  is_space c = false -> exists r', trim (c :: r) = c :: r'.
Proof.
  intros Hc. destruct (trim_sublist (c :: r)) as (before & after & Heq & Hb & Ha).
  destruct before as [|b before].
  - destruct (trim (c :: r)) as [|x t]; cbn [app] in Heq.
    + rewrite <- Heq in Ha. inversion_clear Ha. congruence.
    + injection Heq as <- _. by exists t.
  - injection Heq as <- _. inversion_clear Hb. congruence.
Qed.

(** ** The columns of a line *)

(** X20.  [extractGreek] yields trimmed text; the text has no opening parenthesis
    unless the column begins with one; extracting again changes nothing;
    and from a column of the form [greek (transliteration)] it yields the
    Greek, trimmed. *)
Theorem extractGreek_facts (greekCol : list Z) :
  (stops is_space (extractGreek greekCol) /\ ends_clear is_space (extractGreek greekCol))
  /\ ((forall r, greekCol <> 0x28 :: r) -> 0x28 ∉ extractGreek greekCol)
  /\ extractGreek (extractGreek greekCol) = extractGreek greekCol
  /\ (forall greek rest, greek <> [] -> 0x28 ∉ greek ->
        greekCol = greek ++ 0x28 :: rest -> extractGreek greekCol = trim greek).
Proof.
  set (p := fun c : Z => negb (c =? 0x28)).
  assert (forall l, Forall (fun c => p c = true) l <-> 0x28 ∉ l) as Hp.
  { intros l. rewrite Forall_forall. unfold p. split.
    - intros H Hin. specialize (H _ Hin). done.
    - intros H c Hc. apply negb_true_iff, Z.eqb_neq. by intros ->. }
  assert (forall l, 0x28 ∉ l -> 0x28 ∉ trim l) as Htrim.
  { intros l Hl Hin. destruct (trim_sublist l) as (b & a & Heq & _).
    apply Hl. rewrite Heq, !elem_of_app. auto. }
  assert (forall l, 0x28 ∉ l -> extractGreek l = trim l) as Hplain.
  { intros l Hl. unfold extractGreek. fold p. rewrite take_while_all by by apply Hp.
    by destruct l. }
  unfold extractGreek. fold p.
  destruct (take_while p greekCol) as [|c m] eqn:Htake.
  - split; [apply trim_clear|]. split; [|split].
    + intros Hstart. destruct greekCol as [|c r]; [apply not_elem_of_nil|].
      cbn [take_while] in Htake. destruct (p c) eqn:Hc; [done|].
      unfold p in Hc. apply negb_false_iff, Z.eqb_eq in Hc as ->. by destruct (Hstart r).
    + destruct greekCol as [|c r]; [done|].
      cbn [take_while] in Htake. destruct (p c) eqn:Hc; [done|].
      unfold p in Hc. apply negb_false_iff, Z.eqb_eq in Hc as ->.
      destruct (trim_keeps_first 0x28 r eq_refl) as [r' Hr']. rewrite Hr'.
      cbn [take_while]. change (p 0x28) with false. cbn iota.
      by rewrite <- Hr', trim_trim.
    + intros greek rest Hne Hg ->. destruct greek as [|g greek]; [done|].
      cbn [app take_while] in Htake. apply Hp in Hg. inversion_clear Hg as [|? ? Hg1 _].
      by rewrite Hg1 in Htake.
  - assert (0x28 ∉ c :: m) as Hm by (apply Hp; rewrite <- Htake; apply take_while_Forall).
    split; [apply trim_clear|]. split; [|split].
    + intros _. by apply Htrim.
    + transitivity (extractGreek (trim (c :: m))); [reflexivity|].
      rewrite Hplain by by apply Htrim.
      apply trim_trim.
    + intros greek rest Hne Hg ->.
      destruct (take_while_stops p greek (0x28 :: rest)) as [Ht _];
        [by apply Hp | reflexivity |].
      rewrite Ht in Htake. by rewrite Htake.
Qed.

(** X21.  [parseStrongsAndMorph] splits at the first [=] and trims both parts; a
    column without [=] is all Strong's number, and whatever follows a
    second [=] is dropped. *)
Theorem parseStrongsAndMorph_facts (strongs morph rest : list Z) :
  EQUALS ∉ strongs -> EQUALS ∉ morph ->
  parseStrongsAndMorph strongs = (trim strongs, [])
  /\ parseStrongsAndMorph (strongs ++ EQUALS :: morph) = (trim strongs, trim morph)
  /\ parseStrongsAndMorph (strongs ++ EQUALS :: morph ++ EQUALS :: rest)
     = (trim strongs, trim morph).
Proof.
  intros Hs Hm. unfold parseStrongsAndMorph.
  rewrite (split_on_last _ strongs Hs).
  rewrite !(split_on_first _ strongs) by exact Hs.
  rewrite (split_on_last _ morph Hm), (split_on_first _ morph) by exact Hm.
  done.
Qed.

(** ** Grouping the words by verse *)

#[global] Opaque BOOK_MAP BOOK_TO_OSIS.

Section CorpusFacts.

Variable final_sigma : list Z -> list Z -> bool.







Lemma parse_lines_modelled (lines : list (list Z)) (start : gmap (list Z) (list ParsedWord)) :
  is_Some (parse_lines final_sigma lines start)
  <-> Forall (fun line => forall name,
                parse_line final_sigma line <> StoredUnderInheritedName name) lines.
Proof.
  revert start. induction lines as [|line lines IH]; intros start; cbn [parse_lines].
  - split; [constructor | by eauto].
  - rewrite Forall_cons. destruct (parse_line final_sigma line) as [|key w|name].
    + rewrite IH. intuition congruence.
    + rewrite IH. intuition congruence.
    + split; [by intros [? [=]]|]. intros [H _]. by destruct (H name).
Qed.


(** X23.  A line that is skipped can be taken out of the file, or put in,
    without any effect on the result; and a data line whose flags contain
    neither K nor k is skipped. *)
Theorem skipped_lines_do_not_matter (before after : list (list Z)) (line : list Z)
    (start : gmap (list Z) (list ParsedWord)) :
  (parse_line final_sigma line = Skipped ->
   parse_lines final_sigma (before ++ line :: after) start
   = parse_lines final_sigma (before ++ after) start)
  /\ (forall parsed,
        parseReference final_sigma (trim (default [] (split_on 0x09 line !! 0%nat)))
          = Some parsed ->
        isTrWord (type parsed) = false ->
        parse_line final_sigma line = Skipped).
Proof.
  split.
  - intros Hline. revert start. induction before as [|l before IH]; intros start;
      cbn [app parse_lines].
    + by rewrite Hline.
    + destruct (parse_line final_sigma l); [apply IH | apply IH | done].
  - intros parsed Hparsed Htr. unfold parse_line.
    destruct (is_skipped_line line); [done|]. cbv zeta.
    destruct (length (split_on 9 line) <? 5)%nat; [done|].
    destruct (_ || _); [done|]. by rewrite Hparsed, Htr.
Qed.

(** X24.  A data line whose book code is neither in [BOOK_MAP] nor the name of a
    member of [Object.prototype] is skipped. *)
Theorem unknown_book_code_is_skipped (line : list Z) (parsed : ParsedReference) :
  parseReference final_sigma (trim (default [] (split_on 0x09 line !! 0%nat))) = Some parsed ->
  BOOK_MAP !! book parsed = None ->
  book parsed ∉ Object_prototype_members ->
  parse_line final_sigma line = Skipped.
Proof.
  intros Hparsed Hbook Hmember. unfold parse_line.
  destruct (is_skipped_line line); [done|]. cbv zeta.
  destruct (length (split_on 9 line) <? 5)%nat; [done|].
  destruct (_ || _); [done|]. rewrite Hparsed.
  destruct (negb (isTrWord (type parsed))); [done|].
  destruct (parseStrongsAndMorph _) as [strongs morph].
  destruct (extractGreek _); [done|].
  unfold BOOK_MAP_lookup. rewrite Hbook.
  by rewrite bool_decide_eq_false_2.
Qed.

End CorpusFacts.

(** * Further properties of verse records *)

(** X12.  The sort of [saveVerse] is stable and leaves sorted input alone: words
    with the same word number keep the order in which they were collected,
    a list already in ascending order is returned as it is, and sorting
    twice is sorting once. *)
Theorem sort_words_stable_and_idempotent (words : list ParsedWord) :
  (forall n, filter (fun w => w_wordNum w = n) (sort_words words)
             = filter (fun w => w_wordNum w = n) words)
  /\ (StronglySorted (fun a b => w_wordNum a <= w_wordNum b) words ->
      sort_words words = words)
  /\ sort_words (sort_words words) = sort_words words.
Proof.
  split; [intros n; apply sort_words_stable|].
  split; [apply sort_words_sorted_fixed|].
  apply sort_words_sorted_fixed, sort_words_sorted.
Qed.

(** X13.  The totals object has the three keys [standard], [ordinal] and
    [reduced] as soon as there is a word, and no key at all for an empty
    list of words: a total of an empty verse is [undefined], not 0. *)
Theorem verse_totals_keys (entries : list WordEntry) :
  (entries = [] -> verse_totals entries = ∅)
  /\ (entries <> [] ->
      forall k, is_Some (verse_totals entries !! k)
                <-> k = "standard"%string \/ k = "ordinal"%string \/ k = "reduced"%string).
Proof.
  destruct (verse_totals_spec entries) as (_ & Hkeys & Hempty). split; [exact Hempty|].
  exact Hkeys.
Qed.

(** ** The text of a verse *)







(** * Further properties of loading *)

#[global] Instance js_value_eq_dec : EqDecision js_value.
Proof. solve_decision. Defined.

Definition is_str (expected : list Z) (v : js_value) : bool :=
  match v with
  | Str s => bool_decide (s = expected)
  | NotAString => false
  end.

Lemma is_str_spec (expected : list Z) (v : js_value) :
  is_str expected v = true <-> v = Str expected.
Proof.
  destruct v as [s|]; cbn; [|done]. rewrite bool_decide_eq_true.
  split; [by intros -> | by intros [= ->]].
Qed.

Lemma BOOK_TO_OSIS_values :
  forallb (fun e => is_str e.2 (toOsis e.2) && is_str e.2 (toOsis e.1))
    (map_to_list BOOK_TO_OSIS) = true.
Proof. vm_compute. reflexivity. Qed.

Lemma toOsis_own (book osisBook : list Z) :
  BOOK_TO_OSIS !! book = Some osisBook ->
  toOsis book = Str osisBook /\ toOsis osisBook = Str osisBook.
Proof.
  intros H. pose proof BOOK_TO_OSIS_values as Hall. rewrite forallb_forall in Hall.
  apply elem_of_map_to_list, list_elem_of_In, Hall in H. cbn [fst snd] in H.
  apply andb_true_iff in H as [H1 H2]. split; apply is_str_spec; assumption.
Qed.

Lemma listBooks_keys :
  forallb (fun b => match BOOK_TO_OSIS !! b with Some _ => true | None => false end) listBooks
  && bool_decide (NoDup listBooks)
  && bool_decide (NoDup (toOsis <$> listBooks))
  && (length listBooks =? 27)%nat
  && (size BOOK_TO_OSIS =? 27)%nat = true.
Proof. vm_compute. reflexivity. Qed.

Lemma prototype_members_not_strings :
  forallb (fun b => match toOsis b with NotAString => true | Str _ => false end)
    Object_prototype_members = true.
Proof. vm_compute. reflexivity. Qed.

(** X15.  [toOsis] maps each of the 27 names of [listBooks] to its own directory
    name, different names to different directories, and maps a directory
    name it has produced to itself: a book can be asked for by its OSIS
    code as well. *)
Theorem toOsis_facts :
  (forall book osisBook, toOsis book = Str osisBook -> toOsis osisBook = Str osisBook)
  /\ length listBooks = 27%nat
  /\ NoDup listBooks
  /\ (forall book, book ∈ listBooks ->
        exists osisBook, BOOK_TO_OSIS !! book = Some osisBook /\ toOsis book = Str osisBook)
  /\ (forall book book', book ∈ listBooks -> book' ∈ listBooks ->
        toOsis book = toOsis book' -> book = book').
Proof.
  pose proof listBooks_keys as [[[[Hkeys Hnodup]%andb_true_iff Hinj]%andb_true_iff
                                   Hlen]%andb_true_iff Hsize]%andb_true_iff.
  apply bool_decide_eq_true in Hnodup, Hinj. apply Nat.eqb_eq in Hlen.
  split; [|split; [exact Hlen|split; [exact Hnodup|split]]].
  - intros book osisBook Hbook.
    destruct (BOOK_TO_OSIS !! book) as [o|] eqn:Hown.
    + destruct (toOsis_own book o Hown) as [H1 H2]. rewrite H1 in Hbook.
      by injection Hbook as <-.
    + unfold toOsis in Hbook. rewrite Hown in Hbook.
      destruct (bool_decide (book ∈ Object_prototype_members)) eqn:Hmember; [done|].
      injection Hbook as <-. unfold toOsis. by rewrite Hown, Hmember.
  - intros book Hbook. rewrite forallb_forall in Hkeys.
    apply list_elem_of_In, Hkeys in Hbook.
    destruct (BOOK_TO_OSIS !! book) as [o|] eqn:Hown; [|done].
    exists o. split; [done|]. by apply toOsis_own.
  - intros book book' Hb Hb' Heq.
    apply list_elem_of_lookup in Hb as [i Hi]. apply list_elem_of_lookup in Hb' as [j Hj].
    assert (i = j) as ->; [|congruence].
    apply (NoDup_lookup (toOsis <$> listBooks) i j (toOsis book) Hinj);
      rewrite list_lookup_fmap.
    * by rewrite Hi.
    * by rewrite Hj, Heq.
Qed.

(** X16.  A book name that is the name of a member of [Object.prototype]
    ([constructor], [toString], ...) makes both lookups fail with a
    [TypeError], whatever the data holds: the name is looked up in
    [BOOK_TO_OSIS], the inherited member is found, and [path.join] rejects
    it before the [try] block is entered.  The failure is not the "not
    found" error. *)
Theorem inherited_book_name_throws_TypeError (fs : FileSystem) (book : list Z)
    (chapter verse : Z) :
  book ∈ Object_prototype_members ->
  loadVerse fs book chapter verse = Rejected TypeError
  /\ loadChapter fs book chapter = Rejected TypeError.
Proof.
  intros Hbook. apply inherited_name_TypeError.
  pose proof prototype_members_not_strings as H. rewrite forallb_forall in H.
  apply list_elem_of_In, H in Hbook. by destruct (toOsis book).
Qed.

(** X17.  [loadVerse] returns a value exactly when the file of the verse is there
    and holds JSON text, and the value is what [JSON.parse] makes of the
    text: nothing is checked or changed. *)
Theorem loadVerse_returns_parsed_file (fs : FileSystem) (book osisBook : list Z)
    (chapter verse : Z) (data : json) :
  toOsis book = Str osisBook ->
  (loadVerse fs book chapter verse = Resolved data
   <-> exists content,
         files fs !! verse_path osisBook chapter verse = Some content
         /\ JSON_parse content = Some data).
Proof.
  intros Hbook. rewrite (loadVerse_outcome fs book osisBook chapter verse Hbook).
  destruct (files fs !! _) as [content|].
  - destruct (JSON_parse content) as [d|] eqn:Hd.
    + split.
      * intros [= <-]. exists content. split; [reflexivity | exact Hd].
      * intros (c & [= <-] & Hc). congruence.
    + split; [done|]. intros (c & [= <-] & Hc). congruence.
  - split; [done|]. by intros (c & [=] & _).
Qed.


(** ** The order of the verses of a chapter *)





(** * From the importer to the loader *)









Lemma BOOK_MAP_values :
  forallb (fun e => negb (bool_decide (DOT ∈ e.2))
                    && existsb (fun name => is_str e.2 (toOsis name)) listBooks)
    (map_to_list BOOK_MAP) = true.
Proof. vm_compute. reflexivity. Qed.



(** X26.  The importer and the loader agree on the directories: every directory
    name the importer stores words under is the one [toOsis] gives for one
    of the names of [listBooks], and the other way round. *)
Theorem importer_and_loader_directories :
  (forall code osisBook, BOOK_MAP !! code = Some osisBook ->
     exists name, name ∈ listBooks /\ toOsis name = Str osisBook)
  /\ (forall name, name ∈ listBooks ->
        exists code osisBook, BOOK_MAP !! code = Some osisBook /\ toOsis name = Str osisBook).
Proof.
  split.
  - intros code osisBook Hbook.
    pose proof BOOK_MAP_values as Hvalues. rewrite forallb_forall in Hvalues.
    apply elem_of_map_to_list, list_elem_of_In, Hvalues in Hbook. cbn [fst snd] in Hbook.
    apply andb_true_iff in Hbook as [_ H].
    apply existsb_exists in H as (name & Hname & H). exists name.
    split; [by apply list_elem_of_In | by apply is_str_spec].
  - assert (forallb (fun name =>
                       existsb (fun e => is_str e.2 (toOsis name)) (map_to_list BOOK_MAP))
              listBooks = true) as H by (vm_compute; reflexivity).
    intros name Hname. rewrite forallb_forall in H.
    apply list_elem_of_In, H, existsb_exists in Hname as ([code osisBook] & He & Hn).
    exists code, osisBook. split.
    + by apply elem_of_map_to_list, list_elem_of_In.
    + by apply is_str_spec.
Qed.


Lemma membership_tests_agree_witness :
  (0x212A ∉ js "K(O)")
  /\ has_tr_flag sigma_final_at_end (js "K(O)") = isTrWord (js "K(O)").
Proof.
  assert (0x212A ∉ js "K(O)") as H.
  { intros H%list_elem_of_In. vm_compute in H. intuition discriminate. }
  split; [exact H|]. exact (membership_tests_agree sigma_final_at_end (js "K(O)") H).
Defined.

Lemma reduce_value_digital_root_witness :
  1 <= 24 /\ reduce_value 24 = 1 + (24 - 1) mod 9.
Proof. split; [lia|]. apply reduce_value_digital_root. lia. Defined.

Lemma inherited_book_name_throws_TypeError_witness :
  js "constructor" ∈ Object_prototype_members
  /\ loadVerse {| files := ∅; directories := ∅ |} (js "constructor") 1 1 = Rejected TypeError.
Proof.
  assert (js "constructor" ∈ Object_prototype_members) as H by (apply list_elem_of_In; vm_compute; left; reflexivity).
  split; [exact H|].
  exact (proj1 (inherited_book_name_throws_TypeError
                  {| files := ∅; directories := ∅ |} (js "constructor") 1 1 H)).
Defined.

Definition sample_files : FileSystem :=
  {| files := {[ [js "John"; js "1"; js "2.json"] := js "{}";
                 [js "John"; js "1"; js "10.json"] := js "[]" ]};
     directories := {[ [js "John"; js "1"] := [js "10.json"; js "2.json"; js "notes.txt"] ]} |}.

Lemma loadVerse_returns_parsed_file_witness :
  toOsis (js "John") = Str (js "John")
  /\ loadVerse sample_files (js "John") 1 2 = Resolved (JObject []).
Proof.
  assert (toOsis (js "John") = Str (js "John")) as H by (vm_compute; reflexivity).
  split; [exact H|].
  apply (proj2 (loadVerse_returns_parsed_file sample_files (js "John") (js "John") 1 2
                  (JObject []) H)).
  exists (js "{}"). split; vm_compute; reflexivity.
Defined.



Lemma parseStrongsAndMorph_facts_witness :
  (EQUALS ∉ js "G0976") /\ (EQUALS ∉ js "N-NSF")
  /\ parseStrongsAndMorph (js "G0976" ++ EQUALS :: js "N-NSF") = (trim (js "G0976"), trim (js "N-NSF")).
Proof.
  assert (EQUALS ∉ js "G0976") as H1.
  { intros H%list_elem_of_In. vm_compute in H. intuition discriminate. }
  assert (EQUALS ∉ js "N-NSF") as H2.
  { intros H%list_elem_of_In. vm_compute in H. intuition discriminate. }
  split; [exact H1|]. split; [exact H2|].
  exact (proj1 (proj2 (parseStrongsAndMorph_facts (js "G0976") (js "N-NSF") [] H1 H2))).
Defined.



Definition sample_unknown_line : list Z :=
  js "Xyz.1.1#01=K" ++ 0x09 :: js "α" ++ 0x09 :: js "a" ++ 0x09 :: js "G1=N" ++ 0x09 :: js "a".

Lemma unknown_book_code_is_skipped_witness :
  parse_line sigma_final_at_end sample_unknown_line = Skipped.
Proof.
  apply (unknown_book_code_is_skipped sigma_final_at_end sample_unknown_line
           {| book := js "Xyz"; chapter := 1; verse := 1; wordNum := 1; type := js "K" |}).
  - vm_compute. reflexivity.
  - vm_compute. reflexivity.
  - intros H%list_elem_of_In. vm_compute in H. intuition discriminate.
Defined.


